(** * ClubOK booking bot: a shallow embedding of [bot.py]

    The bot keeps three process-wide dictionaries ([bookings_db],
    [tables_db], [reviews_db]) and one finite-state session per user
    (aiogram's [MemoryStorage]).  Every handler of [bot.py] is embedded as
    a function on that state, and the dispatcher as the function that
    picks the first registered handler whose filters accept an update.

    Modelling conventions.
    - Python [str] values are Rocq strings holding the UTF-8 bytes of the
      text.  Equality, [startswith], and [split]/[replace] on ASCII
      separators are computed on the bytes; the library functions whose
      result depends on Unicode tables or on aiogram ([str.isdigit],
      [int], [len], [strptime], the [Command] and [regexp] filters) are
      fields of the class [Platform].
    - The clock is part of the incoming update: a message carries the
      values that [date.today()], [str(datetime.now().timestamp())] and
      [datetime.now().isoformat()] have while it is handled.
    - Every update is taken to come from a private chat, where
      [message.chat.id] is [message.from_user.id]: sessions are keyed by
      the sender, and [message.answer] and [callback.message.answer] send
      to the sender.  [bot.py] filters no chat type; in a group chat the
      same calls would send to the group.
    - Outgoing calls are recorded as a list of [Action]s with the message
      template and its data instead of the rendered Russian text.  A call
      to the transport is taken to return normally, and so is a write of
      the data file from inside a handler: the [except] branches that
      guard nothing but a send or a write (in [notify_admins],
      [save_data], [cmd_start], around the message to the customer in
      [process_confirm] and [process_admin_comment]) are not reached and
      their [logger.error] is not recorded.
    - An exception raised inside a handler is the outcome [Raised]; the
      handler's own [try]/[except] decides what happens then.
    - The file [data.json] is a value of [DataFile] on a [Disk] that can
      or cannot be written; a recorded [SaveData] action is played on the
      disk by [commit]. *)

From stdpp Require Import gmap strings list fin_maps.
From Stdlib Require Import ZArith Ascii String.

Local Open Scope string_scope.
Local Open Scope Z_scope.
Local Open Scope list_scope.

(** ** Text helpers *)

Module Text.

Definition chars (s : string) : list ascii := list_ascii_of_string s.
Definition of_chars (l : list ascii) : string := string_of_list_ascii l.

(** [s.startswith(p)] *)
Definition startswith (p s : string) : bool := String.prefix p s.

Fixpoint is_prefix (p s : list ascii) : bool :=
  match p, s with
  | [], _ => true
  | a :: p', b :: s' => Ascii.eqb a b && is_prefix p' s'
  | _ :: _, [] => false
  end.

(** Left-to-right scan of [str.split(sep)] for a non-empty separator:
    [skip] counts the separator characters still to be dropped, [cur] is
    the piece being read, in reverse. *)
Fixpoint split_go (sep : list ascii) (skip : nat) (cur s : list ascii)
  : list string :=
  match s with
  | [] => [of_chars (rev cur)]
  | c :: s' =>
      match skip with
      | S k => split_go sep k cur s'
      | O =>
          if is_prefix sep s
          then of_chars (rev cur) :: split_go sep (List.length sep - 1) [] s'
          else split_go sep 0 (c :: cur) s'
      end
  end.

(** [s.split(sep)] *)
Definition split (sep s : string) : list string :=
  split_go (chars sep) 0 [] (chars s).

(** [s.replace('.', '')] *)
Definition remove_dots (s : string) : string :=
  of_chars (List.filter (fun c => negb (Ascii.eqb c ".")) (chars s)).

(** [s[-n:]] for [n > 0] *)
Definition last_chars (n : nat) (s : string) : string :=
  of_chars (skipn (List.length (chars s) - n) (chars s)).

(** [str(datetime.datetime.now().timestamp()).replace('.', '')[-8:]],
    from the text [ts] of the timestamp *)
Definition make_id (ts : string) : string := last_chars 8 (remove_dots ts).

Definition is_ascii_digit (c : ascii) : bool :=
  (48 <=? nat_of_ascii c)%nat && (nat_of_ascii c <=? 57)%nat.

Definition is_7bit (c : ascii) : bool := (nat_of_ascii c <? 128)%nat.

End Text.

(** ** Button labels the handlers compare [message.text] with *)

Module Label.
Definition book_cottage : string := "🏠 Забронировать коттедж".
Definition book_table : string := "🍾 Забронировать столик".
Definition donate : string := "💸 Оставить чаевые".
Definition review : string := "⭐️ Оставить отзыв".
Definition stats : string := "📊 Статистика".
Definition list_bookings : string := "📋 Список бронирований".
Definition cancel_booking : string := "❌ Отменить бронирование".
Definition change_tables : string := "✏️ Изменить кол-во столиков".
Definition cancel : string := "🔙 Отменить".
Definition manual_phone : string := "📞 Ввести номер вручную".
Definition skip : string := "Пропустить".
End Label.

(** ** The platform: configuration and library functions *)

Class Platform := {
  (** [ADMINS], read from the environment at start-up *)
  ADMINS : list Z;
  (** aiogram's [Command("start")] filter on the message text *)
  command_start : string -> bool;
  (** [str.isdigit] *)
  str_isdigit : string -> bool;
  (** [int(text)]; [None] is [ValueError] *)
  py_int : string -> option Z;
  (** [''.join(filter(str.isdigit, text))] *)
  digit_chars : string -> string;
  (** [len] *)
  py_len : string -> nat;
  (** [datetime.strptime(text, "%d.%m.%Y").date()] as a day number;
      [None] is [ValueError] *)
  strptime_date : string -> option Z;
  (** the filter [F.text.regexp(r'⭐️ [1-5]')] *)
  rating_regexp : string -> bool;
  (** [int(text.split()[1])]; [None] is [IndexError] or [ValueError] *)
  rating_token : string -> option Z;
  (** whether [datetime.fromisoformat] accepts the text *)
  fromisoformat_ok : string -> bool;
  (** a command starts with the prefix character [/] *)
  command_start_slash : forall t,
    command_start t = true ->
    existsb (Ascii.eqb "/") (Text.chars t) = true;
  (** the ASCII characters of a digit string are [0] to [9] *)
  str_isdigit_ascii : forall t,
    str_isdigit t = true ->
    forallb (fun c => Text.is_ascii_digit c || negb (Text.is_7bit c))
            (Text.chars t) = true
}.

(** ** Data model *)

Inductive BookingType := cottage | table.
Inductive Status := pending | confirmed | rejected.

#[export] Instance BookingType_eq_dec : EqDecision BookingType.
Proof. solve_decision. Defined.
#[export] Instance Status_eq_dec : EqDecision Status.
Proof. solve_decision. Defined.

(** The dictionary [booking_details] of [_save_booking] *)
Record Booking := mkBooking {
  b_id : string;
  b_type : BookingType;
  b_date : string;
  b_guests : Z;
  b_user_id : Z;
  b_user_name : string;
  b_phone : string;
  b_status : Status;
  b_created_at : string
}.

Definition set_status (s : Status) (b : Booking) : Booking :=
  mkBooking (b_id b) (b_type b) (b_date b) (b_guests b) (b_user_id b)
            (b_user_name b) (b_phone b) s (b_created_at b).

(** [tables_db] *)
Record Tables := mkTables { available : Z; total : Z }.

Record Review := mkReview {
  r_user_id : Z;
  r_user_name : string;
  r_rating : Z;
  r_text : option string;
  r_date : string
}.

(** [BookingStates] *)
Inductive BookingStates :=
| waiting_for_booking_type
| waiting_for_cottage_date
| waiting_for_cottage_guests
| waiting_for_table_date
| waiting_for_table_guests
| waiting_for_contact
| waiting_for_admin_comment
| waiting_for_tables_count
| waiting_for_review_rating
| waiting_for_review_text.

#[export] Instance BookingStates_eq_dec : EqDecision BookingStates.
Proof. solve_decision. Defined.

(** The keys that the handlers put into the session's data dictionary *)
Record UserData := mkUserData {
  booking_date : option string;
  guests : option Z;
  booking_type : option BookingType;
  rating : option Z;
  booking_id : option string
}.

Definition no_data : UserData := mkUserData None None None None None.

(** One record of the FSM storage: [None] is the idle state *)
Record Session := mkSession { state : option BookingStates; data : UserData }.

Definition idle : Session := mkSession None no_data.

Record World := mkWorld {
  bookings_db : gmap string Booking;
  tables_db : Tables;
  reviews_db : gmap string Review;
  storage : gmap Z Session
}.

(** [load_data] when there is no file: the default data, every session idle *)
Definition default_world : World :=
  mkWorld ∅ (mkTables 10 10) ∅ ∅.

(** ** Updates and actions *)

Record Message := mkMessage {
  from_user : Z;
  full_name : string;
  text : option string;
  contact : option string;       (* [message.contact.phone_number] *)
  today : Z;                     (* [datetime.date.today()] as a day number *)
  now_timestamp : string;        (* [str(datetime.datetime.now().timestamp())] *)
  now_iso : string               (* [datetime.datetime.now().isoformat()] *)
}.

Record CallbackQuery := mkCallback {
  cb_from_user : Z;
  cb_data : option string;
  cb_message_text : option string   (* [callback.message.text] *)
}.

Inductive Update :=
| UMessage (m : Message)
| UCallback (c : CallbackQuery).

(** Reply markups.  [Inline] lists the callback data of the buttons of
    an inline keyboard.  [BookingButtons action source] is the inline
    keyboard that [list_bookings] and [cancel_booking_start] build from
    the bookings [source]: one button with callback data [action ++ id]
    for each of the ten most recent ones. *)
Inductive Markup :=
| NoMarkup
| MainMenu                 (* [get_main_menu] *)
| AdminMenu                (* [get_admin_menu] *)
| CancelKeyboard           (* [get_cancel_keyboard] *)
| ReviewKeyboard           (* [get_review_keyboard] *)
| ContactKeyboard          (* send contact, type the number, cancel *)
| DonateLink               (* the button with [DONATE_URL] *)
| Inline (callback_data : list string)
| BookingButtons (action : string) (source : list Booking).

(** The texts the bot sends, each with the data its f-string prints *)
Inductive Template :=
| TWelcomeAdmin | TWelcomeUser | TDonateThanks
| TAskCottageDate | TAskTableDate | TBookingCancelled
| TBadDateFormat | TPastDateCottage | TPastDateTable | TDateTooFar
| TCottageTaken | TAskGuests | TEnterNumber
| TGuestsCottageRange | TGuestsTableRange
| TAskContact | TAskPhone | TBadPhone
| TDuplicatePending
| TNewBooking (b : Booking)
| TBookingAccepted
| TNoFreeTables
| TReviewNotAllowed | TAskRating | TAskReviewText | TReviewDiscarded
| TReviewThanks
| TNewReview (rating : Z) (txt : option string)
| TStats (npending nconfirmed nrejected : nat) (t : Tables)
         (rating_sum : Z) (nreviews : nat)
| TRecentBookings | TNoActiveBookings | TChooseCancel
| TTablesPrompt (t : Tables)
| TTablesPositive
| TTablesBelowBooked (booked : Z)
| TTablesChanged (t : Tables)
| TAccessDenied | TNotFound | TAlreadyProcessed | TNoFreeTablesAlert
| TNotConfirmed | TError
| TConfirmedEdit (id details : string)
| TRejectedEdit (id details : string)
| TUserConfirmed (b : Booking)
| TAskRejectReason | TAskCancelReason
| TBookingInfo (b : Booking)
| TUserRejected (b : Booking) (reason : option string)
| TAdminNotified (id : string) (reason : option string).

Inductive HandlerName :=
| H_cmd_start | H_donate_handler
| H_book_cottage_start | H_process_cottage_date | H_process_cottage_guests
| H_book_table_start | H_process_table_date | H_process_table_guests
| H_process_contact | H_process_contact_manual
| H_start_review | H_process_review_rating | H_process_review_text
| H_show_stats | H_list_bookings | H_cancel_booking_start
| H_change_tables_start | H_process_tables_count
| H_process_confirm | H_process_reject | H_process_cancel
| H_show_booking_info | H_process_admin_comment.

#[export] Instance HandlerName_eq_dec : EqDecision HandlerName.
Proof. solve_decision. Defined.

Inductive Action :=
| SendMessage (chat : Z) (t : Template) (kb : Markup)
    (* [message.answer], [callback.message.answer], [bot.send_message] *)
| EditText (t : Template)                         (* [callback.message.edit_text] *)
| AnswerCallback (user : Z) (t : option Template) (* [callback.answer] *)
| SaveData (b : gmap string Booking) (t : Tables) (r : gmap string Review)
| LogError (h : HandlerName).

(** ** The handler monad: state, recorded actions, exceptions

    A computation returns its outcome, the state it leaves and the
    actions it performed.  State changes and actions made before an
    exception stay, as in Python. *)

Inductive Outcome (A : Type) :=
| Ok (a : A)
| Raised.
Arguments Ok {A} a.
Arguments Raised {A}.

Definition M (A : Type) : Type := World -> Outcome A * World * list Action.

#[export] Instance M_ret : MRet M := fun A a w => (Ok a, w, []).

#[export] Instance M_bind : MBind M := fun A B f m w =>
  match m w with
  | (Ok a, w1, l1) =>
      match f a w1 with
      | (r, w2, l2) => (r, w2, l1 ++ l2)
      end
  | (Raised, w1, l1) => (Raised, w1, l1)
  end.

Definition raise {A : Type} : M A := fun w => (Raised, w, []).
Definition get_world : M World := fun w => (Ok w, w, []).
Definition modify (f : World -> World) : M unit := fun w => (Ok (), f w, []).
Definition emit (a : Action) : M unit := fun w => (Ok (), w, [a]).
Definition pass : M unit := mret ().

(** A dictionary or attribute access that raises when the key is missing *)
Definition require {A : Type} (o : option A) : M A :=
  match o with
  | Some a => mret a
  | None => raise
  end.

Definition set_bookings (b : gmap string Booking) (w : World) : World :=
  mkWorld b (tables_db w) (reviews_db w) (storage w).
Definition set_tables (t : Tables) (w : World) : World :=
  mkWorld (bookings_db w) t (reviews_db w) (storage w).
Definition set_reviews (r : gmap string Review) (w : World) : World :=
  mkWorld (bookings_db w) (tables_db w) r (storage w).
Definition set_storage (s : gmap Z Session) (w : World) : World :=
  mkWorld (bookings_db w) (tables_db w) (reviews_db w) s.

(** *** The FSM context of one user *)

Definition session_of (w : World) (u : Z) : Session :=
  default idle (storage w !! u).

(** [state.set_state(st)]: the data dictionary is kept *)
Definition set_state (u : Z) (st : BookingStates) : M unit :=
  modify (fun w =>
    set_storage (<[u := mkSession (Some st) (data (session_of w u))]> (storage w)) w).

(** [state.update_data(...)] *)
Definition update_data (u : Z) (f : UserData -> UserData) : M unit :=
  modify (fun w =>
    set_storage (<[u := mkSession (state (session_of w u))
                                  (f (data (session_of w u)))]> (storage w)) w).

(** [state.clear()]: no state and an empty data dictionary *)
Definition state_clear (u : Z) (w : World) : World :=
  set_storage (delete u (storage w)) w.

Definition clear (u : Z) : M unit := modify (state_clear u).

(** [state.get_data()] *)
Definition get_data (u : Z) : M UserData :=
  w ← get_world; mret (data (session_of w u)).

(** [dict.values()] *)
Definition values {A : Type} (m : gmap string A) : list A := (map_to_list m).*2.

(** [sum(1 for b in bookings_db.values() if p(b))] *)
Definition count (p : Booking -> bool) (m : gmap string Booking) : nat :=
  List.length (List.filter p (values m)).

Definition has_status (s : Status) (b : Booking) : bool :=
  bool_decide (b_status b = s).
Definition has_type (t : BookingType) (b : Booking) : bool :=
  bool_decide (b_type b = t).

(** [save_data({'bookings': ..., 'tables': ..., 'reviews': ...})] *)
Definition save_data : M unit :=
  w ← get_world; emit (SaveData (bookings_db w) (tables_db w) (reviews_db w)).

(** The three shapes of [try: ... except Exception as e:] in the file *)
Definition except_clear (h : HandlerName) (u : Z) (body : M unit)
  : World -> World * list Action := fun w =>
  match body w with
  | (Ok _, w', acts) => (w', acts)
  | (Raised, w', acts) => (state_clear u w', acts ++ [LogError h])
  end.

Definition except_log (h : HandlerName) (body : M unit)
  : World -> World * list Action := fun w =>
  match body w with
  | (Ok _, w', acts) => (w', acts)
  | (Raised, w', acts) => (w', acts ++ [LogError h])
  end.

Definition except_answer (h : HandlerName) (u : Z) (body : M unit)
  : World -> World * list Action := fun w =>
  match body w with
  | (Ok _, w', acts) => (w', acts)
  | (Raised, w', acts) =>
      (w', acts ++ [LogError h; AnswerCallback u (Some TError)])
  end.

Definition newline2 : string :=
  String (ascii_of_nat 10) (String (ascii_of_nat 10) EmptyString).

Section Handlers.
Context {platform : Platform}.

Definition is_admin (u : Z) : bool := bool_decide (u ∈ ADMINS).

(** [is_date_available(booking_type, date)] *)
Definition is_date_available (ty : BookingType) (date : string) (w : World)
  : bool :=
  match ty with
  | table => 0 <? available (tables_db w)
  | cottage =>
      negb (existsb (fun b => has_type cottage b && has_status confirmed b
                              && String.eqb (b_date b) date)
                    (values (bookings_db w)))
  end.

(** The inline keyboard of [notify_admins]: built only [if booking_id:] *)
Definition decision_keyboard (id : option string) : Markup :=
  match id with
  | Some i =>
      if bool_decide (i = "") then NoMarkup
      else Inline ["confirm_" +:+ i; "reject_" +:+ i]
  | None => NoMarkup
  end.

(** [notify_admins(message, booking_id)] *)
Definition notify_admins (t : Template) (id : option string) : M unit :=
  fun w => (Ok (), w,
            List.map (fun a => SendMessage a t (decision_keyboard id)) ADMINS).

Definition answer (m : Message) (t : Template) (kb : Markup) : M unit :=
  emit (SendMessage (from_user m) t kb).

Definition text_is (m : Message) (l : string) : bool :=
  bool_decide (text m = Some l).

(** *** Commands *)

Definition cmd_start (m : Message) : World -> World * list Action := fun w =>
  match (if is_admin (from_user m)
         then answer m TWelcomeAdmin AdminMenu
         else answer m TWelcomeUser MainMenu) w with
  | (Ok _, w', acts) => (w', acts)
  | (Raised, w', acts) =>
      (w', acts ++ [LogError H_cmd_start;
                    SendMessage (from_user m) TError NoMarkup])
  end.

Definition donate_handler (m : Message) : World -> World * list Action :=
  except_log H_donate_handler (answer m TDonateThanks DonateLink).

(** *** Booking a cottage *)

Definition book_cottage_start (m : Message) : World -> World * list Action :=
  except_clear H_book_cottage_start (from_user m) (
    set_state (from_user m) waiting_for_cottage_date ;;
    answer m TAskCottageDate CancelKeyboard).

Definition process_cottage_date (m : Message) : World -> World * list Action :=
  except_clear H_process_cottage_date (from_user m) (
    if text_is m Label.cancel then
      clear (from_user m) ;; answer m TBookingCancelled MainMenu
    else
      t ← require (text m);
      match strptime_date t with
      | None => answer m TBadDateFormat NoMarkup
      | Some booking_date =>
          if booking_date <? today m then answer m TPastDateCottage NoMarkup
          else if 365 <? booking_date - today m then answer m TDateTooFar NoMarkup
          else
            w ← get_world;
            if negb (is_date_available cottage t w)
            then answer m TCottageTaken NoMarkup
            else
              update_data (from_user m) (fun d =>
                mkUserData (Some t) (guests d) (booking_type d)
                           (rating d) (booking_id d)) ;;
              set_state (from_user m) waiting_for_cottage_guests ;;
              answer m TAskGuests CancelKeyboard
      end).

Definition process_cottage_guests (m : Message) : World -> World * list Action :=
  except_clear H_process_cottage_guests (from_user m) (
    if text_is m Label.cancel then
      clear (from_user m) ;; answer m TBookingCancelled MainMenu
    else
      t ← require (text m);
      if negb (str_isdigit t) then answer m TEnterNumber CancelKeyboard
      else
        g ← require (py_int t);
        if (g <? 1) || (20 <? g) then answer m TGuestsCottageRange CancelKeyboard
        else
          update_data (from_user m) (fun d =>
            mkUserData (booking_date d) (Some g) (Some cottage)
                       (rating d) (booking_id d)) ;;
          set_state (from_user m) waiting_for_contact ;;
          answer m TAskContact ContactKeyboard).

(** *** Booking a table *)

Definition book_table_start (m : Message) : World -> World * list Action :=
  except_clear H_book_table_start (from_user m) (
    w ← get_world;
    if available (tables_db w) <=? 0 then answer m TNoFreeTables NoMarkup
    else
      set_state (from_user m) waiting_for_table_date ;;
      answer m TAskTableDate CancelKeyboard).

Definition process_table_date (m : Message) : World -> World * list Action :=
  except_clear H_process_table_date (from_user m) (
    if text_is m Label.cancel then
      clear (from_user m) ;; answer m TBookingCancelled MainMenu
    else
      t ← require (text m);
      match strptime_date t with
      | None => answer m TBadDateFormat NoMarkup
      | Some booking_date =>
          if booking_date <? today m then answer m TPastDateTable NoMarkup
          else if 365 <? booking_date - today m then answer m TDateTooFar NoMarkup
          else
            update_data (from_user m) (fun d =>
              mkUserData (Some t) (guests d) (booking_type d)
                         (rating d) (booking_id d)) ;;
            set_state (from_user m) waiting_for_table_guests ;;
            answer m TAskGuests CancelKeyboard
      end).

Definition process_table_guests (m : Message) : World -> World * list Action :=
  except_clear H_process_table_guests (from_user m) (
    if text_is m Label.cancel then
      clear (from_user m) ;; answer m TBookingCancelled MainMenu
    else
      t ← require (text m);
      if negb (str_isdigit t) then answer m TEnterNumber CancelKeyboard
      else
        g ← require (py_int t);
        if (g <? 1) || (10 <? g) then answer m TGuestsTableRange CancelKeyboard
        else
          update_data (from_user m) (fun d =>
            mkUserData (booking_date d) (Some g) (Some table)
                       (rating d) (booking_id d)) ;;
          set_state (from_user m) waiting_for_contact ;;
          answer m TAskContact ContactKeyboard).

(** *** Contact and creation of the booking *)

Definition is_duplicate (u : Z) (date : string) (ty : BookingType)
  (b : Booking) : bool :=
  bool_decide (b_user_id b = u) && String.eqb (b_date b) date
  && has_type ty b && has_status pending b.

(** [_save_booking(message, state, phone)].  A draft without
    [booking_date] or [booking_type] raises [KeyError] in the duplicate
    test or, at the latest, when [booking_details] is built: in both
    cases before anything is stored or sent. *)
Definition _save_booking (m : Message) (phone : string) : M unit :=
  user_data ← get_data (from_user m);
  date ← require (booking_date user_data);
  ty ← require (booking_type user_data);
  w ← get_world;
  if existsb (is_duplicate (from_user m) date ty) (values (bookings_db w))
  then
    answer m TDuplicatePending NoMarkup ;;
    clear (from_user m)
  else
    g ← require (guests user_data);
    let id := Text.make_id (now_timestamp m) in
    let booking_details :=
      mkBooking id ty date g (from_user m) (full_name m) phone pending
                (now_iso m) in
    modify (fun w => set_bookings (<[id := booking_details]> (bookings_db w)) w) ;;
    save_data ;;
    notify_admins (TNewBooking booking_details) (Some id) ;;
    clear (from_user m) ;;
    answer m TBookingAccepted MainMenu.

Definition process_contact (m : Message) : World -> World * list Action :=
  except_clear H_process_contact (from_user m) (
    phone_number ← require (contact m);
    _save_booking m phone_number).

Definition process_contact_manual (m : Message) : World -> World * list Action :=
  except_clear H_process_contact_manual (from_user m) (
    if text_is m Label.cancel then
      clear (from_user m) ;; answer m TBookingCancelled MainMenu
    else if text_is m Label.manual_phone then
      answer m TAskPhone CancelKeyboard
    else
      t ← require (text m);
      let phone := digit_chars t in
      if (py_len phone <? 11)%nat then answer m TBadPhone NoMarkup
      else _save_booking m phone).

(** *** Reviews *)

Definition start_review (m : Message) : World -> World * list Action :=
  except_clear H_start_review (from_user m) (
    w ← get_world;
    if negb (existsb (fun b => bool_decide (b_user_id b = from_user m)
                               && has_status confirmed b)
                     (values (bookings_db w)))
    then answer m TReviewNotAllowed NoMarkup
    else
      set_state (from_user m) waiting_for_review_rating ;;
      answer m TAskRating ReviewKeyboard).

Definition process_review_rating (m : Message) : World -> World * list Action :=
  except_clear H_process_review_rating (from_user m) (
    t ← require (text m);
    r ← require (rating_token t);
    update_data (from_user m) (fun d =>
      mkUserData (booking_date d) (guests d) (booking_type d)
                 (Some r) (booking_id d)) ;;
    set_state (from_user m) waiting_for_review_text ;;
    answer m TAskReviewText CancelKeyboard).

Definition process_review_text (m : Message) : World -> World * list Action :=
  except_clear H_process_review_text (from_user m) (
    if text_is m Label.cancel then
      clear (from_user m) ;; answer m TReviewDiscarded MainMenu
    else
      user_data ← get_data (from_user m);
      let review_id := Text.make_id (now_timestamp m) in
      r ← require (rating user_data);
      let txt := if text_is m Label.skip then Some "" else text m in
      modify (fun w =>
        set_reviews (<[review_id :=
                         mkReview (from_user m) (full_name m) r txt (now_iso m)]>
                       (reviews_db w)) w) ;;
      save_data ;;
      clear (from_user m) ;;
      answer m TReviewThanks MainMenu ;;
      notify_admins (TNewReview r txt) None).

(** *** Administrator commands *)

Definition show_stats (m : Message) : World -> World * list Action :=
  except_log H_show_stats (
    if negb (is_admin (from_user m)) then pass
    else
      w ← get_world;
      answer m (TStats (count (has_status pending) (bookings_db w))
                       (count (has_status confirmed) (bookings_db w))
                       (count (has_status rejected) (bookings_db w))
                       (tables_db w)
                       (foldr Z.add 0 (r_rating <$> values (reviews_db w)))
                       (List.length (values (reviews_db w))))
               NoMarkup).

Definition list_bookings (m : Message) : World -> World * list Action :=
  except_log H_list_bookings (
    if negb (is_admin (from_user m)) then pass
    else
      w ← get_world;
      answer m TRecentBookings (BookingButtons "info_" (values (bookings_db w)))).

Definition cancel_booking_start (m : Message) : World -> World * list Action :=
  except_log H_cancel_booking_start (
    if negb (is_admin (from_user m)) then pass
    else
      w ← get_world;
      let active_bookings :=
        List.filter (has_status confirmed) (values (bookings_db w)) in
      match active_bookings with
      | [] => answer m TNoActiveBookings NoMarkup
      | _ :: _ => answer m TChooseCancel (BookingButtons "cancel_" active_bookings)
      end).

Definition change_tables_start (m : Message) : World -> World * list Action :=
  except_clear H_change_tables_start (from_user m) (
    if negb (is_admin (from_user m)) then pass
    else
      set_state (from_user m) waiting_for_tables_count ;;
      w ← get_world;
      answer m (TTablesPrompt (tables_db w)) NoMarkup).

Definition process_tables_count (m : Message) : World -> World * list Action :=
  except_clear H_process_tables_count (from_user m) (
    t ← require (text m);
    if negb (str_isdigit t) then answer m TEnterNumber NoMarkup
    else
      new_count ← require (py_int t);
      if new_count <? 1 then answer m TTablesPositive NoMarkup
      else
        w ← get_world;
        let booked_tables := total (tables_db w) - available (tables_db w) in
        if new_count <? booked_tables
        then answer m (TTablesBelowBooked booked_tables) NoMarkup
        else
          modify (set_tables (mkTables (new_count - booked_tables) new_count)) ;;
          save_data ;;
          clear (from_user m) ;;
          w' ← get_world;
          answer m (TTablesChanged (tables_db w')) AdminMenu).

(** *** Callback handlers *)

(** [callback.data.split('_')[1]] *)
Definition callback_booking_id (c : CallbackQuery) : M string :=
  d ← require (cb_data c);
  require (Text.split "_" d !! 1%nat).

(** [callback.message.text.split('\n\n')[1]] *)
Definition message_details (c : CallbackQuery) : M string :=
  t ← require (cb_message_text c);
  require (Text.split newline2 t !! 1%nat).

Definition answer_callback (c : CallbackQuery) (t : option Template) : M unit :=
  emit (AnswerCallback (cb_from_user c) t).

Definition process_confirm (c : CallbackQuery) : World -> World * list Action :=
  except_answer H_process_confirm (cb_from_user c) (
    id ← callback_booking_id c;
    w ← get_world;
    match bookings_db w !! id with
    | None => answer_callback c (Some TNotFound)
    | Some booking =>
        if negb (has_status pending booking)
        then answer_callback c (Some TAlreadyProcessed)
        else if has_type table booking && (available (tables_db w) <=? 0)
        then answer_callback c (Some TNoFreeTablesAlert)
        else
          modify (fun w =>
            set_bookings (<[id := set_status confirmed booking]> (bookings_db w)) w) ;;
          (if has_type table booking
           then modify (fun w =>
                  set_tables (mkTables (available (tables_db w) - 1)
                                       (total (tables_db w))) w)
           else pass) ;;
          save_data ;;
          details ← message_details c;
          emit (EditText (TConfirmedEdit id details)) ;;
          emit (SendMessage (b_user_id booking)
                            (TUserConfirmed (set_status confirmed booking))
                            NoMarkup) ;;
          answer_callback c None
    end).

Definition process_reject (c : CallbackQuery) : World -> World * list Action :=
  except_answer H_process_reject (cb_from_user c) (
    id ← callback_booking_id c;
    w ← get_world;
    match bookings_db w !! id with
    | None => answer_callback c (Some TNotFound)
    | Some booking =>
        if negb (has_status pending booking)
        then answer_callback c (Some TAlreadyProcessed)
        else
          modify (fun w =>
            set_bookings (<[id := set_status rejected booking]> (bookings_db w)) w) ;;
          save_data ;;
          details ← message_details c;
          emit (EditText (TRejectedEdit id details)) ;;
          set_state (cb_from_user c) waiting_for_admin_comment ;;
          update_data (cb_from_user c) (fun d =>
            mkUserData (booking_date d) (guests d) (booking_type d)
                       (rating d) (Some id)) ;;
          emit (SendMessage (cb_from_user c) TAskRejectReason NoMarkup) ;;
          answer_callback c None
    end).

Definition process_cancel (c : CallbackQuery) : World -> World * list Action :=
  except_answer H_process_cancel (cb_from_user c) (
    id ← callback_booking_id c;
    w ← get_world;
    match bookings_db w !! id with
    | None => answer_callback c (Some TNotFound)
    | Some booking =>
        if negb (has_status confirmed booking)
        then answer_callback c (Some TNotConfirmed)
        else
          set_state (cb_from_user c) waiting_for_admin_comment ;;
          update_data (cb_from_user c) (fun d =>
            mkUserData (booking_date d) (guests d) (booking_type d)
                       (rating d) (Some id)) ;;
          emit (SendMessage (cb_from_user c) TAskCancelReason NoMarkup) ;;
          answer_callback c None
    end).

Definition show_booking_info (c : CallbackQuery) : World -> World * list Action :=
  except_answer H_show_booking_info (cb_from_user c) (
    id ← callback_booking_id c;
    w ← get_world;
    match bookings_db w !! id with
    | None => answer_callback c (Some TNotFound)
    | Some booking =>
        if fromisoformat_ok (b_created_at booking) then
          emit (SendMessage (cb_from_user c) (TBookingInfo booking) NoMarkup) ;;
          answer_callback c None
        else raise
    end).

(** *** The reason of a rejection or cancellation *)

Definition process_admin_comment (m : Message) : World -> World * list Action :=
  except_clear H_process_admin_comment (from_user m) (
    user_data ← get_data (from_user m);
    id ← require (booking_id user_data);
    w ← get_world;
    match bookings_db w !! id with
    | Some booking =>
        (if negb (has_status rejected booking) then
           (if has_type table booking
            then modify (fun w =>
                   set_tables (mkTables (available (tables_db w) + 1)
                                        (total (tables_db w))) w)
            else pass) ;;
           modify (fun w =>
             set_bookings (<[id := set_status rejected booking]> (bookings_db w)) w) ;;
           save_data
         else pass) ;;
        emit (SendMessage (b_user_id booking)
                          (TUserRejected (set_status rejected booking) (text m))
                          NoMarkup) ;;
        answer m (TAdminNotified id (text m)) AdminMenu
    | None => answer m TNotFound AdminMenu
    end ;;
    clear (from_user m)).

(** ** The dispatcher *)

(** [admin_check_middleware], registered on the callback-query observer:
    it wraps the handler that the filters selected *)
Definition admin_check_middleware
  (handler : CallbackQuery -> World -> World * list Action)
  (event : CallbackQuery) : World -> World * list Action := fun w =>
  if negb (is_admin (cb_from_user event))
  then (w, [AnswerCallback (cb_from_user event) (Some TAccessDenied)])
  else handler event w.

Record MessageHandler := mkMessageHandler {
  mh_name : HandlerName;
  mh_filter : World -> Message -> bool;
  mh_run : Message -> World -> World * list Action
}.

Record CallbackHandler := mkCallbackHandler {
  ch_name : HandlerName;
  ch_prefix : string;             (* [F.data.startswith(prefix)] *)
  ch_run : CallbackQuery -> World -> World * list Action
}.

Definition current_state (w : World) (m : Message) : option BookingStates :=
  state (session_of w (from_user m)).

(** A [State] filter *)
Definition in_state (st : BookingStates) (w : World) (m : Message) : bool :=
  bool_decide (current_state w m = Some st).

(** [F.text == label] *)
Definition text_eq (l : string) (w : World) (m : Message) : bool := text_is m l.

Definition is_start_command (w : World) (m : Message) : bool :=
  match text m with
  | Some t => command_start t
  | None => false
  end.

Definition has_contact (m : Message) : bool :=
  match contact m with
  | Some _ => true
  | None => false
  end.

Definition matches_rating (m : Message) : bool :=
  match text m with
  | Some t => rating_regexp t
  | None => false
  end.

(** The message handlers in the order in which [bot.py] registers them *)
Definition message_handlers : list MessageHandler := [
  mkMessageHandler H_cmd_start is_start_command cmd_start;
  mkMessageHandler H_donate_handler (text_eq Label.donate) donate_handler;
  mkMessageHandler H_book_cottage_start (text_eq Label.book_cottage)
                   book_cottage_start;
  mkMessageHandler H_process_cottage_date (in_state waiting_for_cottage_date)
                   process_cottage_date;
  mkMessageHandler H_process_cottage_guests (in_state waiting_for_cottage_guests)
                   process_cottage_guests;
  mkMessageHandler H_book_table_start (text_eq Label.book_table) book_table_start;
  mkMessageHandler H_process_table_date (in_state waiting_for_table_date)
                   process_table_date;
  mkMessageHandler H_process_table_guests (in_state waiting_for_table_guests)
                   process_table_guests;
  mkMessageHandler H_process_contact
                   (fun w m => in_state waiting_for_contact w m && has_contact m)
                   process_contact;
  mkMessageHandler H_process_contact_manual (in_state waiting_for_contact)
                   process_contact_manual;
  mkMessageHandler H_start_review (text_eq Label.review) start_review;
  mkMessageHandler H_process_review_rating
                   (fun w m => in_state waiting_for_review_rating w m
                               && matches_rating m)
                   process_review_rating;
  mkMessageHandler H_process_review_text (in_state waiting_for_review_text)
                   process_review_text;
  mkMessageHandler H_show_stats (text_eq Label.stats) show_stats;
  mkMessageHandler H_list_bookings (text_eq Label.list_bookings) list_bookings;
  mkMessageHandler H_cancel_booking_start (text_eq Label.cancel_booking)
                   cancel_booking_start;
  mkMessageHandler H_change_tables_start (text_eq Label.change_tables)
                   change_tables_start;
  mkMessageHandler H_process_tables_count (in_state waiting_for_tables_count)
                   process_tables_count;
  mkMessageHandler H_process_admin_comment (in_state waiting_for_admin_comment)
                   process_admin_comment
].

Definition callback_handlers : list CallbackHandler := [
  mkCallbackHandler H_process_confirm "confirm_" process_confirm;
  mkCallbackHandler H_process_reject "reject_" process_reject;
  mkCallbackHandler H_process_cancel "cancel_" process_cancel;
  mkCallbackHandler H_show_booking_info "info_" show_booking_info
].

(** The first handler whose filters accept the message *)
Definition select_message (w : World) (m : Message) : option MessageHandler :=
  List.find (fun h => mh_filter h w m) message_handlers.

Definition data_startswith (p : string) (c : CallbackQuery) : bool :=
  match cb_data c with
  | Some d => Text.startswith p d
  | None => false
  end.

Definition select_callback (c : CallbackQuery) : option CallbackHandler :=
  List.find (fun h => data_startswith (ch_prefix h) c) callback_handlers.

(** The handler that receives an update, if any *)
Definition route (w : World) (u : Update) : option HandlerName :=
  match u with
  | UMessage m => mh_name <$> select_message w m
  | UCallback c => ch_name <$> select_callback c
  end.

(** One update through the dispatcher: an update that no handler accepts
    is dropped *)
Definition feed_update (w : World) (u : Update) : World * list Action :=
  match u with
  | UMessage m =>
      match select_message w m with
      | Some h => mh_run h m w
      | None => (w, [])
      end
  | UCallback c =>
      match select_callback c with
      | Some h => admin_check_middleware (ch_run h) c w
      | None => (w, [])
      end
  end.

(** The state after a sequence of updates *)
Definition run (w : World) (us : list Update) : World :=
  foldl (fun w u => (feed_update w u).1) w us.

(** ** State predicates used by the statements *)

(** Number of bookings with type [table] and status [confirmed] *)
Definition is_committed (b : Booking) : bool :=
  has_type table b && has_status confirmed b.

Definition committed (w : World) : Z :=
  Z.of_nat (count is_committed (bookings_db w)).

(** The ledger invariant of the data model *)
Definition ledger_inv (w : World) : Prop :=
  0 <= available (tables_db w) <= total (tables_db w)
  /\ total (tables_db w) - available (tables_db w) = committed w.

(** A session that waits for the reason of a rejection points at a
    stored booking that is no longer pending *)
Definition comment_target_ok (w : World) : Prop :=
  forall u s, storage w !! u = Some s ->
    state s = Some waiting_for_admin_comment ->
    exists id b, booking_id (data s) = Some id
                 /\ bookings_db w !! id = Some b
                 /\ b_status b <> pending.

Definition inv (w : World) : Prop := ledger_inv w /\ comment_target_ok w.

(** The update goes to one of the two handlers that call [_save_booking] *)
Definition may_create (w : World) (u : Update) : bool :=
  match route w u with
  | Some H_process_contact | Some H_process_contact_manual => true
  | _ => false
  end.

(** An update that may create a booking does not reuse an id of the store *)
Definition fresh_id (w : World) (u : Update) : Prop :=
  match u with
  | UMessage m =>
      may_create w u = true ->
      bookings_db w !! Text.make_id (now_timestamp m) = None
  | UCallback _ => True
  end.

Fixpoint fresh_ids (w : World) (us : list Update) : Prop :=
  match us with
  | [] => True
  | u :: us' => fresh_id w u /\ fresh_ids (feed_update w u).1 us'
  end.

(** [b] is a pending booking of user [u] for the same date and type *)
Definition duplicate_of (u : Z) (date : string) (ty : BookingType)
  (b : Booking) : Prop :=
  b_user_id b = u /\ b_date b = date /\ b_type b = ty /\ b_status b = pending.

(** The cancel input [m] brings the sender back to the idle state and
    leaves bookings, reviews and ledger as they are *)
Definition cancel_returns_to_idle (w : World) (m : Message) : Prop :=
  let w' := (feed_update w (UMessage m)).1 in
  current_state w' m = None
  /\ bookings_db w' = bookings_db w
  /\ reviews_db w' = reviews_db w
  /\ tables_db w' = tables_db w.

(** The states of the booking conversation and of the review text *)
Definition cancellable : list BookingStates :=
  [waiting_for_cottage_date; waiting_for_cottage_guests;
   waiting_for_table_date; waiting_for_table_guests;
   waiting_for_contact; waiting_for_review_text].

(** The user an update comes from *)
Definition sender (u : Update) : Z :=
  match u with
  | UMessage m => from_user m
  | UCallback c => cb_from_user c
  end.

(** The menu commands of the administrator keyboard that check [ADMINS] *)
Definition admin_commands : list HandlerName :=
  [H_show_stats; H_list_bookings; H_cancel_booking_start; H_change_tables_start].

(** The actions contain an access-denied reply to [u] *)
Definition access_denied (u : Z) (acts : list Action) : Prop :=
  In (AnswerCallback u (Some TAccessDenied)) acts
  \/ exists kb, In (SendMessage u TAccessDenied kb) acts.

(** What a booking adds to a count *)
Definition weight (p : Booking -> bool) (b : Booking) : nat :=
  if p b then 1%nat else 0%nat.

(** The two states that only an administrator is led into *)
Definition privileged (st : option BookingStates) : Prop :=
  st = Some waiting_for_admin_comment \/ st = Some waiting_for_tables_count.

(** [frame w w']: the bookings and the ledger are the same, and every
    session of [w'] in a privileged state was in that state in [w], for
    the same booking. *)
Definition frame (w w' : World) : Prop :=
  bookings_db w' = bookings_db w
  /\ tables_db w' = tables_db w
  /\ forall u s', storage w' !! u = Some s' ->
       privileged (state s') ->
       exists s, storage w !! u = Some s
                 /\ state s = state s'
                 /\ booking_id (data s) = booking_id (data s').

(** Sessions in a privileged state belong to administrators *)
Definition privileged_ok (w : World) : Prop :=
  forall u s, storage w !! u = Some s -> privileged (state s) ->
    is_admin u = true.

Definition framed {A : Type} (c : M A) : Prop := forall w, frame w (c w).1.2.

(** ** Predicates on handler bodies *)

(** The body [c] relates the state before and after by [R] and performs
    only actions that satisfy [P] *)
Definition always {A : Type} (R : relation World) (P : Action -> Prop)
  (c : M A) : Prop :=
  forall w, R w (c w).1.2 /\ Forall P (c w).2.

(** Only the session of [u] may differ *)
Definition only_session (u : Z) (w w' : World) : Prop :=
  forall v, v <> u -> storage w' !! v = storage w !! v.

(** The message with text [t] and markup [kb] shows the booking [b] *)
Definition shows (t : Template) (kb : Markup) (b : Booking) : Prop :=
  t = TNewBooking b \/ t = TBookingInfo b \/ t = TUserConfirmed b
  \/ (exists reason, t = TUserRejected b reason)
  \/ (exists action source, kb = BookingButtons action source /\ In b source).

(** A message that shows a booking goes to an administrator or to the
    user who made the booking *)
Definition discreet (a : Action) : Prop :=
  match a with
  | SendMessage chat t kb =>
      forall b, shows t kb b -> is_admin chat = true \/ chat = b_user_id b
  | _ => True
  end.

(** ** Saving *)

(** What [save_data] is given *)
Definition stores (w : World)
  : gmap string Booking * Tables * gmap string Review :=
  (bookings_db w, tables_db w, reviews_db w).

(** What the last [save_data] among the actions wrote *)
Fixpoint last_saved (acts : list Action)
  : option (gmap string Booking * Tables * gmap string Review) :=
  match acts with
  | [] => None
  | a :: l =>
      match last_saved l with
      | Some s => Some s
      | None =>
          match a with
          | SaveData b t r => Some (b, t, r)
          | _ => None
          end
      end
  end.

(** After the actions [acts] the file holds the stores of [w']: the last
    save wrote them, or nothing was saved and they are those of [w] *)
Definition saved_consistently (w w' : World) (acts : list Action) : Prop :=
  match last_saved acts with
  | Some s => s = stores w'
  | None => stores w' = stores w
  end.

Definition same_stores (w w' : World) : Prop := stores w' = stores w.

Definition no_save (a : Action) : Prop :=
  match a with
  | SaveData _ _ _ => False
  | _ => True
  end.

Definition keeps {A : Type} (c : M A) : Prop :=
  forall w, saved_consistently w (c w).1.2 (c w).2.

(** The body ends with the stores saved *)
Definition writes {A : Type} (c : M A) : Prop :=
  forall w, last_saved (c w).2 = Some (stores (c w).1.2).

(** The body only changes the state *)
Definition silent (c : M unit) : Prop :=
  forall w, exists w1, c w = (Ok (), w1, []).

Definition any_state (w w' : World) : Prop := True.

(** ** The life of a booking *)

(** The changes of status that the handlers make *)
Inductive Transition : Status -> Status -> Prop :=
| confirm_pending : Transition pending confirmed
| reject_pending : Transition pending rejected
| cancel_confirmed : Transition confirmed rejected.

Definition same_bookings (w w' : World) : Prop :=
  bookings_db w' = bookings_db w.

(** The record that [_save_booking] builds for the message [m] *)
Definition new_booking (m : Message) (phone date : string) (ty : BookingType)
  (g : Z) : Booking :=
  mkBooking (Text.make_id (now_timestamp m)) ty date g (from_user m)
            (full_name m) phone pending (now_iso m).

(** No stored booking is a pending one of [u] for the same date and type *)
Definition no_duplicate (u : Z) (date : string) (ty : BookingType)
  (w : World) : Prop :=
  forall i b, bookings_db w !! i = Some b -> ~ duplicate_of u date ty b.

(** What one update does to the bookings: nothing, one change of status,
    or one new pending record built from the draft of the sender *)
Definition bookings_change (w : World) (u : Update) (w' : World) : Prop :=
  bookings_db w' = bookings_db w
  \/ (exists id b s,
        bookings_db w !! id = Some b /\ Transition (b_status b) s
        /\ bookings_db w' = <[id:=set_status s b]> (bookings_db w))
  \/ (exists m phone date ty g,
        u = UMessage m /\ may_create w u = true
        /\ booking_date (data (session_of w (from_user m))) = Some date
        /\ booking_type (data (session_of w (from_user m))) = Some ty
        /\ guests (data (session_of w (from_user m))) = Some g
        /\ no_duplicate (from_user m) date ty w
        /\ bookings_db w'
           = <[Text.make_id (now_timestamp m) := new_booking m phone date ty g]>
               (bookings_db w)).

(** At most one pending booking for a user, a date as typed and a type *)
Definition unique_pending (w : World) : Prop :=
  forall i j bi bj,
    bookings_db w !! i = Some bi -> bookings_db w !! j = Some bj ->
    b_status bi = pending -> b_status bj = pending ->
    b_user_id bi = b_user_id bj -> b_date bi = b_date bj ->
    b_type bi = b_type bj ->
    i = j.


(** A status and the ones that can follow it *)
Definition advanced (s s' : Status) : Prop := s = s' \/ Transition s s'.

(** Every booking of [w] is still stored in [w'] under its key, with the
    same fields and a status that has only moved forward *)
Definition records_kept (w w' : World) : Prop :=
  forall id b, bookings_db w !! id = Some b ->
    exists b', bookings_db w' !! id = Some b'
               /\ b' = set_status (b_status b') b
               /\ advanced (b_status b) (b_status b').

(** The party sizes that the two guest handlers accept *)
Definition in_range (ty : BookingType) (g : Z) : Prop :=
  match ty with
  | cottage => 1 <= g <= 20
  | table => 1 <= g <= 10
  end.

(** A draft whose date parses and whose party size fits its type *)
Definition draft_ok (d : UserData) : Prop :=
  (forall t, booking_date d = Some t -> is_Some (strptime_date t))
  /\ (forall ty g, booking_type d = Some ty -> guests d = Some g ->
        in_range ty g).

Definition sessions_ok (w : World) : Prop :=
  forall u s, storage w !! u = Some s -> draft_ok (data s).

(** A stored booking carries its own key, a date that parses and a
    party size that fits its type *)
Definition booking_ok (id : string) (b : Booking) : Prop :=
  b_id b = id /\ in_range (b_type b) (b_guests b)
  /\ is_Some (strptime_date (b_date b)).

Definition store_ok (w : World) : Prop :=
  forall id b, bookings_db w !! id = Some b -> booking_ok id b.

Definition drafts_kept (w w' : World) : Prop := sessions_ok w -> sessions_ok w'.


(** ** The data file *)

Definition Data : Type := gmap string Booking * Tables * gmap string Review.

(** What [data.json] holds when the bot starts.  [Malformed] is a file
    that [json.load] rejects with [JSONDecodeError]; [Unreadable] is a file
    whose opening or decoding raises another exception; [NotObject] is a
    JSON value other than an object, on which the key test or the
    assignment of a missing key raises [TypeError] (a JSON string or
    array that contains the three key names is not covered: the bot does
    not start on it); [Object b t r] is a JSON object with the values of the keys
    ['bookings'], ['tables'] and ['reviews'] that it has, of the shape
    that [save_data] writes.  Keys beside the three are left out. *)
Inductive DataFile :=
| Missing
| Malformed
| Unreadable
| NotObject
| Object (b : option (gmap string Booking)) (t : option Tables)
         (r : option (gmap string Review)).

(** The file and whether it can be opened for writing *)
Record Disk := mkDisk { file : DataFile; writable : bool }.

Definition default_data : Data := (∅, mkTables 10 10, ∅).

(** [save_data(data)] on the disk: an exception of [open] is logged and
    the file stays as it is *)
Definition write_file (d : Data) (k : Disk) : Disk :=
  if writable k
  then mkDisk (Object (Some d.1.1) (Some d.1.2) (Some d.2)) true
  else k.

(** [load_data()]: the data it returns and the disk it leaves *)
Definition load_data (k : Disk) : Data * Disk :=
  match file k with
  | Missing => (default_data, write_file default_data k)
  | Malformed => (default_data, write_file default_data k)
  | Unreadable | NotObject => (default_data, k)
  | Object b t r =>
      let d : Data := (default default_data.1.1 b, default default_data.1.2 t,
                       default default_data.2 r) in
      match b, t, r with
      | Some _, Some _, Some _ => (d, k)
      | _, _, _ => (d, write_file d k)
      end
  end.

(** The start of the program: the three stores are the loaded data and
    the FSM storage is empty *)
Definition boot (k : Disk) : World * Disk :=
  let r := load_data k in (mkWorld r.1.1.1 r.1.1.2 r.1.2 ∅, r.2).

(** The effect of the recorded calls of [save_data] on the disk *)
Definition commit (acts : list Action) (k : Disk) : Disk :=
  foldl (fun k a =>
           match a with
           | SaveData b t r => write_file (b, t, r) k
           | _ => k
           end) k acts.

(** The bot with its disk: one update, and a sequence of updates *)
Definition serve (s : World * Disk) (u : Update) : World * Disk :=
  let r := feed_update s.1 u in (r.1, commit r.2 s.2).

Definition serve_all (s : World * Disk) (us : list Update) : World * Disk :=
  foldl serve s us.

(** The disk of [s] can be written and loads as the stores of [s] *)
Definition in_step (s : World * Disk) : Prop :=
  writable s.2 = true /\ (load_data s.2).1 = stores s.1.

(** The state that a restart from the disk of [s] gives: the stores of
    [s] and no session *)
Definition restarted (s : World * Disk) : World :=
  mkWorld (bookings_db s.1) (tables_db s.1) (reviews_db s.1) ∅.


(** ** Routing by state *)

(** The menu labels whose handlers are registered before the handler of
    the state [st] *)
Definition labels_before (st : BookingStates) : list string :=
  match st with
  | waiting_for_booking_type => []
  | waiting_for_cottage_date | waiting_for_cottage_guests =>
      [Label.donate; Label.book_cottage]
  | waiting_for_table_date | waiting_for_table_guests | waiting_for_contact =>
      [Label.donate; Label.book_cottage; Label.book_table]
  | waiting_for_review_rating | waiting_for_review_text =>
      [Label.donate; Label.book_cottage; Label.book_table; Label.review]
  | waiting_for_tables_count | waiting_for_admin_comment =>
      [Label.donate; Label.book_cottage; Label.book_table; Label.review;
       Label.stats; Label.list_bookings; Label.cancel_booking;
       Label.change_tables]
  end.

(** The handler registered for the state [st], for the message [m] *)
Definition state_handler (st : BookingStates) (m : Message)
  : option HandlerName :=
  match st with
  | waiting_for_booking_type => None
  | waiting_for_cottage_date => Some H_process_cottage_date
  | waiting_for_cottage_guests => Some H_process_cottage_guests
  | waiting_for_table_date => Some H_process_table_date
  | waiting_for_table_guests => Some H_process_table_guests
  | waiting_for_contact =>
      Some (if has_contact m then H_process_contact
            else H_process_contact_manual)
  | waiting_for_review_rating =>
      if matches_rating m then Some H_process_review_rating else None
  | waiting_for_review_text => Some H_process_review_text
  | waiting_for_tables_count => Some H_process_tables_count
  | waiting_for_admin_comment => Some H_process_admin_comment
  end.

(** [m] is no command and none of the labels [ls] *)
Definition passes (ls : list string) (m : Message) : Prop :=
  match text m with
  | Some t => command_start t = false /\ ~ In t ls
  | None => True
  end.


(** ** Conversations *)

(** The session of [u] is in state [st] with the draft [d] *)
Definition put (u : Z) (st : BookingStates) (d : UserData) (w : World) : World :=
  set_storage (<[u := mkSession (Some st) d]> (storage w)) w.

Definition draft (w : World) (u : Z) : UserData := data (session_of w u).

(** In the state [st] the message [m] reaches the handler of the state
    with the text [t], which is not the cancel label *)
Definition types (st : BookingStates) (m : Message) (t : string) : Prop :=
  text m = Some t /\ t <> Label.cancel /\ passes (labels_before st) m.

(** The text [date] is a date in the format of the bot that is neither
    before the day of the message nor more than 365 days after it *)
Definition valid_date (m : Message) (date : string) : Prop :=
  exists day, strptime_date date = Some day /\ today m <= day <= today m + 365.

(** The text of [m] is the decimal numeral of [g] *)
Definition types_number (st : BookingStates) (m : Message) (g : Z) : Prop :=
  exists t, types st m t /\ str_isdigit t = true /\ py_int t = Some g.

(** The message [m] gives the phone number [phone]: as a shared contact,
    or as a text with at least eleven digits *)
Definition gives_phone (m : Message) (phone : string) : Prop :=
  passes (labels_before waiting_for_contact) m
  /\ (contact m = Some phone
      \/ (contact m = None
          /\ exists t, types waiting_for_contact m t
                       /\ t <> Label.manual_phone
                       /\ phone = digit_chars t
                       /\ (11 <= py_len phone)%nat)).

(** The four messages of a user who books a table.  The first one is the
    table button, pressed in a state other than the two cottage states
    whose handlers are registered before [book_table_start]. *)
Definition table_dialogue (w : World) (m1 m2 m3 m4 : Message)
  (date : string) (g : Z) (phone : string) : Prop :=
  (from_user m2 = from_user m1 /\ from_user m3 = from_user m1
   /\ from_user m4 = from_user m1)
  /\ text m1 = Some Label.book_table
  /\ current_state w m1 <> Some waiting_for_cottage_date
  /\ current_state w m1 <> Some waiting_for_cottage_guests
  /\ 0 < available (tables_db w)
  /\ types waiting_for_table_date m2 date /\ valid_date m2 date
  /\ types_number waiting_for_table_guests m3 g /\ 1 <= g <= 10
  /\ gives_phone m4 phone
  /\ no_duplicate (from_user m1) date table w.

(** The four messages of a user who books the cottage *)
Definition cottage_dialogue (w : World) (m1 m2 m3 m4 : Message)
  (date : string) (g : Z) (phone : string) : Prop :=
  (from_user m2 = from_user m1 /\ from_user m3 = from_user m1
   /\ from_user m4 = from_user m1)
  /\ text m1 = Some Label.book_cottage
  /\ types waiting_for_cottage_date m2 date /\ valid_date m2 date
  /\ is_date_available cottage date w = true
  /\ types_number waiting_for_cottage_guests m3 g /\ 1 <= g <= 20
  /\ gives_phone m4 phone
  /\ no_duplicate (from_user m1) date cottage w.

(** The state after a booking conversation: the new pending booking is
    stored under the id of the last message and the user is idle again *)
Definition booked (w : World) (m : Message) (phone date : string)
  (ty : BookingType) (g : Z) : World :=
  mkWorld (<[Text.make_id (now_timestamp m) := new_booking m phone date ty g]>
             (bookings_db w))
          (tables_db w) (reviews_db w) (delete (from_user m) (storage w)).


(** The user of [m] has a confirmed booking *)
Definition has_confirmed_booking (w : World) (u : Z) : Prop :=
  exists id b, bookings_db w !! id = Some b /\ b_user_id b = u
               /\ b_status b = confirmed.

(** The text of a review: the skip label stands for the empty text *)
Definition review_text (m : Message) : option string :=
  if text_is m Label.skip then Some "" else text m.

(** The three messages of a user who leaves a review *)
Definition review_dialogue (w : World) (m1 m2 m3 : Message) (r : Z) : Prop :=
  (from_user m2 = from_user m1 /\ from_user m3 = from_user m1)
  /\ text m1 = Some Label.review /\ current_state w m1 = None
  /\ has_confirmed_booking w (from_user m1)
  /\ (exists t, text m2 = Some t /\ rating_regexp t = true
                /\ rating_token t = Some r
                /\ passes (labels_before waiting_for_review_rating) m2)
  /\ (exists t, types waiting_for_review_text m3 t).

(** The state after a review conversation *)
Definition reviewed (w : World) (m : Message) (r : Z) : World :=
  mkWorld (bookings_db w) (tables_db w)
          (<[Text.make_id (now_timestamp m)
             := mkReview (from_user m) (full_name m) r (review_text m)
                         (now_iso m)]> (reviews_db w))
          (delete (from_user m) (storage w)).

(** ** Callback data *)

(** No underscore in [id] *)
Definition underscore_free (id : string) : Prop :=
  existsb (Ascii.eqb "_") (Text.chars id) = false.

(** The prefixes of the callback data that have a handler *)
Definition prefixes : list string := ch_prefix <$> callback_handlers.


(** ** Errors *)

Definition no_log (a : Action) : Prop :=
  match a with
  | LogError _ => False
  | _ => True
  end.

(** The handlers whose [except] branch calls [state.clear()]; the others
    log, and [cmd_start] and the callback handlers also answer *)
Definition clears_on_error (h : HandlerName) : bool :=
  match h with
  | H_cmd_start | H_donate_handler | H_show_stats | H_list_bookings
  | H_cancel_booking_start | H_process_confirm | H_process_reject
  | H_process_cancel | H_show_booking_info => false
  | _ => true
  end.


(** ** The review conversation is gated *)

Definition review_state (st : BookingStates) : Prop :=
  st = waiting_for_review_rating \/ st = waiting_for_review_text.

(** The session of [u] is in no review state that it was not in before,
    and the reviews are as before *)
Definition calm (u : Z) (w w' : World) : Prop :=
  (forall st, state (session_of w' u) = Some st -> review_state st ->
              state (session_of w u) = Some st)
  /\ reviews_db w' = reviews_db w.

(** How the update [u] can bring its sender into the review
    conversation and when it can change the reviews *)
Definition review_gate (w : World) (u : Update) (w' : World) : Prop :=
  let before := state (session_of w (sender u)) in
  let after := state (session_of w' (sender u)) in
  (after = Some waiting_for_review_rating ->
   before = Some waiting_for_review_rating
   \/ has_confirmed_booking w (sender u))
  /\ (after = Some waiting_for_review_text ->
      before = Some waiting_for_review_rating
      \/ before = Some waiting_for_review_text)
  /\ (reviews_db w' <> reviews_db w ->
      before = Some waiting_for_review_text).

(** The handlers that never change anything *)
Definition read_only : list HandlerName :=
  [H_cmd_start; H_donate_handler; H_show_stats; H_list_bookings;
   H_cancel_booking_start; H_show_booking_info].

End Handlers.

(** ** A concrete platform for ASCII input

    The library functions restricted to ASCII text; the examples and the
    instances of the theorems below run on it.  It agrees with Python and
    aiogram on the texts of the instances and is narrower elsewhere:
    [strptime] here takes no field padded with spaces, [is_start] ends
    the command at a space only and [second_token] splits at spaces only,
    where [%d], the [Command] filter and [str.split()] take any white
    space. *)

Module AsciiPlatform.

Definition isdigit (s : string) : bool :=
  negb (bool_decide (s = "")) && forallb Text.is_ascii_digit (Text.chars s).

Definition digit_value (c : ascii) : Z := Z.of_nat (nat_of_ascii c) - 48.

Definition to_int (s : string) : option Z :=
  if isdigit s
  then Some (foldl (fun acc c => 10 * acc + digit_value c) 0 (Text.chars s))
  else None.

Definition digits (s : string) : string :=
  Text.of_chars (List.filter Text.is_ascii_digit (Text.chars s)).

Definition is_leap (y : Z) : bool :=
  ((y mod 4 =? 0) && negb (y mod 100 =? 0)) || (y mod 400 =? 0).

Definition days_in_month (y m : Z) : Z :=
  if m =? 2 then (if is_leap y then 29 else 28)
  else if (m =? 4) || (m =? 6) || (m =? 9) || (m =? 11) then 30
  else 31.

(** Day number of a date of the proleptic Gregorian calendar *)
Definition day_number (y m d : Z) : Z :=
  let y' := if m <=? 2 then y - 1 else y in
  let m' := if m <=? 2 then m + 9 else m - 3 in
  365 * y' + y' / 4 - y' / 100 + y' / 400 + (153 * m' + 2) / 5 + d.

(** [DD.MM.YYYY] *)
Definition strptime (s : string) : option Z :=
  match Text.split "." s with
  | [ds; ms; ys] =>
      if (String.length ds <=? 2)%nat && (String.length ms <=? 2)%nat
         && (String.length ys =? 4)%nat
      then
        d ← to_int ds; m ← to_int ms; y ← to_int ys;
        if (1 <=? m) && (m <=? 12) && (1 <=? d) && (d <=? days_in_month y m)
           && (1 <=? y)
        then Some (day_number y m d)
        else None
      else None
  | _ => None
  end.

Definition is_start (t : string) : bool :=
  bool_decide (t = "/start") || Text.startswith "/start " t.

Definition star_labels : list string :=
  ["⭐️ 1"; "⭐️ 2"; "⭐️ 3"; "⭐️ 4"; "⭐️ 5"].

Definition rating_match (t : string) : bool :=
  existsb (fun l => Text.startswith l t) star_labels.

Definition second_token (t : string) : option Z :=
  List.filter (fun s => negb (bool_decide (s = ""))) (Text.split " " t) !! 1%nat
  ≫= to_int.

Lemma is_start_slash t :
  is_start t = true -> existsb (Ascii.eqb "/") (Text.chars t) = true.
Proof.
  unfold is_start, Text.startswith. intros H.
  destruct t as [|c t]; [discriminate H|].
  apply orb_true_iff in H. simpl.
  assert (c = "/"%char) as ->; [|reflexivity].
  destruct H as [H|H].
  - apply bool_decide_eq_true in H. congruence.
  - simpl in H. destruct (Ascii.eqb_spec "/"%char c); [done|].
    revert H. case_match; [congruence | discriminate].
Qed.

Lemma isdigit_ascii t :
  isdigit t = true ->
  forallb (fun c => Text.is_ascii_digit c || negb (Text.is_7bit c))
          (Text.chars t) = true.
Proof.
  unfold isdigit. intros H. apply andb_true_iff in H as [_ H].
  induction (Text.chars t) as [|c l IH]; [reflexivity|].
  simpl in *. apply andb_true_iff in H as [Hc Hl].
  rewrite Hc, IH; done.
Qed.

Definition platform (admins : list Z) : Platform := {|
  ADMINS := admins;
  command_start := is_start;
  str_isdigit := isdigit;
  py_int := to_int;
  digit_chars := digits;
  py_len := String.length;
  strptime_date := strptime;
  rating_regexp := rating_match;
  rating_token := second_token;
  fromisoformat_ok := fun _ => true;
  command_start_slash := is_start_slash;
  str_isdigit_ascii := isdigit_ascii
|}.

End AsciiPlatform.

(** ** Concrete conversations

    One administrator (id 1000) and the users Ann (7), Bob (8) and
    Eve (9), on 5 November 2025. *)

Module Scenario.

Definition club : Platform := AsciiPlatform.platform [1000].

Definition today0 : Z := AsciiPlatform.day_number 2025 11 5.

(** A text message *)
Definition say (u : Z) (name t ts : string) : Message :=
  mkMessage u name (Some t) None today0 ts "2025-11-05T12:00:00".

(** A click on an inline button under a notification of the bot *)
Definition click (u : Z) (d : string) : CallbackQuery :=
  mkCallback u (Some d) (Some ("head" +:+ newline2 +:+ "details")).

Definition ann_time : string := "1762370000.123456".
Definition bob_time : string := "1762370050.654321".
(** 100 seconds after [ann_time], the same microsecond *)
Definition late_time : string := "1762370100.123456".

(** Ann asks for a table for four on 1 March 2026 *)
Definition ann_draft : list Update :=
  [UMessage (say 7 "Ann" Label.book_table ann_time);
   UMessage (say 7 "Ann" "01.03.2026" ann_time);
   UMessage (say 7 "Ann" "4" ann_time)].

Definition ann_phone : Message := say 7 "Ann" "+7 999 123-45-67" ann_time.

Definition ann_request : list Update := ann_draft ++ [UMessage ann_phone].

(** Bob asks for a table for two on the same day *)
Definition bob_request (ts : string) : list Update :=
  [UMessage (say 8 "Bob" Label.book_table ts);
   UMessage (say 8 "Bob" "01.03.2026" ts);
   UMessage (say 8 "Bob" "2" ts);
   UMessage (say 8 "Bob" "89990000000" ts)].

(** A request for the cottage on 1 June 2026 *)
Definition cottage_request (u : Z) (name ts : string) : list Update :=
  [UMessage (say u name Label.book_cottage ts);
   UMessage (say u name "01.06.2026" ts);
   UMessage (say u name "6" ts);
   UMessage (say u name "89991112233" ts)].

Definition ann_id : string := "00123456".
Definition bob_id : string := "50654321".

Definition ann_booking (s : Status) : Booking :=
  mkBooking ann_id table "01.03.2026" 4 7 "Ann" "79991234567" s
            "2025-11-05T12:00:00".

Definition bob_booking (s : Status) : Booking :=
  mkBooking bob_id table "01.03.2026" 2 8 "Bob" "89990000000" s
            "2025-11-05T12:00:00".

(** The administrator sets the number of tables to [n] *)
Definition set_table_count (n : string) : list Update :=
  [UMessage (say 1000 "Admin" Label.change_tables ann_time);
   UMessage (say 1000 "Admin" n ann_time)].

(** One table in all, requested by Ann and Bob, given to Ann *)
Definition full_house : World :=
  @run club default_world
    (set_table_count "1" ++ ann_request ++ bob_request bob_time
     ++ [UCallback (click 1000 "confirm_00123456")]).

(** A day of the administrator: Ann's table is confirmed, then cancelled
    with a reason, then the number of tables is raised to 12 *)
Definition office_day : list Update :=
  ann_request
  ++ [UCallback (click 1000 "confirm_00123456");
      UCallback (click 1000 "cancel_00123456");
      UMessage (say 1000 "Admin" "closed for repairs" ann_time)]
  ++ set_table_count "12".

(** Ann's table is confirmed and the administrator has clicked cancel *)
Definition awaiting_reason : World :=
  @run club default_world
    (ann_request
     ++ [UCallback (click 1000 "confirm_00123456");
         UCallback (click 1000 "cancel_00123456")]).

(** The administrator has been asked for the new number of tables *)
Definition awaiting_count : World :=
  @run club default_world [UMessage (say 1000 "Admin" Label.change_tables ann_time)].

(** Ann has typed everything but the phone number *)
Definition ann_at_contact : World := @run club default_world ann_draft.

(** Ann's request is stored and she has typed the same draft again *)
Definition ann_again_at_contact : World :=
  @run club default_world (ann_request ++ ann_draft).

(** Ann's table is confirmed *)
Definition ann_confirmed : World :=
  @run club default_world
    (ann_request ++ [UCallback (click 1000 "confirm_00123456")]).

(** Ann's and Bob's tables are confirmed and the administrator has been
    asked for the new number of tables *)
Definition two_taken_awaiting_count : World :=
  @run club default_world
    (ann_request ++ bob_request bob_time
     ++ [UCallback (click 1000 "confirm_00123456");
         UCallback (click 1000 "confirm_50654321");
         UMessage (say 1000 "Admin" Label.change_tables ann_time)]).

(** Ann and Bob both ask for the cottage on 1 June 2026 *)
Definition two_cottage_requests : World :=
  @run club default_world
    (cottage_request 7 "Ann" ann_time ++ cottage_request 8 "Bob" bob_time).


(** Ann's request is stored and waits for a decision *)
Definition ann_pending : World := @run club default_world ann_request.

(** The administrator confirms Ann's table, then cancels it with a reason *)
Definition confirm_then_cancel : list Update :=
  [UCallback (click 1000 "confirm_00123456");
   UCallback (click 1000 "cancel_00123456");
   UMessage (say 1000 "Admin" "closed for repairs" ann_time)].

(** Ann has pressed the table button, and the cottage button *)
Definition ann_at_table_date : World :=
  @run club default_world [UMessage (say 7 "Ann" Label.book_table ann_time)].

Definition ann_at_cottage_date : World :=
  @run club default_world [UMessage (say 7 "Ann" Label.book_cottage ann_time)].

(** A message without text, such as a photo *)
Definition photo (u : Z) (name : string) : Message :=
  mkMessage u name None None today0 ann_time "2025-11-05T12:00:00".

(** Ann asks again for a table for four on 1 March 2026, fifty seconds
    after her first request: with the date as she typed it then, and with
    the date written without the leading zeros *)
Definition ann_repeated : list Update :=
  [UMessage (say 7 "Ann" Label.book_table bob_time);
   UMessage (say 7 "Ann" "01.03.2026" bob_time);
   UMessage (say 7 "Ann" "4" bob_time);
   UMessage (say 7 "Ann" "+7 999 123-45-67" bob_time)].

Definition ann_respelled : list Update :=
  [UMessage (say 7 "Ann" Label.book_table bob_time);
   UMessage (say 7 "Ann" "1.3.2026" bob_time);
   UMessage (say 7 "Ann" "4" bob_time)].

Definition ann_phone_again : Message := say 7 "Ann" "+7 999 123-45-67" bob_time.

(** Ann's second booking, under the id of the later clock reading *)
Definition ann_second_booking : Booking :=
  mkBooking bob_id table "1.3.2026" 4 7 "Ann" "79991234567" pending
            "2025-11-05T12:00:00".

(** Ann's table is rejected by a click; Bob's request, 100 seconds after
    hers and in the same microsecond, takes its id; then the
    administrator sends the reason *)
Definition rejected_then_replaced : list Update :=
  ann_request ++ [UCallback (click 1000 "reject_00123456")]
  ++ bob_request late_time.

Definition reason_after_replacement : Update :=
  UMessage (say 1000 "Admin" "no room" ann_time).

(** A new installation: no data file, in a directory that can be written *)
Definition new_disk : Disk := mkDisk Missing true.

End Scenario.

(** * Properties *)

(** ** Counting bookings in the store *)

Lemma length_filter_Permutation {A : Type} (p : A -> bool) (l l' : list A) :
  l ≡ₚ l' -> List.length (List.filter p l) = List.length (List.filter p l').
Proof.
  induction 1 as [|x l l' _ IH|x y l|l l' l'' _ IH1 _ IH2]; simpl.
  - reflexivity.
  - destruct (p x); simpl; congruence.
  - destruct (p x), (p y); reflexivity.
  - congruence.
Qed.

Lemma count_insert_None p (m : gmap string Booking) i x :
  m !! i = None ->
  count p (<[i:=x]> m) = (weight p x + count p m)%nat.
Proof.
  intros Hi. unfold count, values, weight.
  rewrite (length_filter_Permutation p _ (x :: (map_to_list m).*2)).
  - simpl. destruct (p x); reflexivity.
  - rewrite (map_to_list_insert m i x Hi). reflexivity.
Qed.

Lemma count_insert_Some p (m : gmap string Booking) i x y :
  m !! i = Some y ->
  (count p (<[i:=x]> m) + weight p y = count p m + weight p x)%nat.
Proof.
  intros Hi.
  rewrite <- (insert_delete_eq m i x).
  rewrite count_insert_None by apply lookup_delete_eq.
  assert (count p m = (weight p y + count p (delete i m))%nat) as ->; [|lia].
  unfold count, values.
  rewrite <- (length_filter_Permutation p _ _
                (fmap_Permutation snd _ _ (map_to_list_delete m i y Hi))).
  unfold weight. rewrite fmap_cons. simpl. destruct (p y); reflexivity.
Qed.

Lemma count_empty p : count p ∅ = 0%nat.
Proof. unfold count, values. rewrite map_to_list_empty. reflexivity. Qed.

Lemma existsb_values_true {A : Type} (p : A -> bool) (m : gmap string A) i x :
  m !! i = Some x -> p x = true -> existsb p (values m) = true.
Proof.
  intros Hi Hp. apply existsb_exists. exists x. split; [|done].
  apply list_elem_of_In, list_elem_of_fmap.
  exists (i, x). split; [done|]. by apply elem_of_map_to_list.
Qed.

Lemma existsb_values_false {A : Type} (p : A -> bool) (m : gmap string A) :
  existsb p (values m) = false <-> forall i x, m !! i = Some x -> p x = false.
Proof.
  split.
  - intros H i x Hi. destruct (p x) eqn:Hp; [|done].
    by rewrite (existsb_values_true p m i x Hi Hp) in H.
  - intros H. destruct (existsb p (values m)) eqn:E; [|done].
    apply existsb_exists in E as (x & Hx & Hp).
    apply list_elem_of_In, list_elem_of_fmap in Hx as ([i y] & -> & Hiy).
    apply elem_of_map_to_list in Hiy. simpl in Hp.
    by rewrite (H i y Hiy) in Hp.
Qed.

(** ** The id of a booking *)

(** The id is not empty as soon as the timestamp has a character other
    than the dot. *)
Lemma make_id_nonempty ts : Text.remove_dots ts <> "" -> Text.make_id ts <> "".
Proof.
  unfold Text.make_id, Text.last_chars, Text.chars, Text.of_chars.
  intros Hne Hid. apply Hne.
  rewrite <- (string_of_list_ascii_of_string (Text.remove_dots ts)).
  destruct (list_ascii_of_string (Text.remove_dots ts)) as [|a l] eqn:El;
    [reflexivity|].
  exfalso.
  assert (skipn (List.length (a :: l) - 8) (a :: l) = []) as Hs.
  { destruct (skipn (List.length (a :: l) - 8) (a :: l)); [done|].
    discriminate Hid. }
  apply (f_equal (@List.length ascii)) in Hs.
  rewrite length_skipn in Hs. simpl in Hs. lia.
Qed.

(** ** Handlers that leave the store alone *)

Lemma frame_refl w : frame w w.
Proof. repeat split. intros u s' Hs Hst. by exists s'. Qed.

Lemma frame_trans w1 w2 w3 : frame w1 w2 -> frame w2 w3 -> frame w1 w3.
Proof.
  intros (Hb1 & Ht1 & Hs1) (Hb2 & Ht2 & Hs2). repeat split; [congruence..|].
  intros u s3 Hu Hst.
  destruct (Hs2 u s3 Hu Hst) as (s2 & Hu2 & Hst2 & Hid2).
  rewrite <- Hst2 in Hst.
  destruct (Hs1 u s2 Hu2 Hst) as (s1 & Hu1 & Hst1 & Hid1).
  exists s1. repeat split; [done|congruence..].
Qed.

Lemma framed_ret {A : Type} (a : A) : framed (mret a).
Proof. intros w. apply frame_refl. Qed.

Lemma framed_bind {A B : Type} (m : M A) (f : A -> M B) :
  framed m -> (forall a, framed (f a)) -> framed (m ≫= f).
Proof.
  intros Hm Hf w. unfold mbind, M_bind. specialize (Hm w).
  destruct (m w) as [[[a|] w1] l1]; simpl in *; [|done].
  specialize (Hf a w1). destruct (f a w1) as [[r w2] l2]; simpl in *.
  by eapply frame_trans.
Qed.

Lemma framed_raise {A : Type} : framed (@raise A).
Proof. intros w. apply frame_refl. Qed.

Lemma framed_require {A : Type} (o : option A) : framed (require o).
Proof. destruct o; [apply framed_ret | apply framed_raise]. Qed.

Lemma framed_get_world : framed get_world.
Proof. intros w. apply frame_refl. Qed.

Lemma framed_emit a : framed (emit a).
Proof. intros w. apply frame_refl. Qed.

Lemma framed_pass : framed pass.
Proof. apply framed_ret. Qed.

Lemma framed_save_data : framed save_data.
Proof.
  apply framed_bind; [apply framed_get_world | intros; apply framed_emit].
Qed.

Lemma framed_get_data u : framed (get_data u).
Proof.
  apply framed_bind; [apply framed_get_world | intros; apply framed_ret].
Qed.

Lemma frame_state_clear u w : frame w (state_clear u w).
Proof.
  repeat split. simpl. intros v s' Hv Hst.
  apply lookup_delete_Some in Hv as [_ Hv]. by exists s'.
Qed.

Lemma framed_clear u : framed (clear u).
Proof. intros w. apply frame_state_clear. Qed.

Lemma framed_set_state u st :
  st <> waiting_for_admin_comment -> st <> waiting_for_tables_count ->
  framed (set_state u st).
Proof.
  intros Hst1 Hst2 w. repeat split. simpl. intros v s' Hv Hs'.
  destruct (decide (u = v)) as [->|Hne].
  - rewrite lookup_insert_eq in Hv. simplify_eq. simpl in Hs'.
    destruct Hs'; congruence.
  - rewrite lookup_insert_ne in Hv by done. by exists s'.
Qed.

Lemma framed_update_data u f :
  (forall d, booking_id (f d) = booking_id d) -> framed (update_data u f).
Proof.
  intros Hf w. repeat split. simpl. intros v s' Hv Hs'.
  destruct (decide (u = v)) as [->|Hne].
  - rewrite lookup_insert_eq in Hv. simplify_eq. simpl in *.
    unfold session_of in *. destruct (storage w !! v) as [s|]; simpl in *.
    + exists s. by rewrite Hf.
    + destruct Hs'; discriminate.
  - rewrite lookup_insert_ne in Hv by done. by exists s'.
Qed.

Lemma framed_set_reviews r : framed (modify (set_reviews r)).
Proof. intros w. repeat split. simpl. intros u s' Hu Hs'. by exists s'. Qed.

Lemma framed_modify_reviews (g : World -> gmap string Review) :
  framed (modify (fun w => set_reviews (g w) w)).
Proof. intros w. repeat split. simpl. intros u s' Hu Hs'. by exists s'. Qed.

Lemma frame_except_clear h u body w :
  framed body -> frame w (except_clear h u body w).1.
Proof.
  intros Hb. unfold except_clear. specialize (Hb w).
  destruct (body w) as [[[a|] w1] l1]; simpl in *; [done|].
  eapply frame_trans; [done | apply frame_state_clear].
Qed.

Lemma frame_except_log h body w :
  framed body -> frame w (except_log h body w).1.
Proof.
  intros Hb. unfold except_log. specialize (Hb w).
  by destruct (body w) as [[[a|] w1] l1].
Qed.

Lemma frame_except_answer h u body w :
  framed body -> frame w (except_answer h u body w).1.
Proof.
  intros Hb. unfold except_answer. specialize (Hb w).
  by destruct (body w) as [[[a|] w1] l1].
Qed.

Section FrameHandlers.
Context {platform : Platform}.

Lemma framed_notify_admins t id : framed (notify_admins t id).
Proof. intros w. apply frame_refl. Qed.

Lemma framed_answer m t kb : framed (answer m t kb).
Proof. apply framed_emit. Qed.

Lemma framed_answer_callback c t : framed (answer_callback c t).
Proof. apply framed_emit. Qed.

Lemma framed_callback_booking_id c : framed (callback_booking_id c).
Proof.
  apply framed_bind; [apply framed_require | intros; apply framed_require].
Qed.

Lemma framed_message_details c : framed (message_details c).
Proof.
  apply framed_bind; [apply framed_require | intros; apply framed_require].
Qed.

End FrameHandlers.

Create HintDb framed.
#[export] Hint Resolve framed_ret framed_raise framed_require framed_get_world
  framed_emit framed_pass framed_save_data framed_get_data framed_clear
  framed_modify_reviews framed_notify_admins framed_answer
  framed_answer_callback framed_callback_booking_id framed_message_details
  : framed.

(** Walks through a handler body along its binds and branches *)
Ltac framed_step :=
  first
    [ apply framed_bind; [|intros ?]
    | apply framed_set_state; discriminate
    | apply framed_update_data; intros ?; reflexivity
    | solve [eauto with framed]
    | progress cbv zeta
    | match goal with
      | |- framed (if ?b then _ else _) => destruct b
      | |- framed (match ?o with _ => _ end) => destruct o
      end ].

Ltac solve_framed := repeat framed_step.

Section Properties.
Context {platform : Platform}.

Lemma frame_cmd_start m w : frame w (cmd_start m w).1.
Proof.
  unfold cmd_start. destruct (is_admin (from_user m)); apply frame_refl.
Qed.

Lemma frame_donate_handler m w : frame w (donate_handler m w).1.
Proof. apply frame_except_log. solve_framed. Qed.

Lemma frame_book_cottage_start m w : frame w (book_cottage_start m w).1.
Proof. apply frame_except_clear. solve_framed. Qed.

Lemma frame_process_cottage_date m w : frame w (process_cottage_date m w).1.
Proof. apply frame_except_clear. solve_framed. Qed.

Lemma frame_process_cottage_guests m w : frame w (process_cottage_guests m w).1.
Proof. apply frame_except_clear. solve_framed. Qed.

Lemma frame_book_table_start m w : frame w (book_table_start m w).1.
Proof. apply frame_except_clear. solve_framed. Qed.

Lemma frame_process_table_date m w : frame w (process_table_date m w).1.
Proof. apply frame_except_clear. solve_framed. Qed.

Lemma frame_process_table_guests m w : frame w (process_table_guests m w).1.
Proof. apply frame_except_clear. solve_framed. Qed.

Lemma frame_start_review m w : frame w (start_review m w).1.
Proof. apply frame_except_clear. solve_framed. Qed.

Lemma frame_process_review_rating m w : frame w (process_review_rating m w).1.
Proof. apply frame_except_clear. solve_framed. Qed.

Lemma frame_process_review_text m w : frame w (process_review_text m w).1.
Proof. apply frame_except_clear. solve_framed. Qed.

Lemma frame_show_stats m w : frame w (show_stats m w).1.
Proof. apply frame_except_log. solve_framed. Qed.

Lemma frame_list_bookings m w : frame w (list_bookings m w).1.
Proof. apply frame_except_log. solve_framed. Qed.

Lemma frame_cancel_booking_start m w : frame w (cancel_booking_start m w).1.
Proof. apply frame_except_log. solve_framed. Qed.

Lemma frame_show_booking_info c w : frame w (show_booking_info c w).1.
Proof. apply frame_except_answer. solve_framed. Qed.

(** ** The ledger invariant *)

Lemma inv_frame w w' : inv w -> frame w w' -> inv w'.
Proof.
  intros [[Hb Hc] Hp] (Hbk & Htb & Hst). split; [split|].
  - by rewrite Htb.
  - unfold committed. by rewrite Htb, Hbk.
  - intros u s' Hu Hs'.
    destruct (Hst u s' Hu (or_introl Hs')) as (s & Hus & Hss & Hid).
    rewrite <- Hss in Hs'.
    destruct (Hp u s Hus Hs') as (id & b & ? & ? & ?).
    exists id, b. rewrite Hbk. repeat split; congruence.
Qed.

Lemma committed_set_status w id b s t r st :
  bookings_db w !! id = Some b ->
  committed (mkWorld (<[id:=set_status s b]> (bookings_db w)) t r st)
  + Z.of_nat (weight is_committed b)
  = committed w + Z.of_nat (weight is_committed (set_status s b)).
Proof.
  intros Hb. unfold committed. simpl.
  pose proof (count_insert_Some is_committed _ id (set_status s b) b Hb) as H.
  unfold is_committed in *. lia.
Qed.

Lemma committed_same_bookings w t r st :
  committed (mkWorld (bookings_db w) t r st) = committed w.
Proof. reflexivity. Qed.

Lemma comment_target_ok_update w bk t r st :
  comment_target_ok w ->
  (forall id b, bookings_db w !! id = Some b -> b_status b <> pending ->
     exists b', bk !! id = Some b' /\ b_status b' <> pending) ->
  (forall u s', st !! u = Some s' ->
     state s' = Some waiting_for_admin_comment ->
     (exists s, storage w !! u = Some s
                /\ state s = Some waiting_for_admin_comment
                /\ booking_id (data s) = booking_id (data s'))
     \/ (exists id b', booking_id (data s') = Some id
                       /\ bk !! id = Some b' /\ b_status b' <> pending)) ->
  comment_target_ok (mkWorld bk t r st).
Proof.
  intros Hok Hbk Hst u s' Hu Hs'. simpl in *.
  destruct (Hst u s' Hu Hs') as [(s & Hus & Hss & Hid)|H]; [|exact H].
  destruct (Hok u s Hus Hss) as (id & b & Hi & Hb & Hp).
  destruct (Hbk id b Hb Hp) as (b' & Hb' & Hp').
  exists id, b'. repeat split; [congruence|done..].
Qed.

Lemma status_kept_insert (bk : gmap string Booking) i x s :
  s <> pending ->
  forall id b, bk !! id = Some b -> b_status b <> pending ->
    exists b', <[i:=set_status s x]> bk !! id = Some b' /\ b_status b' <> pending.
Proof.
  intros Hs id b Hb Hp. destruct (decide (i = id)) as [->|Hne].
  - rewrite lookup_insert_eq. eauto.
  - rewrite lookup_insert_ne by done. eauto.
Qed.

Lemma status_kept_same (bk : gmap string Booking) :
  forall id b, bk !! id = Some b -> b_status b <> pending ->
    exists b', bk !! id = Some b' /\ b_status b' <> pending.
Proof. eauto. Qed.

Lemma sessions_kept (st : gmap Z Session) :
  forall u s', st !! u = Some s' ->
    state s' = Some waiting_for_admin_comment ->
    exists s, st !! u = Some s
              /\ state s = Some waiting_for_admin_comment
              /\ booking_id (data s) = booking_id (data s').
Proof. eauto. Qed.

Lemma sessions_kept_delete (st : gmap Z Session) v :
  forall u s', delete v st !! u = Some s' ->
    state s' = Some waiting_for_admin_comment ->
    exists s, st !! u = Some s
              /\ state s = Some waiting_for_admin_comment
              /\ booking_id (data s) = booking_id (data s').
Proof. intros u s' Hu Hs'. apply lookup_delete_Some in Hu as [_ Hu]. eauto. Qed.

Lemma weight_pending b :
  b_status b = pending -> weight is_committed b = 0%nat.
Proof.
  intros H. unfold weight, is_committed, has_status. rewrite H.
  rewrite bool_decide_eq_false_2 by discriminate. by rewrite andb_false_r.
Qed.

Lemma weight_rejected b : weight is_committed (set_status rejected b) = 0%nat.
Proof. unfold weight, is_committed. simpl. by rewrite andb_false_r. Qed.

Lemma weight_confirmed b :
  weight is_committed (set_status confirmed b)
  = if has_type table b then 1%nat else 0%nat.
Proof.
  unfold weight, is_committed, has_type, has_status. simpl.
  by destruct (bool_decide (b_type b = table)).
Qed.

Lemma weight_of_confirmed b :
  b_status b = confirmed ->
  weight is_committed b = if has_type table b then 1%nat else 0%nat.
Proof.
  intros H. unfold weight, is_committed, has_type, has_status. rewrite H.
  by destruct (bool_decide (b_type b = table)).
Qed.

(** Confirmation of the pending booking [b] stored under [id] *)
Lemma inv_confirm w id b :
  inv w -> bookings_db w !! id = Some b -> b_status b = pending ->
  has_type table b && (available (tables_db w) <=? 0) = false ->
  inv (mkWorld (<[id:=set_status confirmed b]> (bookings_db w))
         (if has_type table b
          then mkTables (available (tables_db w) - 1) (total (tables_db w))
          else tables_db w)
         (reviews_db w) (storage w)).
Proof.
  intros [[Hbd Hc] Hpt] Hb Hp Hfree. split; [|].
  - pose proof (committed_set_status w id b confirmed
      (if has_type table b
       then mkTables (available (tables_db w) - 1) (total (tables_db w))
       else tables_db w) (reviews_db w) (storage w) Hb) as Hcnt.
    rewrite (weight_pending b Hp), weight_confirmed in Hcnt.
    unfold ledger_inv. simpl.
    destruct (has_type table b); simpl in *; [|lia].
    apply Z.leb_gt in Hfree. lia.
  - apply (comment_target_ok_update w); [done | | intros u s' Hu Hs'; left; eauto].
    by apply status_kept_insert.
Qed.

Ltac unfold_monad :=
  unfold except_answer, except_clear, except_log, callback_booking_id,
    message_details, answer_callback, answer, save_data, get_data, clear,
    notify_admins, set_state, update_data, pass, require, raise, get_world,
    modify, emit, mbind, M_bind, mret, M_ret.

Lemma inv_process_confirm c w : inv w -> inv (process_confirm c w).1.
Proof.
  intros Hinv. unfold process_confirm. unfold_monad.
  destruct (cb_data c) as [d|]; simpl; [|done].
  destruct (Text.split "_" d !! 1%nat) as [id|]; simpl; [|done].
  destruct (bookings_db w !! id) as [b|] eqn:Hb; simpl; [|done].
  destruct (has_status pending b) eqn:Hp; simpl; [|done].
  apply bool_decide_eq_true in Hp.
  destruct (has_type table b && (available (tables_db w) <=? 0)) eqn:Hfree;
    simpl; [done|].
  pose proof (inv_confirm w id b Hinv Hb Hp Hfree) as Hgoal.
  destruct (has_type table b); simpl;
    destruct (cb_message_text c) as [t|]; simpl; try exact Hgoal;
    destruct (Text.split newline2 t !! 1%nat); simpl; exact Hgoal.
Qed.

Lemma inv_state_clear u w : inv w -> inv (state_clear u w).
Proof. intros H. eapply inv_frame; [exact H | apply frame_state_clear]. Qed.

(** Rejection of the pending booking [b] stored under [id]; the sessions
    [st] may point at it *)
Lemma inv_reject w id b st :
  inv w -> bookings_db w !! id = Some b -> b_status b = pending ->
  (forall u s', st !! u = Some s' ->
     state s' = Some waiting_for_admin_comment ->
     (exists s, storage w !! u = Some s
                /\ state s = Some waiting_for_admin_comment
                /\ booking_id (data s) = booking_id (data s'))
     \/ booking_id (data s') = Some id) ->
  inv (mkWorld (<[id:=set_status rejected b]> (bookings_db w))
         (tables_db w) (reviews_db w) st).
Proof.
  intros [[Hbd Hc] Hpt] Hb Hp Hst. split.
  - pose proof (committed_set_status w id b rejected (tables_db w)
                  (reviews_db w) st Hb) as Hcnt.
    rewrite (weight_pending b Hp), weight_rejected in Hcnt.
    unfold ledger_inv. simpl. lia.
  - apply (comment_target_ok_update w); [done | by apply status_kept_insert |].
    intros u s' Hu Hs'. destruct (Hst u s' Hu Hs') as [H|H]; [by left|].
    right. exists id, (set_status rejected b).
    rewrite lookup_insert_eq. done.
Qed.

(** A change of the sessions only *)
Lemma inv_sessions w st :
  inv w ->
  (forall u s', st !! u = Some s' ->
     state s' = Some waiting_for_admin_comment ->
     (exists s, storage w !! u = Some s
                /\ state s = Some waiting_for_admin_comment
                /\ booking_id (data s) = booking_id (data s'))
     \/ (exists id b, booking_id (data s') = Some id
                      /\ bookings_db w !! id = Some b
                      /\ b_status b <> pending)) ->
  inv (mkWorld (bookings_db w) (tables_db w) (reviews_db w) st).
Proof.
  intros [Hl Hpt] Hst. split; [exact Hl|].
  apply (comment_target_ok_update w); [done | apply status_kept_same | done].
Qed.

(** Release of the confirmed booking [b] stored under [id] *)
Lemma inv_release w id b u :
  inv w -> bookings_db w !! id = Some b -> b_status b = confirmed ->
  inv (mkWorld (<[id:=set_status rejected b]> (bookings_db w))
         (if has_type table b
          then mkTables (available (tables_db w) + 1) (total (tables_db w))
          else tables_db w)
         (reviews_db w) (delete u (storage w))).
Proof.
  intros [[Hbd Hc] Hpt] Hb Hp. split.
  - pose proof (committed_set_status w id b rejected
      (if has_type table b
       then mkTables (available (tables_db w) + 1) (total (tables_db w))
       else tables_db w) (reviews_db w) (delete u (storage w)) Hb) as Hcnt.
    rewrite (weight_of_confirmed b Hp), weight_rejected in Hcnt.
    unfold ledger_inv. simpl.
    assert (0 <= committed (mkWorld (<[id:=set_status rejected b]> (bookings_db w))
      (if has_type table b
       then mkTables (available (tables_db w) + 1) (total (tables_db w))
       else tables_db w) (reviews_db w) (delete u (storage w))))
      by (unfold committed; lia).
    destruct (has_type table b); simpl in *; lia.
  - apply (comment_target_ok_update w); [done | by apply status_kept_insert |].
    intros v s' Hv Hs'. left. by eapply sessions_kept_delete.
Qed.

(** A new capacity [n] that covers the tables already taken *)
Lemma inv_resize w n u :
  inv w -> 1 <= n -> total (tables_db w) - available (tables_db w) <= n ->
  inv (mkWorld (bookings_db w)
         (mkTables (n - (total (tables_db w) - available (tables_db w))) n)
         (reviews_db w) (delete u (storage w))).
Proof.
  intros [[Hbd Hc] Hpt] Hn Hb. split.
  - unfold ledger_inv. rewrite committed_same_bookings. simpl. lia.
  - apply (comment_target_ok_update w); [done | apply status_kept_same |].
    intros v s' Hv Hs'. left. by eapply sessions_kept_delete.
Qed.

(** A new pending booking under an id that is not in the store *)
Lemma inv_create w id b u :
  inv w -> bookings_db w !! id = None -> b_status b = pending ->
  inv (mkWorld (<[id:=b]> (bookings_db w)) (tables_db w) (reviews_db w)
         (delete u (storage w))).
Proof.
  intros [[Hbd Hc] Hpt] Hid Hp. split.
  - unfold ledger_inv, committed in *. simpl.
    rewrite (count_insert_None _ _ _ _ Hid), (weight_pending b Hp). done.
  - apply (comment_target_ok_update w); [done | |].
    + intros i x Hi Hx. exists x. split; [|done].
      rewrite lookup_insert_ne; [done|]. intros ->. congruence.
    + intros v s' Hv Hs'. left. by eapply sessions_kept_delete.
Qed.

Lemma session_of_state w u st :
  state (session_of w u) = Some st ->
  exists s, storage w !! u = Some s /\ session_of w u = s.
Proof.
  unfold session_of. destruct (storage w !! u) as [s|]; simpl; [eauto|done].
Qed.

Lemma inv_process_reject c w : inv w -> inv (process_reject c w).1.
Proof.
  intros Hinv. unfold process_reject. unfold_monad.
  destruct (cb_data c) as [d|]; simpl; [|done].
  destruct (Text.split "_" d !! 1%nat) as [id|]; simpl; [|done].
  destruct (bookings_db w !! id) as [b|] eqn:Hb; simpl; [|done].
  destruct (has_status pending b) eqn:Hp; simpl; [|done].
  apply bool_decide_eq_true in Hp.
  destruct (cb_message_text c) as [t|]; simpl;
    [destruct (Text.split newline2 t !! 1%nat); simpl|].
  - apply (inv_reject w id b); [done..|].
    intros u s' Hu Hs'.
    destruct (decide (cb_from_user c = u)) as [<-|Hne].
    + rewrite lookup_insert_eq in Hu. simplify_eq. by right.
    + rewrite !lookup_insert_ne in Hu by done. left. eauto.
  - apply (inv_reject w id b); [done..|]. intros u s' Hu Hs'. left. eauto.
  - apply (inv_reject w id b); [done..|]. intros u s' Hu Hs'. left. eauto.
Qed.

Lemma inv_process_cancel c w : inv w -> inv (process_cancel c w).1.
Proof.
  intros Hinv. unfold process_cancel. unfold_monad.
  destruct (cb_data c) as [d|]; simpl; [|done].
  destruct (Text.split "_" d !! 1%nat) as [id|]; simpl; [|done].
  destruct (bookings_db w !! id) as [b|] eqn:Hb; simpl; [|done].
  destruct (has_status confirmed b) eqn:Hp; simpl; [|done].
  apply bool_decide_eq_true in Hp.
  apply (inv_sessions w); [done|].
  intros u s' Hu Hs'.
  destruct (decide (cb_from_user c = u)) as [<-|Hne].
  - rewrite lookup_insert_eq in Hu. simplify_eq. right.
    exists id, b. simpl. repeat split; [done|congruence].
  - rewrite !lookup_insert_ne in Hu by done. left. eauto.
Qed.

Lemma inv_process_admin_comment m w :
  inv w -> current_state w m = Some waiting_for_admin_comment ->
  inv (process_admin_comment m w).1.
Proof.
  intros Hinv Hst. unfold current_state in Hst.
  destruct (session_of_state _ _ _ Hst) as (s & Hs & Hso).
  destruct (proj2 Hinv _ _ Hs) as (id & b & Hid & Hb & Hp);
    [by rewrite <- Hso|].
  unfold process_admin_comment. unfold_monad. rewrite Hso, Hid. simpl.
  rewrite Hb. simpl.
  destruct (has_status rejected b) eqn:Hr; simpl.
  - by apply inv_state_clear.
  - assert (b_status b = confirmed) as Hc.
    { apply bool_decide_eq_false in Hr. by destruct (b_status b). }
    pose proof (inv_release w id b (from_user m) Hinv Hb Hc) as Hgoal.
    destruct (has_type table b); exact Hgoal.
Qed.

Lemma inv_change_tables_start m w :
  inv w -> inv (change_tables_start m w).1.
Proof.
  intros Hinv. unfold change_tables_start. unfold_monad.
  destruct (is_admin (from_user m)); simpl; [|done].
  apply (inv_sessions w); [done|]. intros u s' Hu Hs'.
  destruct (decide (from_user m = u)) as [<-|Hne].
  - rewrite lookup_insert_eq in Hu. by simplify_eq.
  - rewrite lookup_insert_ne in Hu by done. left. eauto.
Qed.

Lemma inv_process_tables_count m w :
  inv w -> inv (process_tables_count m w).1.
Proof.
  intros Hinv. unfold process_tables_count. unfold_monad.
  destruct (text m) as [t|]; simpl; [|by apply inv_state_clear].
  destruct (str_isdigit t); simpl; [|done].
  destruct (py_int t) as [n|]; simpl; [|by apply inv_state_clear].
  destruct (n <? 1) eqn:Hn; simpl; [done|].
  destruct (n <? total (tables_db w) - available (tables_db w)) eqn:Hb;
    simpl; [done|].
  apply Z.ltb_ge in Hn, Hb. exact (inv_resize w n (from_user m) Hinv Hn Hb).
Qed.

Lemma inv_save_booking m phone w :
  inv w -> bookings_db w !! Text.make_id (now_timestamp m) = None ->
  inv (except_clear H_process_contact (from_user m) (_save_booking m phone) w).1
  /\ inv (except_clear H_process_contact_manual (from_user m)
            (_save_booking m phone) w).1.
Proof.
  intros Hinv Hfresh. unfold _save_booking. unfold_monad.
  destruct (booking_date (data (session_of w (from_user m)))) as [date|]; simpl;
    [|split; by apply inv_state_clear].
  destruct (booking_type (data (session_of w (from_user m)))) as [ty|]; simpl;
    [|split; by apply inv_state_clear].
  destruct (existsb _ _); simpl; [split; by apply inv_state_clear|].
  destruct (guests (data (session_of w (from_user m)))) as [g|]; simpl;
    [|split; by apply inv_state_clear].
  split;
    exact (inv_create w _
             (mkBooking (Text.make_id (now_timestamp m)) ty date g (from_user m)
                        (full_name m) phone pending (now_iso m))
             (from_user m) Hinv Hfresh eq_refl).
Qed.

Lemma bind_ret_l {A B : Type} (a : A) (f : A -> M B) w :
  (mret a ≫= f) w = f a w.
Proof.
  unfold mbind, M_bind, mret, M_ret. by destruct (f a w) as [[r w2] l2].
Qed.

Lemma inv_process_contact m w :
  inv w -> bookings_db w !! Text.make_id (now_timestamp m) = None ->
  inv (process_contact m w).1.
Proof.
  intros Hinv Hfresh. unfold process_contact.
  destruct (contact m) as [phone|] eqn:Hc.
  - unfold except_clear, require. rewrite bind_ret_l.
    exact (proj1 (inv_save_booking m phone w Hinv Hfresh)).
  - unfold_monad. simpl. by apply inv_state_clear.
Qed.

Lemma inv_process_contact_manual m w :
  inv w -> bookings_db w !! Text.make_id (now_timestamp m) = None ->
  inv (process_contact_manual m w).1.
Proof.
  intros Hinv Hfresh. unfold process_contact_manual.
  destruct (text_is m Label.cancel).
  { unfold_monad. simpl. by apply inv_state_clear. }
  destruct (text_is m Label.manual_phone).
  { unfold_monad. simpl. done. }
  destruct (text m) as [t|].
  - unfold except_clear, require. rewrite bind_ret_l.
    fold (except_clear H_process_contact_manual (from_user m)).
    destruct (py_len (digit_chars t) <? 11)%nat.
    + unfold_monad. simpl. done.
    + exact (proj2 (inv_save_booking m (digit_chars t) w Hinv Hfresh)).
  - unfold_monad. simpl. by apply inv_state_clear.
Qed.

(** One update keeps the invariant *)
Lemma inv_feed_update w u : inv w -> fresh_id w u -> inv (feed_update w u).1.
Proof.
  intros Hinv Hfresh. destruct u as [m|c]; unfold feed_update.
  - unfold fresh_id, may_create, route in Hfresh.
    destruct (select_message w m) as [h|] eqn:Hsel; [|done].
    apply find_some in Hsel as [Hin Hf]. unfold message_handlers in Hin.
    cbn [fmap option_fmap option_map] in Hfresh.
    repeat (destruct Hin as [<-|Hin]); cbn [mh_run mh_filter mh_name] in *;
      try (by destruct Hin);
      try (by eapply inv_frame; [exact Hinv|];
           eauto using frame_cmd_start, frame_donate_handler,
             frame_book_cottage_start, frame_process_cottage_date,
             frame_process_cottage_guests, frame_book_table_start,
             frame_process_table_date, frame_process_table_guests,
             frame_start_review, frame_process_review_rating,
             frame_process_review_text, frame_show_stats, frame_list_bookings,
             frame_cancel_booking_start).
    + by apply inv_process_contact, Hfresh.
    + by apply inv_process_contact_manual, Hfresh.
    + by apply inv_change_tables_start.
    + by apply inv_process_tables_count.
    + apply inv_process_admin_comment; [done|].
      by apply bool_decide_eq_true in Hf.
  - destruct (select_callback c) as [h|] eqn:Hsel; [|done].
    apply find_some in Hsel as [Hin _]. unfold admin_check_middleware.
    destruct (is_admin (cb_from_user c)); cbn [negb]; [|done].
    unfold callback_handlers in Hin.
    repeat (destruct Hin as [<-|Hin]); cbn [ch_run];
      try (by destruct Hin);
      eauto using inv_process_confirm, inv_process_reject, inv_process_cancel.
    eapply inv_frame; [exact Hinv | apply frame_show_booking_info].
Qed.

Lemma inv_run us : forall w, inv w -> fresh_ids w us -> inv (run w us).
Proof.
  induction us as [|u us IH]; intros w Hinv Hfresh; [exact Hinv|].
  destruct Hfresh as [Hu Hus]. apply IH; [by apply inv_feed_update | done].
Qed.

Lemma inv_default_world : inv default_world.
Proof.
  split; [split|].
  - simpl. lia.
  - unfold committed. simpl. by rewrite count_empty.
  - intros u s Hu. simpl in Hu. by rewrite lookup_empty in Hu.
Qed.


(** ** Privileged states are reached by administrators only *)

Lemma privileged_ok_frame w w' : privileged_ok w -> frame w w' -> privileged_ok w'.
Proof.
  intros Hok (_ & _ & Hst) u s' Hu Hs'.
  destruct (Hst u s' Hu Hs') as (s & Hus & Hss & _).
  apply (Hok u s Hus). by rewrite Hss.
Qed.

Lemma privileged_ok_storage w w' :
  privileged_ok w ->
  (forall u s', storage w' !! u = Some s' -> privileged (state s') ->
     storage w !! u = Some s' \/ is_admin u = true) ->
  privileged_ok w'.
Proof.
  intros Hok H u s' Hu Hs'. destruct (H u s' Hu Hs') as [Hw|Ha]; [|done].
  by apply (Hok u s').
Qed.

Lemma privileged_ok_same w w' :
  storage w' = storage w -> privileged_ok w -> privileged_ok w'.
Proof.
  intros He Hok. apply (privileged_ok_storage w); [done|].
  intros u s' Hu _. left. by rewrite <- He.
Qed.

Lemma privileged_ok_delete w w' v :
  storage w' = delete v (storage w) -> privileged_ok w -> privileged_ok w'.
Proof.
  intros He Hok. apply (privileged_ok_storage w); [done|].
  intros u s' Hu _. left. rewrite He in Hu.
  by apply lookup_delete_Some in Hu as [_ Hu].
Qed.

Lemma privileged_ok_admin w w' v :
  is_admin v = true ->
  (forall u, u <> v -> storage w' !! u = storage w !! u) ->
  privileged_ok w -> privileged_ok w'.
Proof.
  intros Ha He Hok. apply (privileged_ok_storage w); [done|].
  intros u s' Hu _. destruct (decide (u = v)) as [->|Hne]; [by right|].
  left. by rewrite <- (He u Hne).
Qed.

(** Closes the branches of a handler that keeps or deletes sessions *)
Ltac keep_privileged Hok :=
  first [ exact Hok
        | by eapply privileged_ok_same; [simpl; reflexivity | exact Hok]
        | by eapply privileged_ok_delete; [simpl; reflexivity | exact Hok] ].

Lemma privileged_process_confirm c w :
  privileged_ok w -> privileged_ok (process_confirm c w).1.
Proof.
  intros Hok. unfold process_confirm. unfold_monad.
  destruct (cb_data c) as [d|]; simpl; [|done].
  destruct (Text.split "_" d !! 1%nat) as [id|]; simpl; [|done].
  destruct (bookings_db w !! id) as [b|]; simpl; [|done].
  destruct (has_status pending b); simpl; [|done].
  destruct (has_type table b && (available (tables_db w) <=? 0)); simpl;
    [done|].
  destruct (has_type table b); simpl;
    destruct (cb_message_text c) as [t|]; simpl; try keep_privileged Hok;
    destruct (Text.split newline2 t !! 1%nat); simpl; keep_privileged Hok.
Qed.

Lemma privileged_process_reject c w :
  is_admin (cb_from_user c) = true ->
  privileged_ok w -> privileged_ok (process_reject c w).1.
Proof.
  intros Ha Hok. unfold process_reject. unfold_monad.
  destruct (cb_data c) as [d|]; simpl; [|done].
  destruct (Text.split "_" d !! 1%nat) as [id|]; simpl; [|done].
  destruct (bookings_db w !! id) as [b|]; simpl; [|done].
  destruct (has_status pending b); simpl; [|done].
  destruct (cb_message_text c) as [t|]; simpl; [|keep_privileged Hok].
  destruct (Text.split newline2 t !! 1%nat); simpl; [|keep_privileged Hok].
  apply (privileged_ok_admin w _ _ Ha); [|done].
  intros u Hne. simpl. by rewrite !lookup_insert_ne.
Qed.

Lemma privileged_process_cancel c w :
  is_admin (cb_from_user c) = true ->
  privileged_ok w -> privileged_ok (process_cancel c w).1.
Proof.
  intros Ha Hok. unfold process_cancel. unfold_monad.
  destruct (cb_data c) as [d|]; simpl; [|done].
  destruct (Text.split "_" d !! 1%nat) as [id|]; simpl; [|done].
  destruct (bookings_db w !! id) as [b|]; simpl; [|done].
  destruct (has_status confirmed b); simpl; [|done].
  apply (privileged_ok_admin w _ _ Ha); [|done].
  intros u Hne. simpl. by rewrite !lookup_insert_ne.
Qed.

Lemma privileged_process_admin_comment m w :
  privileged_ok w -> privileged_ok (process_admin_comment m w).1.
Proof.
  intros Hok. unfold process_admin_comment. unfold_monad.
  destruct (booking_id _); simpl; [|keep_privileged Hok].
  destruct (bookings_db w !! _); simpl; [|keep_privileged Hok].
  destruct (has_status rejected _); simpl; [keep_privileged Hok|].
  destruct (has_type table _); simpl; keep_privileged Hok.
Qed.

Lemma privileged_change_tables_start m w :
  privileged_ok w -> privileged_ok (change_tables_start m w).1.
Proof.
  intros Hok. unfold change_tables_start. unfold_monad.
  destruct (is_admin (from_user m)) eqn:Ha; simpl; [|done].
  apply (privileged_ok_admin w _ _ Ha); [|done].
  intros u Hne. simpl. by rewrite lookup_insert_ne.
Qed.

Lemma privileged_process_tables_count m w :
  privileged_ok w -> privileged_ok (process_tables_count m w).1.
Proof.
  intros Hok. unfold process_tables_count. unfold_monad.
  destruct (text m) as [t|]; simpl; [|keep_privileged Hok].
  destruct (str_isdigit t); simpl; [|done].
  destruct (py_int t) as [n|]; simpl; [|keep_privileged Hok].
  destruct (n <? 1); simpl; [done|].
  destruct (n <? _); simpl; [done|]. keep_privileged Hok.
Qed.

Lemma privileged_save_booking h m phone w :
  privileged_ok w ->
  privileged_ok (except_clear h (from_user m) (_save_booking m phone) w).1.
Proof.
  intros Hok. unfold _save_booking. unfold_monad.
  destruct (booking_date _); simpl; [|keep_privileged Hok].
  destruct (booking_type _); simpl; [|keep_privileged Hok].
  destruct (existsb _ _); simpl; [keep_privileged Hok|].
  destruct (guests _); simpl; keep_privileged Hok.
Qed.

Lemma privileged_process_contact m w :
  privileged_ok w -> privileged_ok (process_contact m w).1.
Proof.
  intros Hok. unfold process_contact.
  destruct (contact m) as [phone|].
  - unfold except_clear, require. rewrite bind_ret_l.
    apply (privileged_save_booking H_process_contact m phone w Hok).
  - unfold_monad. simpl. keep_privileged Hok.
Qed.

Lemma privileged_process_contact_manual m w :
  privileged_ok w -> privileged_ok (process_contact_manual m w).1.
Proof.
  intros Hok. unfold process_contact_manual.
  destruct (text_is m Label.cancel).
  { unfold_monad. simpl. keep_privileged Hok. }
  destruct (text_is m Label.manual_phone).
  { unfold_monad. simpl. done. }
  destruct (text m) as [t|].
  - unfold except_clear, require. rewrite bind_ret_l.
    fold (except_clear H_process_contact_manual (from_user m)).
    destruct (py_len (digit_chars t) <? 11)%nat.
    + unfold_monad. simpl. done.
    + apply (privileged_save_booking H_process_contact_manual m _ w Hok).
  - unfold_monad. simpl. keep_privileged Hok.
Qed.

Lemma privileged_feed_update w u :
  privileged_ok w -> privileged_ok (feed_update w u).1.
Proof.
  intros Hok. destruct u as [m|c]; unfold feed_update.
  - destruct (select_message w m) as [h|] eqn:Hsel; [|done].
    apply find_some in Hsel as [Hin Hf]. unfold message_handlers in Hin.
    repeat (destruct Hin as [<-|Hin]); cbn [mh_run mh_filter mh_name] in *;
      try (by destruct Hin);
      try (by eapply privileged_ok_frame; [exact Hok|];
           eauto using frame_cmd_start, frame_donate_handler,
             frame_book_cottage_start, frame_process_cottage_date,
             frame_process_cottage_guests, frame_book_table_start,
             frame_process_table_date, frame_process_table_guests,
             frame_start_review, frame_process_review_rating,
             frame_process_review_text, frame_show_stats, frame_list_bookings,
             frame_cancel_booking_start).
    + by apply privileged_process_contact.
    + by apply privileged_process_contact_manual.
    + by apply privileged_change_tables_start.
    + by apply privileged_process_tables_count.
    + by apply privileged_process_admin_comment.
  - destruct (select_callback c) as [h|] eqn:Hsel; [|done].
    apply find_some in Hsel as [Hin _]. unfold admin_check_middleware.
    destruct (is_admin (cb_from_user c)) eqn:Ha; cbn [negb]; [|done].
    unfold callback_handlers in Hin.
    repeat (destruct Hin as [<-|Hin]); cbn [ch_run];
      try (by destruct Hin);
      eauto using privileged_process_confirm, privileged_process_reject,
        privileged_process_cancel.
    eapply privileged_ok_frame; [exact Hok | apply frame_show_booking_info].
Qed.

Lemma privileged_run us : forall w, privileged_ok w -> privileged_ok (run w us).
Proof.
  induction us as [|u us IH]; intros w Hok; [exact Hok|].
  apply IH. by apply privileged_feed_update.
Qed.

Lemma privileged_default_world : privileged_ok default_world.
Proof. intros u s Hu. simpl in Hu. by rewrite lookup_empty in Hu. Qed.

(** ** Routing *)

Lemma not_a_command l :
  existsb (Ascii.eqb "/") (Text.chars l) = false -> command_start l = false.
Proof.
  intros H. destruct (command_start l) eqn:E; [|done].
  apply command_start_slash in E. congruence.
Qed.

Lemma text_is_eqb m l l' : text m = Some l -> text_is m l' = String.eqb l l'.
Proof.
  intros H. unfold text_is. rewrite H.
  destruct (String.eqb_spec l l') as [->|Hne].
  - by apply bool_decide_eq_true_2.
  - apply bool_decide_eq_false_2. congruence.
Qed.

Lemma in_state_eq w m st st' :
  current_state w m = st -> in_state st' w m = bool_decide (st = Some st').
Proof. intros <-. reflexivity. Qed.

(** Evaluates the tests on closed labels and states *)
Ltac eval_closed :=
  repeat match goal with
    | |- context [String.eqb ?a ?b] =>
        let v := eval vm_compute in (String.eqb a b) in
        change (String.eqb a b) with v
    | |- context [bool_decide (@eq (option BookingStates) ?a ?b)] =>
        let v := eval vm_compute in (bool_decide (a = b)) in
        match v with
        | true => change (bool_decide (a = b)) with true
        | false => change (bool_decide (a = b)) with false
        end
    end.

(** Runs the dispatcher on a message whose text [Ht] and state [Hs] are known *)
Ltac dispatch Ht Hs :=
  unfold select_message, message_handlers;
  cbn [List.find mh_filter];
  unfold text_eq, is_start_command;
  rewrite ?Ht, ?not_a_command by reflexivity;
  rewrite ?(text_is_eqb _ _ _ Ht), ?(in_state_eq _ _ _ _ Hs);
  eval_closed; cbn [andb].


Lemma has_status_true b s : b_status b = s -> has_status s b = true.
Proof. intros H. by apply bool_decide_eq_true_2. Qed.

Lemma has_status_false b s s' : b_status b = s -> s <> s' -> has_status s' b = false.
Proof. intros H Hne. apply bool_decide_eq_false_2. congruence. Qed.

Lemma has_type_true b t : b_type b = t -> has_type t b = true.
Proof. intros H. by apply bool_decide_eq_true_2. Qed.

Lemma has_type_false b t t' : b_type b = t -> t <> t' -> has_type t' b = false.
Proof. intros H Hne. apply bool_decide_eq_false_2. congruence. Qed.

(** Runs the dispatcher on a callback query whose data [Hd] has the prefix [Hp] *)
Ltac dispatch_callback Hd Hp Ha :=
  unfold feed_update, select_callback, callback_handlers;
  cbn [List.find ch_prefix]; unfold data_startswith;
  rewrite Hd, ?Hp; cbn [ch_run];
  unfold admin_check_middleware; rewrite Ha; cbn [negb].

Lemma is_duplicate_spec u date ty b :
  is_duplicate u date ty b = true <-> duplicate_of u date ty b.
Proof.
  unfold is_duplicate, duplicate_of, has_type, has_status.
  rewrite !andb_true_iff, !bool_decide_eq_true, String.eqb_eq. tauto.
Qed.

Lemma fresh_ids_take us : forall w k, fresh_ids w us -> fresh_ids w (take k us).
Proof.
  induction us as [|u us IH]; intros w [|k] H; simpl; try done.
  destruct H as [Hu Hus]. split; [done|]. by apply IH.
Qed.

(** A routed message is run by the handler of that name *)
Lemma feed_routed w m n :
  route w (UMessage m) = Some n ->
  exists h, In h message_handlers /\ mh_name h = n
            /\ mh_filter h w m = true
            /\ feed_update w (UMessage m) = mh_run h m w.
Proof.
  unfold route, feed_update. intros H.
  destruct (select_message w m) as [h|] eqn:Hsel; [|discriminate].
  apply find_some in Hsel as [Hin Hf]. exists h. repeat split; try done.
  simpl in H. congruence.
Qed.

(** Replaces [feed_update] by the handler that [Hr] names *)
Ltac routed Hr Hf :=
  let h := fresh "h" in
  let Hin := fresh "Hin" in
  let Hn := fresh "Hn" in
  let He := fresh "He" in
  destruct (feed_routed _ _ _ Hr) as (h & Hin & Hn & Hf & He);
  unfold message_handlers in Hin;
  repeat (destruct Hin as [<-|Hin]); try discriminate Hn; try (by destruct Hin);
  cbn [mh_run mh_filter] in He, Hf; rewrite ?He; clear He Hn.

Lemma cancel_prefix_only d :
  Text.startswith "cancel_" d = true ->
  Text.startswith "confirm_" d = false /\ Text.startswith "reject_" d = false.
Proof.
  unfold Text.startswith. destruct d as [|a d]; [discriminate|].
  cbn [String.prefix].
  destruct (ascii_dec "c" a) as [<-|]; [|discriminate].
  destruct d as [|b d]; [discriminate|]. cbn [String.prefix].
  destruct (ascii_dec "a" b) as [<-|]; [|discriminate].
  done.
Qed.

Lemma reject_prefix_only d :
  Text.startswith "reject_" d = true -> Text.startswith "confirm_" d = false.
Proof.
  unfold Text.startswith. destruct d as [|a d]; try discriminate.
  cbn [String.prefix]. intros H.
  destruct (ascii_dec "r" a) as [<-|]; [|discriminate].
  done.
Qed.

Lemma session_of_insert w st u s :
  session_of (set_storage (<[u:=s]> st) w) u = s.
Proof. unfold session_of. simpl. by rewrite lookup_insert_eq. Qed.

(** The cancel click on the confirmed booking [b]: the administrator's
    session now waits for the reason and points at [id] *)
Lemma process_cancel_confirmed w c d id b :
  cb_data c = Some d ->
  Text.split "_" d !! 1%nat = Some id ->
  bookings_db w !! id = Some b ->
  b_status b = confirmed ->
  process_cancel c w
  = (set_storage
       (<[cb_from_user c :=
            mkSession (Some waiting_for_admin_comment)
              (mkUserData
                 (booking_date (data (session_of w (cb_from_user c))))
                 (guests (data (session_of w (cb_from_user c))))
                 (booking_type (data (session_of w (cb_from_user c))))
                 (rating (data (session_of w (cb_from_user c))))
                 (Some id))]> (storage w)) w,
     [SendMessage (cb_from_user c) TAskCancelReason NoMarkup;
      AnswerCallback (cb_from_user c) None]).
Proof.
  intros Hd Hid Hb Hst. unfold process_cancel. unfold_monad.
  rewrite Hd. simpl. rewrite Hid. simpl. rewrite Hb. simpl.
  rewrite (has_status_true b confirmed Hst). simpl.
  rewrite session_of_insert. simpl. unfold set_storage. simpl.
  by rewrite insert_insert_eq.
Qed.

Lemma feed_confirm_click w c d :
  is_admin (cb_from_user c) = true -> cb_data c = Some d ->
  Text.startswith "confirm_" d = true ->
  feed_update w (UCallback c) = process_confirm c w.
Proof. intros Ha Hd Hp. by dispatch_callback Hd Hp Ha. Qed.

Lemma feed_reject_click w c d :
  is_admin (cb_from_user c) = true -> cb_data c = Some d ->
  Text.startswith "reject_" d = true ->
  feed_update w (UCallback c) = process_reject c w.
Proof.
  intros Ha Hd Hp. dispatch_callback Hd Hp Ha.
  by rewrite (reject_prefix_only d Hp).
Qed.

Lemma feed_cancel_click w c d :
  is_admin (cb_from_user c) = true -> cb_data c = Some d ->
  Text.startswith "cancel_" d = true ->
  feed_update w (UCallback c) = process_cancel c w.
Proof.
  intros Ha Hd Hp. destruct (cancel_prefix_only d Hp) as [Hp1 Hp2].
  dispatch_callback Hd Hp Ha. by rewrite Hp1, Hp2.
Qed.

(** A user outside [ADMINS] is never asked for the number of tables or
    for the reason of a cancellation: after any sequence of updates, no
    message of such a user goes to [process_tables_count] or to
    [process_admin_comment]. *)
Lemma non_admin_never_prompted us m :
  is_admin (from_user m) = false ->
  route (run default_world us) (UMessage m) <> Some H_process_tables_count
  /\ route (run default_world us) (UMessage m) <> Some H_process_admin_comment.
Proof.
  intros Ha.
  pose proof (privileged_run us default_world privileged_default_world) as Hok.
  assert (forall st, privileged (Some st) ->
            in_state st (run default_world us) m = false) as Hno.
  { intros st Hst. apply bool_decide_eq_false_2. intros Hcur.
    unfold current_state in Hcur.
    destruct (session_of_state _ _ _ Hcur) as (s & Hs & Heq).
    rewrite (Hok (from_user m) s Hs) in Ha; [discriminate|].
    by rewrite <- Heq, Hcur. }
  split; intros Hr; routed Hr Hf;
    rewrite Hno in Hf; try discriminate; [by right | by left].
Qed.

(** The reason sent for a booking that is already rejected (after a
    reject click, or after another administrator's cancellation) changes
    neither the bookings nor the ledger. *)
Lemma comment_on_rejected_keeps_ledger w m id b :
  booking_id (data (session_of w (from_user m))) = Some id ->
  bookings_db w !! id = Some b ->
  b_status b = rejected ->
  process_admin_comment m w
  = (state_clear (from_user m) w,
     [SendMessage (b_user_id b) (TUserRejected (set_status rejected b) (text m))
                  NoMarkup;
      SendMessage (from_user m) (TAdminNotified id (text m)) AdminMenu]).
Proof.
  intros Hid Hb Hst. unfold process_admin_comment. unfold_monad.
  rewrite Hid. simpl. rewrite Hb. simpl.
  by rewrite (has_status_true b rejected Hst).
Qed.

Lemma current_state_clear w m : current_state (state_clear (from_user m) w) m = None.
Proof.
  unfold current_state, session_of, state_clear. simpl.
  by rewrite lookup_delete_eq.
Qed.

Lemma cancel_is_not_a_number : str_isdigit Label.cancel = false.
Proof.
  destruct (str_isdigit Label.cancel) eqn:E; [|done].
  apply str_isdigit_ascii in E. vm_compute in E. discriminate E.
Qed.

(** The updates that do not go to [process_contact] or
    [process_contact_manual], the ledger operations among them, meet the
    condition on new ids. *)
Lemma fresh_id_other_handler w u : may_create w u = false -> fresh_id w u.
Proof. intros H. destruct u; [|done]. simpl. by rewrite H. Qed.

(** The confirm click on a pending cottage booking sets it to
    [confirmed] whatever the store holds for its date. *)
Lemma confirm_cottage_unconditional w c d id b :
  is_admin (cb_from_user c) = true ->
  cb_data c = Some d ->
  Text.startswith "confirm_" d = true ->
  Text.split "_" d !! 1%nat = Some id ->
  bookings_db w !! id = Some b ->
  b_type b = cottage ->
  b_status b = pending ->
  bookings_db (feed_update w (UCallback c)).1
  = <[id:=set_status confirmed b]> (bookings_db w)
  /\ tables_db (feed_update w (UCallback c)).1 = tables_db w.
Proof.
  intros Ha Hd Hp Hid Hb Hty Hst. rewrite (feed_confirm_click w c d Ha Hd Hp).
  unfold process_confirm. unfold_monad. rewrite Hd. simpl. rewrite Hid. simpl.
  rewrite Hb. simpl.
  rewrite (has_status_true b pending Hst).
  rewrite (has_type_false b cottage table Hty) by discriminate. simpl.
  destruct (cb_message_text c) as [t|]; simpl; [|done].
  by destruct (Text.split newline2 t !! 1%nat).
Qed.

(** * The claims *)

(** The ledger invariant under fresh ids.  From a state that satisfies the
    invariant, every sequence of
    updates keeps it in each state it passes through: [available] stays
    between 0 and [total], and [total - available] is the number of
    confirmed table bookings.  The updates may be any the dispatcher
    accepts, among them the ledger operations (confirm click, reason of a
    cancellation, new table count); the only condition, [fresh_ids], is
    on the updates that may create a booking, which must not reuse an id
    already stored. *)
Theorem ledger_invariant_reachable w us k :
  inv w -> fresh_ids w us -> ledger_inv (run w (take k us)).
Proof.
  intros Hinv Hfresh.
  exact (proj1 (inv_run _ w Hinv (fresh_ids_take us w k Hfresh))).
Qed.

(** C2. An administrator's confirm click on a pending table booking
    while [available] is 0 is answered with the no-free-tables alert and
    changes nothing: the booking stays pending and [tables_db] keeps both
    fields. *)
Theorem confirm_fails_without_capacity w c d id b :
  is_admin (cb_from_user c) = true ->
  cb_data c = Some d ->
  Text.startswith "confirm_" d = true ->
  Text.split "_" d !! 1%nat = Some id ->
  bookings_db w !! id = Some b ->
  b_type b = table ->
  b_status b = pending ->
  available (tables_db w) = 0 ->
  route w (UCallback c) = Some H_process_confirm
  /\ feed_update w (UCallback c)
     = (w, [AnswerCallback (cb_from_user c) (Some TNoFreeTablesAlert)]).
Proof.
  intros Ha Hd Hp Hid Hb Hty Hst Hav. split.
  { unfold route, select_callback, callback_handlers.
    cbn [List.find ch_prefix]. unfold data_startswith. by rewrite Hd, Hp. }
  dispatch_callback Hd Hp Ha.
  unfold process_confirm. unfold_monad. rewrite Hd. simpl. rewrite Hid. simpl.
  rewrite Hb. simpl.
  rewrite (has_status_true b pending Hst), (has_type_true b table Hty), Hav.
  reflexivity.
Qed.

(** C3 (as amended). The cancel input is a text message with the cancel
    label.  In the date, party-size, contact and review-text states it
    returns the session to idle and leaves bookings, reviews and ledger
    unchanged.  In the tables-count state it is refused as not being a
    number and nothing changes, the session included.  In the
    cancellation-reason state it is taken as the reason: the session
    returns to idle, no booking or review is created, and a table
    booking that the session points at and that is not yet rejected
    becomes rejected with [available] one higher.  In the review-rating
    state bookings, reviews and ledger are unchanged. *)
Theorem cancel_input w m :
  text m = Some Label.cancel ->
  contact m = None ->
  let w' := (feed_update w (UMessage m)).1 in
  (forall st, current_state w m = Some st -> In st cancellable ->
     cancel_returns_to_idle w m)
  /\ (current_state w m = Some waiting_for_tables_count ->
       feed_update w (UMessage m)
       = (w, [SendMessage (from_user m) TEnterNumber NoMarkup]))
  /\ (current_state w m = Some waiting_for_admin_comment ->
       current_state w' m = None
       /\ reviews_db w' = reviews_db w
       /\ dom (bookings_db w') = dom (bookings_db w)
       /\ forall id b,
            booking_id (data (session_of w (from_user m))) = Some id ->
            bookings_db w !! id = Some b ->
            b_type b = table -> b_status b <> rejected ->
            bookings_db w' !! id = Some (set_status rejected b)
            /\ tables_db w'
               = mkTables (available (tables_db w) + 1) (total (tables_db w)))
  /\ (current_state w m = Some waiting_for_review_rating ->
       bookings_db w' = bookings_db w
       /\ reviews_db w' = reviews_db w
       /\ tables_db w' = tables_db w).
Proof.
  intros Ht Hc w'. subst w'.
  assert (text_is m Label.cancel = true) as Hcancel
    by (unfold text_is; by rewrite Ht, bool_decide_eq_true_2).
  split; [|split; [|split]].
  - unfold cancellable, In. intros st Hs Hin.
    unfold cancel_returns_to_idle, feed_update.
    destruct Hin as [<-|[<-|[<-|[<-|[<-|[<-|[]]]]]]];
      dispatch Ht Hs; unfold has_contact; rewrite ?Hc; cbn [andb mh_run];
      [unfold process_cottage_date | unfold process_cottage_guests
      |unfold process_table_date | unfold process_table_guests
      |unfold process_contact_manual | unfold process_review_text];
      unfold_monad; rewrite Hcancel; simpl;
      (split; [apply current_state_clear | done]).
  - intros Hs. unfold feed_update. dispatch Ht Hs. cbn [mh_run].
    unfold process_tables_count. unfold_monad. rewrite Ht. simpl.
    by rewrite cancel_is_not_a_number.
  - intros Hs. unfold feed_update. dispatch Ht Hs. cbn [mh_run].
    split; [|split; [|split]].
    + unfold process_admin_comment. unfold_monad.
      destruct (booking_id _); simpl; [|apply current_state_clear].
      destruct (bookings_db w !! _); simpl; [|apply current_state_clear].
      destruct (has_status rejected _); simpl; [apply current_state_clear|].
      destruct (has_type table _); apply current_state_clear.
    + unfold process_admin_comment. unfold_monad.
      destruct (booking_id _); simpl; [|done].
      destruct (bookings_db w !! _); simpl; [|done].
      destruct (has_status rejected _); simpl; [done|].
      by destruct (has_type table _).
    + unfold process_admin_comment. unfold_monad.
      destruct (booking_id _) as [id|]; simpl; [|done].
      destruct (bookings_db w !! id) as [b|] eqn:Hb; simpl; [|done].
      destruct (has_status rejected b); simpl; [done|].
      destruct (has_type table b); simpl;
        (apply dom_insert_lookup_L; by rewrite Hb).
    + intros id b Hid Hb Hty Hst.
      unfold process_admin_comment. unfold_monad. rewrite Hid. simpl.
      rewrite Hb. simpl.
      rewrite (has_status_false b (b_status b) rejected eq_refl) by done.
      rewrite (has_type_true b table Hty). simpl.
      split; [apply lookup_insert_eq | done].
  - intros Hs. unfold feed_update. dispatch Ht Hs.
    unfold matches_rating. rewrite Ht.
    destruct (rating_regexp Label.cancel); cbn [mh_run]; [|done].
    unfold process_review_rating. unfold_monad. rewrite Ht. simpl.
    by destruct (rating_token Label.cancel).
Qed.

(** C4. An administrator cancels the confirmed table booking [b]: after
    the cancel click and the reason, [available] is one higher and the
    booking is [rejected].  A reject or cancel click on a booking that is
    already [rejected] is answered with the already-processed (for the
    cancel button: already cancelled or not confirmed) alert and changes
    nothing. *)
Theorem reject_releases_table w c d id b :
  is_admin (cb_from_user c) = true ->
  cb_data c = Some d ->
  Text.split "_" d !! 1%nat = Some id ->
  bookings_db w !! id = Some b ->
  (b_type b = table -> b_status b = confirmed ->
   Text.startswith "cancel_" d = true ->
   forall m, from_user m = cb_from_user c ->
     route (feed_update w (UCallback c)).1 (UMessage m)
     = Some H_process_admin_comment ->
     let w' := (feed_update (feed_update w (UCallback c)).1 (UMessage m)).1 in
     tables_db w'
     = mkTables (available (tables_db w) + 1) (total (tables_db w))
     /\ bookings_db w' = <[id:=set_status rejected b]> (bookings_db w))
  /\ (b_status b = rejected ->
       (Text.startswith "reject_" d = true ->
        feed_update w (UCallback c)
        = (w, [AnswerCallback (cb_from_user c) (Some TAlreadyProcessed)]))
       /\ (Text.startswith "cancel_" d = true ->
            feed_update w (UCallback c)
            = (w, [AnswerCallback (cb_from_user c) (Some TNotConfirmed)]))).
Proof.
  intros Ha Hd Hid Hb. split; [|intros Hst; split].
  - intros Hty Hst Hp m Hm.
    rewrite (feed_cancel_click w c d Ha Hd Hp).
    rewrite (process_cancel_confirmed w c d id b Hd Hid Hb Hst). cbn [fst].
    intros Hr. routed Hr Hf.
    unfold process_admin_comment. unfold_monad.
    rewrite Hm, session_of_insert. simpl. rewrite Hb. simpl.
    rewrite (has_status_false b confirmed rejected Hst) by discriminate.
    rewrite (has_type_true b table Hty). simpl. done.
  - intros Hp. rewrite (feed_reject_click w c d Ha Hd Hp).
    unfold process_reject. unfold_monad. rewrite Hd. simpl.
    rewrite Hid. simpl. rewrite Hb. simpl.
    by rewrite (has_status_false b rejected pending Hst) by discriminate.
  - intros Hp. rewrite (feed_cancel_click w c d Ha Hd Hp).
    unfold process_cancel. unfold_monad. rewrite Hd. simpl.
    rewrite Hid. simpl. rewrite Hb. simpl.
    by rewrite (has_status_false b rejected confirmed Hst) by discriminate.
Qed.

(** C5. The administrator's answer [t] to the question for the new
    number of tables is refused, with the state unchanged, when it is not
    a number, when the number [n] is below 1, and when it is below the
    number of tables taken ([total - available]); otherwise [total]
    becomes [n] and [available] becomes [n] minus the number of tables
    taken. *)
Theorem resize_tables w m t :
  route w (UMessage m) = Some H_process_tables_count ->
  text m = Some t ->
  let booked := total (tables_db w) - available (tables_db w) in
  (str_isdigit t = false ->
     feed_update w (UMessage m)
     = (w, [SendMessage (from_user m) TEnterNumber NoMarkup]))
  /\ (forall n, str_isdigit t = true -> py_int t = Some n ->
       (n < 1 ->
          feed_update w (UMessage m)
          = (w, [SendMessage (from_user m) TTablesPositive NoMarkup]))
       /\ (1 <= n -> n < booked ->
            feed_update w (UMessage m)
            = (w, [SendMessage (from_user m) (TTablesBelowBooked booked)
                               NoMarkup]))
       /\ (1 <= n -> booked <= n ->
            feed_update w (UMessage m)
            = (state_clear (from_user m)
                 (set_tables (mkTables (n - booked) n) w),
               [SaveData (bookings_db w) (mkTables (n - booked) n)
                         (reviews_db w);
                SendMessage (from_user m)
                            (TTablesChanged (mkTables (n - booked) n))
                            AdminMenu]))).
Proof.
  intros Hr Ht booked. routed Hr Hf.
  unfold process_tables_count. unfold_monad. rewrite Ht. simpl. split.
  { intros Hd. by rewrite Hd. }
  intros n Hd Hn. rewrite Hd. simpl. rewrite Hn. simpl. subst booked.
  split; [|split].
  - intros H1. apply Z.ltb_lt in H1. by rewrite H1.
  - intros H1 H2. apply Z.ltb_ge in H1. apply Z.ltb_lt in H2.
    by rewrite H1, H2.
  - intros H1 H2. apply Z.ltb_ge in H1, H2. by rewrite H1, H2.
Qed.

(** [_save_booking] with the date compared as it was typed.  For a
    complete draft, [_save_booking] stops with the
    duplicate notice, storing nothing and notifying no administrator, when
    the store holds a pending booking of the same user, date text and type;
    otherwise it stores the new record as [pending] under the id derived
    from the clock and sends every administrator the request with the
    confirm and reject buttons for that id. *)
Theorem save_booking_duplicate_or_stored w m phone ty date g :
  booking_type (data (session_of w (from_user m))) = Some ty ->
  booking_date (data (session_of w (from_user m))) = Some date ->
  guests (data (session_of w (from_user m))) = Some g ->
  Text.make_id (now_timestamp m) <> "" ->
  let id := Text.make_id (now_timestamp m) in
  let new :=
    mkBooking id ty date g (from_user m) (full_name m) phone pending (now_iso m) in
  ((exists i b, bookings_db w !! i = Some b
                /\ duplicate_of (from_user m) date ty b) ->
     _save_booking m phone w
     = (Ok (), state_clear (from_user m) w,
        [SendMessage (from_user m) TDuplicatePending NoMarkup]))
  /\ ((forall i b, bookings_db w !! i = Some b ->
                   ~ duplicate_of (from_user m) date ty b) ->
       _save_booking m phone w
       = (Ok (),
          state_clear (from_user m) (set_bookings (<[id:=new]> (bookings_db w)) w),
          SaveData (<[id:=new]> (bookings_db w)) (tables_db w) (reviews_db w)
          :: List.map (fun a => SendMessage a (TNewBooking new)
                                  (Inline ["confirm_" +:+ id; "reject_" +:+ id]))
                      ADMINS
          ++ [SendMessage (from_user m) TBookingAccepted MainMenu])).
Proof.
  intros Hty Hdate Hg Hid id new.
  unfold _save_booking. unfold_monad. rewrite Hdate. simpl. rewrite Hty.
  simpl. split.
  - intros (i & b & Hb & Hdup).
    rewrite (existsb_values_true _ _ i b Hb) by by apply is_duplicate_spec.
    reflexivity.
  - intros Hnone.
    assert (existsb (is_duplicate (from_user m) date ty)
                    (values (bookings_db w)) = false) as ->.
    { apply existsb_values_false. intros i b Hb.
      destruct (is_duplicate (from_user m) date ty b) eqn:E; [|done].
      apply is_duplicate_spec in E. by destruct (Hnone i b Hb). }
    rewrite Hg. simpl. unfold decision_keyboard. fold id.
    rewrite bool_decide_eq_false_2 by done.
    reflexivity.
Qed.

(** C8 (as amended). An update from a user outside [ADMINS]: a click on
    a confirm, reject, cancel or info button is answered with the
    access-denied alert and changes nothing; the statistics, list,
    cancel-a-booking and change-table-count commands do nothing at all,
    without any reply. *)
Theorem non_admin_is_kept_out w u :
  is_admin (sender u) = false ->
  match u, route w u with
  | UCallback c, Some _ =>
      feed_update w u
      = (w, [AnswerCallback (cb_from_user c) (Some TAccessDenied)])
  | UMessage m, Some h =>
      In h admin_commands -> feed_update w u = (w, [])
  | _, None => feed_update w u = (w, [])
  end.
Proof.
  intros Ha. destruct u as [m|c]; simpl in Ha.
  - destruct (route w (UMessage m)) as [h|] eqn:Hr.
    + unfold admin_commands, In.
      intros [<-|[<-|[<-|[<-|[]]]]]; routed Hr Hf;
        [unfold show_stats | unfold list_bookings
        |unfold cancel_booking_start | unfold change_tables_start];
        unfold_monad; by rewrite Ha.
    + unfold route in Hr. unfold feed_update.
      by destruct (select_message w m).
  - unfold route, feed_update.
    destruct (select_callback c) as [h|]; simpl; [|done].
    unfold admin_check_middleware. by rewrite Ha.
Qed.

(** C10. With no table available, the request to book a table made from
    the idle state goes to [book_table_start], which only tells the user
    that no table is free: the session stays idle, nothing is written to
    its data, and no other part of the state changes. *)
Theorem table_booking_refused_when_full w m :
  text m = Some Label.book_table ->
  current_state w m = None ->
  available (tables_db w) <= 0 ->
  route w (UMessage m) = Some H_book_table_start
  /\ feed_update w (UMessage m)
     = (w, [SendMessage (from_user m) TNoFreeTables NoMarkup]).
Proof.
  intros Ht Hs Ha. unfold route, feed_update. dispatch Ht Hs.
  split; [reflexivity|]. cbn [mh_run].
  unfold book_table_start. unfold_monad. simpl.
  apply Z.leb_le in Ha. by rewrite Ha.
Qed.

(** * Further properties of the handlers *)

(** ** Walking through a handler body *)

Section Steps.
Context (R : relation World) (P : Action -> Prop) `{!PreOrder R}.

Lemma always_ret {A : Type} (a : A) : always R P (mret a).
Proof. intros w. split; [reflexivity | constructor]. Qed.

Lemma always_raise {A : Type} : always R P (@raise A).
Proof. intros w. split; [reflexivity | constructor]. Qed.

Lemma always_get_world : always R P get_world.
Proof. intros w. split; [reflexivity | constructor]. Qed.

Lemma always_require {A : Type} (o : option A) : always R P (require o).
Proof. destruct o; [apply always_ret | apply always_raise]. Qed.

Lemma always_bind {A B : Type} (m : M A) (f : A -> M B) :
  always R P m -> (forall a, always R P (f a)) -> always R P (m ≫= f).
Proof.
  intros Hm Hf w. unfold mbind, M_bind. destruct (Hm w) as [Hr Hp].
  destruct (m w) as [[[a|] w1] l1]; simpl in *; [|done].
  destruct (Hf a w1) as [Hr' Hp']. destruct (f a w1) as [[r w2] l2]; simpl in *.
  split; [by etrans | by apply Forall_app].
Qed.

Lemma always_emit a : P a -> always R P (emit a).
Proof. intros Ha w. split; [reflexivity | by repeat constructor]. Qed.

Lemma always_modify f : (forall w, R w (f w)) -> always R P (modify f).
Proof. intros Hf w. split; [apply Hf | constructor]. Qed.

Lemma always_notify_admins t id :
  (forall a, is_admin a = true -> P (SendMessage a t (decision_keyboard id))) ->
  always R P (notify_admins t id).
Proof.
  intros Ha w. split; [reflexivity|]. simpl.
  apply Forall_forall. intros x Hx.
  apply list_elem_of_In, in_map_iff in Hx as (a & <- & Hin).
  apply Ha, bool_decide_eq_true_2. by apply list_elem_of_In.
Qed.

Lemma always_except_clear h u body w :
  always R P body -> (forall w', R w' (state_clear u w')) -> P (LogError h) ->
  R w (except_clear h u body w).1 /\ Forall P (except_clear h u body w).2.
Proof.
  intros Hb Hc Hl. unfold except_clear. destruct (Hb w) as [Hr Hp].
  destruct (body w) as [[[a|] w1] l1]; simpl in *; [done|].
  split; [etrans; [done | apply Hc]|].
  apply Forall_app. split; [done | by repeat constructor].
Qed.

Lemma always_except_log h body w :
  always R P body -> P (LogError h) ->
  R w (except_log h body w).1 /\ Forall P (except_log h body w).2.
Proof.
  intros Hb Hl. unfold except_log. destruct (Hb w) as [Hr Hp].
  destruct (body w) as [[[a|] w1] l1]; simpl in *; [done|].
  split; [done|]. apply Forall_app. split; [done | by repeat constructor].
Qed.

Lemma always_except_answer h u body w :
  always R P body -> P (LogError h) -> P (AnswerCallback u (Some TError)) ->
  R w (except_answer h u body w).1 /\ Forall P (except_answer h u body w).2.
Proof.
  intros Hb Hl Ha. unfold except_answer. destruct (Hb w) as [Hr Hp].
  destruct (body w) as [[[a|] w1] l1]; simpl in *; [done|].
  split; [done|]. apply Forall_app. split; [done | by repeat constructor].
Qed.

End Steps.

(** Applies a rule of the walk and finds the preorder it needs *)
Ltac rule L :=
  apply L; try (match goal with |- PreOrder _ => apply _ end).

(** Walks through a handler body; [tac] proves what the relation and the
    predicate on actions ask of a state change or an action *)
Ltac always_step tac :=
  first
    [ rule always_bind; [|intros ?]
    | rule always_ret
    | rule always_raise
    | rule always_get_world
    | rule always_require
    | rule always_emit; tac
    | rule always_modify; intros ?; tac
    | rule always_notify_admins; intros ? ?; tac
    | progress cbv zeta
    | match goal with
      | |- always _ _ (if ?b then _ else _) => destruct b eqn:?
      | |- always _ _ (match ?o with _ => _ end) => destruct o eqn:?
      end ].

Ltac solve_always tac :=
  unfold set_state, update_data, clear, answer, answer_callback, save_data,
    get_data, callback_booking_id, message_details, pass, _save_booking;
  repeat always_step tac.

(** Applies the rule of the [try]/[except] wrapper of a handler, then
    walks through its body *)
Ltac handler_always tac :=
  first [ rule always_except_clear; [|intros ?; tac|tac]
        | rule always_except_log; [|tac]
        | rule always_except_answer; [|tac|tac] ];
  solve_always tac.

(** ** A handler touches the session of the sender only *)

#[local] Instance only_session_preorder u : PreOrder (only_session u).
Proof.
  split.
  - intros w v Hv. reflexivity.
  - intros w1 w2 w3 H1 H2 v Hv. by rewrite (H2 v Hv), (H1 v Hv).
Qed.

Ltac session_tac :=
  try done;
  try (intros ? ?; unfold state_clear; simpl;
       rewrite ?lookup_insert_ne, ?lookup_delete_ne by done; done).

Lemma only_session_message h :
  In h message_handlers ->
  forall m w, only_session (from_user m) w (mh_run h m w).1.
Proof.
  unfold message_handlers. intros Hin m w.
  repeat (destruct Hin as [<-|Hin]); try (by destruct Hin); cbn [mh_run];
    try (refine (proj1 (_ : _ /\ Forall (fun _ => True) _));
         by handler_always session_tac).
  unfold cmd_start. by destruct (is_admin (from_user m)).
Qed.

Lemma only_session_callback h :
  In h callback_handlers ->
  forall c w, only_session (cb_from_user c) w (ch_run h c w).1.
Proof.
  unfold callback_handlers. intros Hin c w.
  repeat (destruct Hin as [<-|Hin]); try (by destruct Hin); cbn [ch_run];
    refine (proj1 (_ : _ /\ Forall (fun _ => True) _));
    by handler_always session_tac.
Qed.

(** X1. Whatever the update, the sessions of the users other than its sender
    are the same afterwards. *)
Theorem other_sessions_untouched w u v :
  v <> sender u -> storage (feed_update w u).1 !! v = storage w !! v.
Proof.
  intros Hv. destruct u as [m|c]; unfold feed_update; simpl in Hv.
  - destruct (select_message w m) as [h|] eqn:Hsel; [|done].
    apply find_some in Hsel as [Hin _].
    by apply (only_session_message h Hin m w).
  - destruct (select_callback c) as [h|] eqn:Hsel; [|done].
    apply find_some in Hsel as [Hin _]. unfold admin_check_middleware.
    destruct (is_admin (cb_from_user c)); cbn [negb]; [|done].
    by apply (only_session_callback h Hin c w).
Qed.

(** ** Who is shown a booking *)

#[local] Instance any_state_preorder : PreOrder any_state.
Proof. by split. Qed.

Ltac discreet_tac :=
  try exact I;
  try (simpl;
       intros ? [?|[?|[?|[[? ?]|(? & ? & ? & ?)]]]]; simplify_eq/=;
       repeat match goal with
         | H : negb _ = false |- _ => apply negb_false_iff in H
         end;
       first [ by left | by right ]).

Lemma discreet_message h :
  In h message_handlers ->
  forall m w, Forall discreet (mh_run h m w).2.
Proof.
  unfold message_handlers. intros Hin m w.
  repeat (destruct Hin as [<-|Hin]); try (by destruct Hin); cbn [mh_run];
    try (refine (proj2 (_ : any_state w _ /\ _));
         by handler_always discreet_tac).
  unfold cmd_start, answer, emit.
  destruct (is_admin (from_user m)); simpl;
    (apply Forall_cons; split; [discreet_tac | constructor]).
Qed.

Lemma discreet_callback h :
  In h callback_handlers ->
  forall c w, is_admin (cb_from_user c) = true ->
    Forall discreet (ch_run h c w).2.
Proof.
  unfold callback_handlers. intros Hin c w Ha.
  repeat (destruct Hin as [<-|Hin]); try (by destruct Hin); cbn [ch_run];
    refine (proj2 (_ : any_state w _ /\ _));
    by handler_always discreet_tac.
Qed.

(** X2. For updates from private chats, where a reply to the chat of a
    message is a reply to its sender (the convention of this file; in a
    group chat the replies of [message.answer] go to the group, which is
    outside it): a message that shows a stored booking (the
    request sent by [notify_admins], the card of [show_booking_info], the
    lists of [list_bookings] and [cancel_booking_start], the decision sent
    to the customer) goes to an administrator or to the user who made
    that booking. *)
Theorem bookings_shown_discreetly w u : Forall discreet (feed_update w u).2.
Proof.
  destruct u as [m|c]; unfold feed_update.
  - destruct (select_message w m) as [h|] eqn:Hsel; [|constructor].
    apply find_some in Hsel as [Hin _]. by apply discreet_message.
  - destruct (select_callback c) as [h|] eqn:Hsel; [|constructor].
    apply find_some in Hsel as [Hin _]. unfold admin_check_middleware.
    destruct (is_admin (cb_from_user c)) eqn:Ha; cbn [negb].
    + by apply discreet_callback.
    + repeat constructor.
Qed.

(** ** What is changed is saved *)

#[local] Instance same_stores_preorder : PreOrder same_stores.
Proof.
  split; [by intros w|]. intros w1 w2 w3 H1 H2. unfold same_stores in *.
  congruence.
Qed.

Lemma last_saved_app l1 l2 :
  last_saved (l1 ++ l2)
  = match last_saved l2 with
    | Some s => Some s
    | None => last_saved l1
    end.
Proof.
  induction l1 as [|a l1 IH]; simpl; [by destruct (last_saved l2)|].
  rewrite IH. by destruct (last_saved l2).
Qed.

Lemma last_saved_no_save l : Forall no_save l -> last_saved l = None.
Proof.
  induction 1 as [|a l Ha _ IH]; simpl; [done|]. rewrite IH. by destruct a.
Qed.

Lemma keeps_of_quiet {A : Type} (c : M A) : always same_stores no_save c -> keeps c.
Proof.
  intros H w. destruct (H w) as [Hs Hn]. unfold saved_consistently.
  by rewrite (last_saved_no_save _ Hn).
Qed.

Lemma keeps_of_writes {A : Type} (c : M A) : writes c -> keeps c.
Proof. intros H w. unfold saved_consistently. by rewrite (H w). Qed.

Lemma keeps_bind {A B : Type} (m : M A) (f : A -> M B) :
  keeps m -> (forall a, keeps (f a)) -> keeps (m ≫= f).
Proof.
  intros Hm Hf w. unfold mbind, M_bind. specialize (Hm w).
  destruct (m w) as [[[a|] w1] l1]; simpl in *; [|done].
  specialize (Hf a w1). destruct (f a w1) as [[r w2] l2]; simpl in *.
  unfold saved_consistently in *. rewrite last_saved_app.
  destruct (last_saved l2); [done|]. destruct (last_saved l1); congruence.
Qed.

Lemma writes_save_data : writes save_data.
Proof. by intros w. Qed.

Lemma writes_save_then {B : Type} (k : M B) :
  keeps k -> writes (save_data ≫= fun _ => k).
Proof.
  intros Hk w. unfold save_data, mbind, M_bind, get_world, emit. simpl.
  specialize (Hk w). destruct (k w) as [[r w2] l2]; simpl in *.
  unfold saved_consistently, stores in *.
  destruct (last_saved l2); simpl; congruence.
Qed.

Lemma writes_silent_then {B : Type} (m : M unit) (k : M B) :
  silent m -> writes k -> writes (m ≫= fun _ => k).
Proof.
  intros Hm Hk w. unfold mbind, M_bind. destruct (Hm w) as [w1 ->].
  specialize (Hk w1). by destruct (k w1) as [[r w2] l2].
Qed.

Lemma silent_modify f : silent (modify f).
Proof. intros w. by eexists. Qed.

Lemma silent_pass : silent pass.
Proof. intros w. by eexists. Qed.

Lemma keeps_except_clear h u body w :
  keeps body ->
  saved_consistently w (except_clear h u body w).1 (except_clear h u body w).2.
Proof.
  intros Hb. unfold except_clear. specialize (Hb w).
  destruct (body w) as [[[a|] w1] l1]; simpl in *; [done|].
  unfold saved_consistently in *. rewrite last_saved_app. simpl. exact Hb.
Qed.

Lemma keeps_except_log h body w :
  keeps body ->
  saved_consistently w (except_log h body w).1 (except_log h body w).2.
Proof.
  intros Hb. unfold except_log. specialize (Hb w).
  destruct (body w) as [[[a|] w1] l1]; simpl in *; [done|].
  unfold saved_consistently in *. rewrite last_saved_app. simpl. exact Hb.
Qed.

Lemma keeps_except_answer h u body w :
  keeps body ->
  saved_consistently w (except_answer h u body w).1 (except_answer h u body w).2.
Proof.
  intros Hb. unfold except_answer. specialize (Hb w).
  destruct (body w) as [[[a|] w1] l1]; simpl in *; [done|].
  unfold saved_consistently in *. rewrite last_saved_app. simpl. exact Hb.
Qed.

Ltac quiet_tac := try exact I; try reflexivity.

Ltac silent_step :=
  first [ apply silent_modify | apply silent_pass
        | match goal with
          | |- silent (if ?b then _ else _) => destruct b
          end ].

(** A block that changes the stores and then saves them *)
Ltac writes_walk :=
  repeat first
    [ apply writes_save_data
    | apply writes_save_then; apply keeps_of_quiet; solve [solve_always quiet_tac]
    | apply writes_silent_then; [solve [repeat silent_step]|] ].

Ltac keeps_step :=
  first
    [ apply keeps_of_quiet; solve [solve_always quiet_tac]
    | apply keeps_of_writes; solve [writes_walk]
    | apply keeps_bind; [|intros ?]
    | progress cbv zeta
    | match goal with
      | |- keeps (if ?b then _ else _) => destruct b
      | |- keeps (match ?o with _ => _ end) => destruct o
      end ].

Ltac handler_keeps :=
  first [ apply keeps_except_clear | apply keeps_except_log
        | apply keeps_except_answer ];
  unfold _save_booking, callback_booking_id, get_data;
  repeat keeps_step.

Lemma keeps_message h :
  In h message_handlers ->
  forall m w, saved_consistently w (mh_run h m w).1 (mh_run h m w).2.
Proof.
  unfold message_handlers. intros Hin m w.
  repeat (destruct Hin as [<-|Hin]); try (by destruct Hin); cbn [mh_run];
    try (by handler_keeps).
  unfold cmd_start. by destruct (is_admin (from_user m)).
Qed.

Lemma keeps_callback h :
  In h callback_handlers ->
  forall c w, saved_consistently w (ch_run h c w).1 (ch_run h c w).2.
Proof.
  unfold callback_handlers. intros Hin c w.
  repeat (destruct Hin as [<-|Hin]); try (by destruct Hin); cbn [ch_run];
    by handler_keeps.
Qed.

Lemma saved_feed_update w u :
  saved_consistently w (feed_update w u).1 (feed_update w u).2.
Proof.
  destruct u as [m|c]; unfold feed_update.
  - destruct (select_message w m) as [h|] eqn:Hsel; [|done].
    apply find_some in Hsel as [Hin _]. by apply keeps_message.
  - destruct (select_callback c) as [h|] eqn:Hsel; [|done].
    apply find_some in Hsel as [Hin _]. unfold admin_check_middleware.
    destruct (is_admin (cb_from_user c)); cbn [negb]; [|done].
    by apply keeps_callback.
Qed.

(** X3. Whatever the update: when the handler called [save_data], the last
    call wrote the bookings, the ledger and the reviews as they are in
    memory afterwards; when it did not, the three are as before.  So the
    file never lags behind the memory. *)
Theorem changes_are_saved w u :
  saved_consistently w (feed_update w u).1 (feed_update w u).2.
Proof. apply saved_feed_update. Qed.

(** ** What an update does to the bookings *)

#[local] Instance same_bookings_preorder : PreOrder same_bookings.
Proof.
  split; [by intros w|]. intros w1 w2 w3 H1 H2. unfold same_bookings in *.
  congruence.
Qed.

Ltac same_tac := try exact I; try reflexivity.

Lemma same_bookings_message h :
  In h message_handlers ->
  mh_name h <> H_process_contact -> mh_name h <> H_process_contact_manual ->
  mh_name h <> H_process_admin_comment ->
  forall m w, bookings_db (mh_run h m w).1 = bookings_db w.
Proof.
  unfold message_handlers. intros Hin H1 H2 H3 m w.
  repeat (destruct Hin as [<-|Hin]); try (by destruct Hin);
    cbn [mh_run mh_name] in *; try done;
    try (refine (proj1 (_ : same_bookings w _ /\ Forall (fun _ => True) _));
         by handler_always same_tac).
  unfold cmd_start. by destruct (is_admin (from_user m)).
Qed.

Lemma bookings_process_confirm c w u :
  bookings_change w u (process_confirm c w).1.
Proof.
  unfold process_confirm. unfold_monad.
  destruct (cb_data c) as [d|]; simpl; [|by left].
  destruct (Text.split "_" d !! 1%nat) as [id|]; simpl; [|by left].
  destruct (bookings_db w !! id) as [b|] eqn:Hb; simpl; [|by left].
  destruct (has_status pending b) eqn:Hp; simpl; [|by left].
  apply bool_decide_eq_true in Hp.
  destruct (has_type table b && (available (tables_db w) <=? 0)); simpl;
    [by left|].
  right; left. exists id, b, confirmed. rewrite Hp.
  split; [done|]. split; [constructor|].
  destruct (has_type table b); simpl;
    destruct (cb_message_text c) as [t|]; simpl; try done;
    by destruct (Text.split newline2 t !! 1%nat).
Qed.

Lemma bookings_process_reject c w u :
  bookings_change w u (process_reject c w).1.
Proof.
  unfold process_reject. unfold_monad.
  destruct (cb_data c) as [d|]; simpl; [|by left].
  destruct (Text.split "_" d !! 1%nat) as [id|]; simpl; [|by left].
  destruct (bookings_db w !! id) as [b|] eqn:Hb; simpl; [|by left].
  destruct (has_status pending b) eqn:Hp; simpl; [|by left].
  apply bool_decide_eq_true in Hp.
  right; left. exists id, b, rejected. rewrite Hp.
  split; [done|]. split; [constructor|].
  destruct (cb_message_text c) as [t|]; simpl; [|done].
  by destruct (Text.split newline2 t !! 1%nat).
Qed.

Lemma bookings_process_admin_comment m w u :
  bookings_change w u (process_admin_comment m w).1.
Proof.
  unfold process_admin_comment. unfold_monad.
  destruct (booking_id _) as [id|]; simpl; [|by left].
  destruct (bookings_db w !! id) as [b|] eqn:Hb; simpl; [|by left].
  destruct (has_status rejected b) eqn:Hr; simpl; [by left|].
  apply bool_decide_eq_false in Hr.
  right; left. exists id, b, rejected. split; [done|]. split.
  - destruct (b_status b); [constructor | constructor | done].
  - by destruct (has_type table b).
Qed.

Lemma bookings_save_booking h m phone w :
  may_create w (UMessage m) = true ->
  bookings_change w (UMessage m)
    (except_clear h (from_user m) (_save_booking m phone) w).1.
Proof.
  intros Hc. unfold _save_booking. unfold_monad.
  destruct (booking_date _) as [date|] eqn:Hd; simpl; [|by left].
  destruct (booking_type _) as [ty|] eqn:Ht; simpl; [|by left].
  destruct (existsb _ _) eqn:He; simpl; [by left|].
  destruct (guests _) as [g|] eqn:Hg; simpl; [|by left].
  right; right. exists m, phone, date, ty, g. repeat split; try done.
  intros i b Hb Hdup. apply is_duplicate_spec in Hdup.
  by rewrite (existsb_values_true _ _ i b Hb Hdup) in He.
Qed.

Lemma bookings_process_contact m w :
  may_create w (UMessage m) = true ->
  bookings_change w (UMessage m) (process_contact m w).1.
Proof.
  intros Hc. unfold process_contact. destruct (contact m) as [phone|].
  - unfold except_clear, require. rewrite bind_ret_l.
    by apply (bookings_save_booking H_process_contact).
  - unfold_monad. simpl. by left.
Qed.

Lemma bookings_process_contact_manual m w :
  may_create w (UMessage m) = true ->
  bookings_change w (UMessage m) (process_contact_manual m w).1.
Proof.
  intros Hc. unfold process_contact_manual.
  destruct (text_is m Label.cancel). { unfold_monad. simpl. by left. }
  destruct (text_is m Label.manual_phone). { unfold_monad. simpl. by left. }
  destruct (text m) as [t|].
  - unfold except_clear, require. rewrite bind_ret_l.
    fold (except_clear H_process_contact_manual (from_user m)).
    destruct (py_len (digit_chars t) <? 11)%nat.
    + unfold_monad. simpl. by left.
    + by apply (bookings_save_booking H_process_contact_manual).
  - unfold_monad. simpl. by left.
Qed.

Lemma bookings_feed_update w u : bookings_change w u (feed_update w u).1.
Proof.
  destruct u as [m|c]; unfold feed_update.
  - destruct (select_message w m) as [h|] eqn:Hsel; [|by left].
    assert (route w (UMessage m) = Some (mh_name h)) as Hr
      by (unfold route; by rewrite Hsel).
    apply find_some in Hsel as [Hin _].
    destruct (decide (mh_name h = H_process_contact)) as [H1|H1];
      [|destruct (decide (mh_name h = H_process_contact_manual)) as [H2|H2];
        [|destruct (decide (mh_name h = H_process_admin_comment)) as [H3|H3]]].
    + assert (may_create w (UMessage m) = true) as Hc
        by (unfold may_create; by rewrite Hr, H1).
      unfold message_handlers in Hin.
      repeat (destruct Hin as [<-|Hin]); try (by destruct Hin);
        try discriminate H1. by apply bookings_process_contact.
    + assert (may_create w (UMessage m) = true) as Hc
        by (unfold may_create; by rewrite Hr, H2).
      unfold message_handlers in Hin.
      repeat (destruct Hin as [<-|Hin]); try (by destruct Hin);
        try discriminate H2. by apply bookings_process_contact_manual.
    + unfold message_handlers in Hin.
      repeat (destruct Hin as [<-|Hin]); try (by destruct Hin);
        try discriminate H3. apply bookings_process_admin_comment.
    + left. by apply same_bookings_message.
  - destruct (select_callback c) as [h|] eqn:Hsel; [|by left].
    apply find_some in Hsel as [Hin _]. unfold admin_check_middleware.
    destruct (is_admin (cb_from_user c)); cbn [negb]; [|by left].
    unfold callback_handlers in Hin.
    repeat (destruct Hin as [<-|Hin]); try (by destruct Hin); cbn [ch_run].
    + apply bookings_process_confirm.
    + apply bookings_process_reject.
    + left. refine (proj1 (_ : same_bookings w _ /\ Forall (fun _ => True) _)).
      by handler_always same_tac.
    + left. refine (proj1 (_ : same_bookings w _ /\ Forall (fun _ => True) _)).
      by handler_always same_tac.
Qed.


(** ** Bookings are kept and their status only moves forward *)

Lemma advanced_trans s1 s2 s3 : advanced s1 s2 -> advanced s2 s3 -> advanced s1 s3.
Proof.
  intros [->|H1] [->|H2]; [by left | by right | by right |].
  right. destruct H1; inversion H2; constructor.
Qed.

Lemma records_kept_refl w : records_kept w w.
Proof.
  intros id b Hb. exists b. split; [done|]. split; [by destruct b | by left].
Qed.

Lemma records_kept_trans w1 w2 w3 :
  records_kept w1 w2 -> records_kept w2 w3 -> records_kept w1 w3.
Proof.
  intros H12 H23 id b Hb.
  destruct (H12 id b Hb) as (b2 & Hb2 & Heq2 & Hadv2).
  destruct (H23 id b2 Hb2) as (b3 & Hb3 & Heq3 & Hadv3).
  exists b3. split; [done|]. split.
  - rewrite Heq3, Heq2. by destruct b.
  - by apply (advanced_trans _ (b_status b2)).
Qed.

Lemma records_kept_feed_update w u :
  fresh_id w u -> records_kept w (feed_update w u).1.
Proof.
  intros Hfresh id b Hb.
  destruct (bookings_feed_update w u) as [Heq|[Hst|Hnew]].
  - rewrite Heq. by apply records_kept_refl.
  - destruct Hst as (id0 & b0 & s & Hb0 & Htr & ->).
    destruct (decide (id0 = id)) as [->|Hne].
    + rewrite lookup_insert_eq. assert (b0 = b) as -> by congruence.
      exists (set_status s b). split; [done|]. split; [by destruct b|].
      by right.
    + rewrite lookup_insert_ne by done. by apply records_kept_refl.
  - destruct Hnew as (m & phone & date & ty & g & -> & Hc & _ & _ & _ & _ & ->).
    specialize (Hfresh Hc).
    rewrite lookup_insert_ne by congruence. by apply records_kept_refl.
Qed.

(** ** At most one pending request per user, date and type *)

Lemma unique_pending_feed_update w u :
  unique_pending w -> unique_pending (feed_update w u).1.
Proof.
  intros Hu. destruct (bookings_feed_update w u) as [Heq|[Hst|Hnew]].
  - unfold unique_pending. by rewrite Heq.
  - destruct Hst as (id0 & b0 & s & Hb0 & Htr & Heq).
    assert (s <> pending) as Hs by (intros ->; inversion Htr).
    assert (forall i b, bookings_db (feed_update w u).1 !! i = Some b ->
              b_status b = pending -> bookings_db w !! i = Some b) as Hold.
    { intros i b Hb Hp. rewrite Heq in Hb.
      destruct (decide (id0 = i)) as [->|Hne].
      - rewrite lookup_insert_eq in Hb. injection Hb as <-. by destruct b0.
      - by rewrite lookup_insert_ne in Hb. }
    intros i j bi bj Hi Hj Hpi Hpj. apply Hu; auto.
  - destruct Hnew as (m & phone & date & ty & g & -> & _ & _ & _ & _ & Hdup & Heq).
    intros i j bi bj Hi Hj Hpi Hpj Huser Hdate Hty.
    rewrite Heq in Hi, Hj.
    destruct (decide (Text.make_id (now_timestamp m) = i)) as [Hi0|Hi0];
      destruct (decide (Text.make_id (now_timestamp m) = j)) as [Hj0|Hj0].
    + congruence.
    + subst i. rewrite lookup_insert_eq in Hi. injection Hi as <-.
      rewrite lookup_insert_ne in Hj by done.
      destruct (Hdup j bj Hj). by repeat split.
    + subst j. rewrite lookup_insert_eq in Hj. injection Hj as <-.
      rewrite lookup_insert_ne in Hi by done.
      destruct (Hdup i bi Hi). by repeat split.
    + rewrite lookup_insert_ne in Hi by done.
      rewrite lookup_insert_ne in Hj by done. by apply (Hu i j bi bj).
Qed.

(** ** Drafts and stored bookings are well formed *)

#[local] Instance drafts_kept_preorder : PreOrder drafts_kept.
Proof.
  split; [intros w Hok; exact Hok|]. intros w1 w2 w3 H1 H2 Hok. by apply H2, H1.
Qed.

Lemma draft_ok_no_data : draft_ok no_data.
Proof. by split. Qed.

Lemma draft_ok_session w u : sessions_ok w -> draft_ok (data (session_of w u)).
Proof.
  intros Hok. unfold session_of.
  destruct (storage w !! u) as [s|] eqn:Hs; simpl.
  - by apply (Hok u).
  - apply draft_ok_no_data.
Qed.

Lemma drafts_insert w u s :
  sessions_ok w -> draft_ok (data s) ->
  sessions_ok (set_storage (<[u:=s]> (storage w)) w).
Proof.
  intros Hok Hs v s' Hv. simpl in Hv.
  destruct (decide (u = v)) as [->|Hne].
  - rewrite lookup_insert_eq in Hv. by injection Hv as <-.
  - rewrite lookup_insert_ne in Hv by done. by apply (Hok v).
Qed.

Lemma drafts_delete w u : sessions_ok w -> sessions_ok (state_clear u w).
Proof.
  intros Hok v s' Hv. simpl in Hv.
  destruct (decide (u = v)) as [->|Hne].
  - by rewrite lookup_delete_eq in Hv.
  - rewrite lookup_delete_ne in Hv by done. by apply (Hok v).
Qed.

Ltac draft_facts :=
  repeat match goal with
    | H : (_ || _) = false |- _ => apply orb_false_elim in H as [? ?]
    | H : (_ <? _) = false |- _ => apply Z.ltb_ge in H
    end.

Ltac drafts_tac :=
  try exact I;
  try (let Hok := fresh "Hok" in
       intros Hok;
       first
         [ exact Hok
         | by apply drafts_delete
         | apply drafts_insert; [exact Hok|];
           match goal with
           | |- context [session_of ?w ?u] =>
               destruct (draft_ok_session w u Hok) as [? ?]
           end;
           split; simpl;
           [ first [ assumption | intros ? [= <-]; by eexists ]
           | first [ assumption
                   | intros ? ? [= <-] [= <-]; draft_facts; simpl; lia ] ] ]).

Lemma drafts_message h :
  In h message_handlers ->
  forall m w, sessions_ok w -> sessions_ok (mh_run h m w).1.
Proof.
  unfold message_handlers. intros Hin m w.
  repeat (destruct Hin as [<-|Hin]); try (by destruct Hin); cbn [mh_run];
    try (refine (proj1 (_ : drafts_kept w _ /\ Forall (fun _ => True) _));
         by handler_always drafts_tac).
  unfold cmd_start. by destruct (is_admin (from_user m)).
Qed.

Lemma drafts_callback h :
  In h callback_handlers ->
  forall c w, sessions_ok w -> sessions_ok (ch_run h c w).1.
Proof.
  unfold callback_handlers. intros Hin c w.
  repeat (destruct Hin as [<-|Hin]); try (by destruct Hin); cbn [ch_run];
    refine (proj1 (_ : drafts_kept w _ /\ Forall (fun _ => True) _));
    by handler_always drafts_tac.
Qed.

Lemma drafts_feed_update w u : sessions_ok w -> sessions_ok (feed_update w u).1.
Proof.
  intros Hok. destruct u as [m|c]; unfold feed_update.
  - destruct (select_message w m) as [h|] eqn:Hsel; [|done].
    apply find_some in Hsel as [Hin _]. by apply drafts_message.
  - destruct (select_callback c) as [h|] eqn:Hsel; [|done].
    apply find_some in Hsel as [Hin _]. unfold admin_check_middleware.
    destruct (is_admin (cb_from_user c)); cbn [negb]; [|done].
    by apply drafts_callback.
Qed.

Lemma store_ok_feed_update w u :
  sessions_ok w -> store_ok w -> store_ok (feed_update w u).1.
Proof.
  intros Hs Hb. destruct (bookings_feed_update w u) as [Heq|[Hst|Hnew]].
  - unfold store_ok. by rewrite Heq.
  - destruct Hst as (id0 & b0 & s & Hb0 & _ & Heq).
    intros id b. rewrite Heq. destruct (decide (id0 = id)) as [->|Hne].
    + rewrite lookup_insert_eq. intros [= <-]. apply (Hb id b0 Hb0).
    + rewrite lookup_insert_ne by done. apply Hb.
  - destruct Hnew as (m & phone & date & ty & g & -> & _ & Hd & Ht & Hg & _ & Heq).
    destruct (draft_ok_session w (from_user m) Hs) as [Hdate Hrange].
    intros id b. rewrite Heq.
    destruct (decide (Text.make_id (now_timestamp m) = id)) as [<-|Hne].
    + rewrite lookup_insert_eq. intros [= <-].
      split; [done|]. split; simpl; eauto.
    + rewrite lookup_insert_ne by done. apply Hb.
Qed.

(** X4. Between two states of a run with fresh ids no booking is removed, no
    field of a booking other than its status changes, and a status only
    moves from pending to confirmed or rejected and from confirmed to
    rejected. *)
Theorem bookings_only_advance us :
  forall w, fresh_ids w us -> records_kept w (run w us).
Proof.
  induction us as [|u us IH]; intros w Hfresh; [apply records_kept_refl|].
  destruct Hfresh as [Hu Hus].
  apply (records_kept_trans _ (feed_update w u).1).
  - by apply records_kept_feed_update.
  - by apply IH.
Qed.

(** X5. If no user has two pending requests of the same type whose dates
    are the same text, no sequence of updates produces two.  The date is
    compared as it was typed: two spellings of one day are two dates
    here, and the test of [_save_booking] does not tell them apart
    either. *)
Theorem one_pending_request us :
  forall w, unique_pending w -> unique_pending (run w us).
Proof.
  induction us as [|u us IH]; intros w Hw; [done|].
  by apply IH, unique_pending_feed_update.
Qed.

(** X6. From well-formed drafts and bookings every run leads to a store in
    which each booking carries its own key, a date that parses and a party
    size within the bounds of its type. *)
Theorem stored_bookings_well_formed us :
  forall w, sessions_ok w -> store_ok w ->
            sessions_ok (run w us) /\ store_ok (run w us).
Proof.
  induction us as [|u us IH]; intros w Hs Hb; [done|].
  apply IH; [by apply drafts_feed_update | by apply store_ok_feed_update].
Qed.


(** ** The data file across restarts *)

Lemma load_written d k :
  writable k = true -> (load_data (write_file d k)).1 = d.
Proof.
  intros Hw. unfold write_file. rewrite Hw. by destruct d as [[b t] r].
Qed.

Lemma writable_write_file d k : writable (write_file d k) = writable k.
Proof. unfold write_file. by destruct (writable k) eqn:Hw. Qed.

Lemma writable_commit acts : forall k, writable (commit acts k) = writable k.
Proof.
  induction acts as [|a acts IH]; intros k; [done|].
  unfold commit in *. simpl. rewrite IH.
  destruct a; try done. apply writable_write_file.
Qed.

Lemma commit_app l1 l2 k : commit (l1 ++ l2) k = commit l2 (commit l1 k).
Proof. unfold commit. apply foldl_app. Qed.

Lemma load_commit acts :
  forall k, writable k = true ->
    (load_data (commit acts k)).1 = default (load_data k).1 (last_saved acts).
Proof.
  induction acts as [|a acts IH] using rev_ind; intros k Hw; [done|].
  rewrite commit_app, last_saved_app. destruct a; simpl;
    try (rewrite IH by done; by destruct (last_saved acts)).
  rewrite load_written; [done|]. by rewrite writable_commit.
Qed.


Lemma in_step_boot k : writable k = true -> in_step (boot k).
Proof.
  intros Hw. destruct k as [f wr]. simpl in Hw. subst wr.
  by destruct f as [| | | |[b|] [t|] [r|]].
Qed.

Lemma in_step_serve s u : in_step s -> in_step (serve s u).
Proof.
  intros [Hw Hl]. split; unfold serve; cbn [fst snd].
  - by rewrite writable_commit.
  - rewrite load_commit by done.
    pose proof (saved_feed_update s.1 u) as Hs. unfold saved_consistently in Hs.
    destruct (last_saved _); simpl; congruence.
Qed.

Lemma in_step_serve_all us : forall s, in_step s -> in_step (serve_all s us).
Proof.
  induction us as [|u us IH]; intros s Hs; [done|].
  by apply IH, in_step_serve.
Qed.

(** X7. Loading the data a second time returns the same data and leaves the
    file as the first load left it, whatever the file held and whether
    or not it can be written. *)
Theorem load_data_idempotent k :
  load_data (load_data k).2 = ((load_data k).1, (load_data k).2).
Proof.
  destruct k as [f [|]]; destruct f as [| | | |[b|] [t|] [r|]]; reflexivity.
Qed.

(** X8. On a disk that can be written, stopping the bot after any sequence
    of updates and starting it again gives the bookings, the ledger and
    the reviews that it had in memory, and no session. *)
Theorem restart_recovers k us :
  writable k = true ->
  (boot (serve_all (boot k) us).2).1 = restarted (serve_all (boot k) us).
Proof.
  intros Hw.
  destruct (in_step_serve_all us (boot k) (in_step_boot k Hw)) as [_ Hl].
  unfold boot at 1, restarted. cbn [fst]. rewrite Hl. reflexivity.
Qed.


(** ** Routing by state *)

Lemma passes_command ls w m : passes ls m -> is_start_command w m = false.
Proof.
  unfold passes, is_start_command. destruct (text m); [|done]. by intros [-> _].
Qed.

Lemma passes_label ls m l : passes ls m -> In l ls -> text_is m l = false.
Proof.
  unfold passes, text_is. intros Hp Hl. apply bool_decide_eq_false_2.
  destruct (text m) as [t|]; [|done]. intros [= ->]. by destruct Hp.
Qed.

Lemma route_state w m st h :
  current_state w m = Some st ->
  state_handler st m = Some h ->
  passes (labels_before st) m ->
  route w (UMessage m) = Some h.
Proof.
  intros Hst Hh Hp. unfold route, select_message, message_handlers.
  cbn [List.find mh_filter]. unfold text_eq.
  rewrite (passes_command _ w m Hp).
  destruct st; cbn [labels_before state_handler] in Hp, Hh;
    try discriminate Hh;
    rewrite ?(passes_label _ m Label.donate Hp) by (simpl; tauto);
    rewrite ?(passes_label _ m Label.book_cottage Hp) by (simpl; tauto);
    rewrite ?(passes_label _ m Label.book_table Hp) by (simpl; tauto);
    rewrite ?(passes_label _ m Label.review Hp) by (simpl; tauto);
    rewrite ?(passes_label _ m Label.stats Hp) by (simpl; tauto);
    rewrite ?(passes_label _ m Label.list_bookings Hp) by (simpl; tauto);
    rewrite ?(passes_label _ m Label.cancel_booking Hp) by (simpl; tauto);
    rewrite ?(passes_label _ m Label.change_tables Hp) by (simpl; tauto);
    rewrite !(in_state_eq _ _ _ _ Hst); eval_closed; cbn [andb];
    try (simpl; congruence).
  - destruct (has_contact m); simpl; congruence.
  - destruct (matches_rating m); [simpl; congruence | discriminate].
Qed.

(** X9. In a state with a handler, a message that is no command and none of
    the menu labels registered before that handler goes to the handler of
    the state, also when its text is a menu label registered after it. *)
Theorem route_by_state w m st h :
  current_state w m = Some st ->
  state_handler st m = Some h ->
  passes (labels_before st) m ->
  route w (UMessage m) = Some h.
Proof. apply route_state. Qed.


(** ** Conversations *)

Lemma current_state_put u st d w m :
  from_user m = u -> current_state (put u st d w) m = Some st.
Proof.
  intros <-. unfold current_state, put. by rewrite session_of_insert.
Qed.

Lemma draft_put u st d w : draft (put u st d w) u = d.
Proof. unfold draft, put. by rewrite session_of_insert. Qed.

Lemma put_put u st d st' d' w :
  set_storage (<[u := mkSession (Some st') d']> (storage (put u st d w)))
              (put u st d w)
  = put u st' d' w.
Proof. unfold put. simpl. by rewrite insert_insert_eq. Qed.

Lemma types_not_cancel st m t : types st m t -> text_is m Label.cancel = false.
Proof.
  intros (Ht & Hc & _). unfold text_is. apply bool_decide_eq_false_2.
  congruence.
Qed.

Lemma feed_by_state w m st h :
  current_state w m = Some st ->
  state_handler st m = Some h ->
  passes (labels_before st) m ->
  exists r, In r message_handlers /\ mh_name r = h
            /\ feed_update w (UMessage m) = mh_run r m w.
Proof.
  intros Hst Hh Hp.
  pose proof (route_state w m st h Hst Hh Hp) as Hr.
  destruct (feed_routed _ _ _ Hr) as (r & Hin & Hn & _ & He). by exists r.
Qed.

(** Replaces [feed_update] by the handler of the state in [Hst] *)
Ltac by_state Hst Hp :=
  let r := fresh "r" in
  let Hin := fresh "Hin" in
  let Hn := fresh "Hn" in
  let He := fresh "He" in
  destruct (feed_by_state _ _ _ _ Hst eq_refl Hp) as (r & Hin & Hn & He);
  unfold message_handlers in Hin;
  repeat (destruct Hin as [<-|Hin]); try discriminate Hn; try (by destruct Hin);
  cbn [mh_run] in He; rewrite He; clear He Hn.

Lemma step_book_table_start w m :
  text m = Some Label.book_table ->
  current_state w m <> Some waiting_for_cottage_date ->
  current_state w m <> Some waiting_for_cottage_guests ->
  0 < available (tables_db w) ->
  (feed_update w (UMessage m)).1
  = put (from_user m) waiting_for_table_date (draft w (from_user m)) w.
Proof.
  intros Ht Hs1 Hs2 Hfree. unfold feed_update.
  unfold select_message, message_handlers. cbn [List.find mh_filter].
  unfold text_eq, is_start_command, in_state.
  rewrite Ht, not_a_command by reflexivity.
  rewrite !(text_is_eqb _ _ _ Ht).
  rewrite (bool_decide_eq_false_2 _ Hs1), (bool_decide_eq_false_2 _ Hs2).
  eval_closed. cbn [mh_run]. unfold book_table_start. unfold_monad. simpl.
  destruct (Z.leb_spec (available (tables_db w)) 0) as [?|_]; [lia|].
  reflexivity.
Qed.

Lemma step_book_cottage_start w m :
  text m = Some Label.book_cottage ->
  (feed_update w (UMessage m)).1
  = put (from_user m) waiting_for_cottage_date (draft w (from_user m)) w.
Proof.
  intros Ht. unfold feed_update.
  unfold select_message, message_handlers. cbn [List.find mh_filter].
  unfold text_eq, is_start_command.
  rewrite Ht, not_a_command by reflexivity.
  rewrite !(text_is_eqb _ _ _ Ht).
  eval_closed. cbn [mh_run]. reflexivity.
Qed.

Lemma step_table_date w m date :
  current_state w m = Some waiting_for_table_date ->
  types waiting_for_table_date m date -> valid_date m date ->
  (feed_update w (UMessage m)).1
  = put (from_user m) waiting_for_table_guests
        (mkUserData (Some date) (guests (draft w (from_user m)))
                    (booking_type (draft w (from_user m)))
                    (rating (draft w (from_user m)))
                    (booking_id (draft w (from_user m)))) w.
Proof.
  intros Hst Ht (day & Hday & Hlo & Hhi).
  pose proof (types_not_cancel _ _ _ Ht) as Hc. destruct Ht as (Ht & _ & Hp).
  by_state Hst Hp. unfold process_table_date. rewrite Hc. unfold_monad.
  rewrite Ht. simpl. rewrite Hday.
  destruct (Z.ltb_spec day (today m)) as [?|_]; [lia|].
  destruct (Z.ltb_spec 365 (day - today m)) as [?|_]; [lia|].
  simpl. unfold put, draft. rewrite session_of_insert. simpl.
  by rewrite insert_insert_eq.
Qed.

Lemma step_cottage_date w m date :
  current_state w m = Some waiting_for_cottage_date ->
  types waiting_for_cottage_date m date -> valid_date m date ->
  is_date_available cottage date w = true ->
  (feed_update w (UMessage m)).1
  = put (from_user m) waiting_for_cottage_guests
        (mkUserData (Some date) (guests (draft w (from_user m)))
                    (booking_type (draft w (from_user m)))
                    (rating (draft w (from_user m)))
                    (booking_id (draft w (from_user m)))) w.
Proof.
  intros Hst Ht (day & Hday & Hlo & Hhi) Hfree.
  pose proof (types_not_cancel _ _ _ Ht) as Hc. destruct Ht as (Ht & _ & Hp).
  by_state Hst Hp. unfold process_cottage_date. rewrite Hc. unfold_monad.
  rewrite Ht. simpl. rewrite Hday.
  destruct (Z.ltb_spec day (today m)) as [?|_]; [lia|].
  destruct (Z.ltb_spec 365 (day - today m)) as [?|_]; [lia|].
  unfold is_date_available in Hfree. rewrite Hfree. simpl. unfold put, draft.
  rewrite session_of_insert. simpl. by rewrite insert_insert_eq.
Qed.

Lemma step_table_guests w m g :
  current_state w m = Some waiting_for_table_guests ->
  types_number waiting_for_table_guests m g -> 1 <= g <= 10 ->
  (feed_update w (UMessage m)).1
  = put (from_user m) waiting_for_contact
        (mkUserData (booking_date (draft w (from_user m))) (Some g) (Some table)
                    (rating (draft w (from_user m)))
                    (booking_id (draft w (from_user m)))) w.
Proof.
  intros Hst (t & Ht & Hdig & Hint) Hg.
  pose proof (types_not_cancel _ _ _ Ht) as Hc. destruct Ht as (Ht & _ & Hp).
  by_state Hst Hp. unfold process_table_guests. rewrite Hc. unfold_monad.
  rewrite Ht. simpl. rewrite Hdig. simpl. rewrite Hint. simpl.
  destruct (Z.ltb_spec g 1) as [?|_]; [lia|].
  destruct (Z.ltb_spec 10 g) as [?|_]; [lia|].
  simpl. unfold put, draft. rewrite session_of_insert. simpl.
  by rewrite insert_insert_eq.
Qed.

Lemma step_cottage_guests w m g :
  current_state w m = Some waiting_for_cottage_guests ->
  types_number waiting_for_cottage_guests m g -> 1 <= g <= 20 ->
  (feed_update w (UMessage m)).1
  = put (from_user m) waiting_for_contact
        (mkUserData (booking_date (draft w (from_user m))) (Some g) (Some cottage)
                    (rating (draft w (from_user m)))
                    (booking_id (draft w (from_user m)))) w.
Proof.
  intros Hst (t & Ht & Hdig & Hint) Hg.
  pose proof (types_not_cancel _ _ _ Ht) as Hc. destruct Ht as (Ht & _ & Hp).
  by_state Hst Hp. unfold process_cottage_guests. rewrite Hc. unfold_monad.
  rewrite Ht. simpl. rewrite Hdig. simpl. rewrite Hint. simpl.
  destruct (Z.ltb_spec g 1) as [?|_]; [lia|].
  destruct (Z.ltb_spec 20 g) as [?|_]; [lia|].
  simpl. unfold put, draft. rewrite session_of_insert. simpl.
  by rewrite insert_insert_eq.
Qed.

Lemma no_duplicate_existsb u date ty w :
  no_duplicate u date ty w ->
  existsb (is_duplicate u date ty) (values (bookings_db w)) = false.
Proof.
  intros Hno. apply existsb_values_false. intros i b Hb.
  destruct (is_duplicate u date ty b) eqn:E; [|done].
  apply is_duplicate_spec in E. by destruct (Hno i b Hb).
Qed.

Lemma save_booking_stores h w m phone date ty g :
  booking_date (draft w (from_user m)) = Some date ->
  booking_type (draft w (from_user m)) = Some ty ->
  guests (draft w (from_user m)) = Some g ->
  no_duplicate (from_user m) date ty w ->
  (except_clear h (from_user m) (_save_booking m phone) w).1
  = state_clear (from_user m)
      (set_bookings (<[Text.make_id (now_timestamp m)
                       := new_booking m phone date ty g]> (bookings_db w)) w).
Proof.
  unfold draft. intros Hd Ht Hg Hno. unfold _save_booking. unfold_monad.
  rewrite Hd. simpl. rewrite Ht. simpl.
  rewrite (no_duplicate_existsb _ _ _ _ Hno). rewrite Hg. reflexivity.
Qed.

Lemma step_contact w m phone date ty g :
  current_state w m = Some waiting_for_contact ->
  gives_phone m phone ->
  booking_date (draft w (from_user m)) = Some date ->
  booking_type (draft w (from_user m)) = Some ty ->
  guests (draft w (from_user m)) = Some g ->
  no_duplicate (from_user m) date ty w ->
  (feed_update w (UMessage m)).1
  = state_clear (from_user m)
      (set_bookings (<[Text.make_id (now_timestamp m)
                       := new_booking m phone date ty g]> (bookings_db w)) w).
Proof.
  intros Hst (Hp & Hphone) Hd Ht Hg Hno.
  destruct Hphone as [Hc|(Hc & t & Hty & Hman & -> & Hlen)].
  - destruct (feed_by_state w m waiting_for_contact H_process_contact Hst)
      as (r & Hin & Hn & He); [|exact Hp|].
    { unfold state_handler, has_contact. by rewrite Hc. }
    unfold message_handlers in Hin.
    repeat (destruct Hin as [<-|Hin]); try discriminate Hn;
      try (by destruct Hin).
    cbn [mh_run] in He. rewrite He. unfold process_contact. rewrite Hc.
    unfold except_clear, require. rewrite bind_ret_l.
    by apply (save_booking_stores H_process_contact).
  - destruct (feed_by_state w m waiting_for_contact H_process_contact_manual Hst)
      as (r & Hin & Hn & He); [|exact Hp|].
    { unfold state_handler, has_contact. by rewrite Hc. }
    unfold message_handlers in Hin.
    repeat (destruct Hin as [<-|Hin]); try discriminate Hn;
      try (by destruct Hin).
    cbn [mh_run] in He. rewrite He. unfold process_contact_manual.
    rewrite (types_not_cancel _ _ _ Hty). destruct Hty as (Htx & _ & _).
    assert (text_is m Label.manual_phone = false) as ->.
    { unfold text_is. apply bool_decide_eq_false_2. congruence. }
    rewrite Htx. unfold except_clear, require. rewrite bind_ret_l.
    fold (except_clear H_process_contact_manual (from_user m)).
    destruct (Nat.ltb_spec (py_len (digit_chars t)) 11) as [?|_]; [lia|].
    by apply (save_booking_stores H_process_contact_manual).
Qed.

(** X10. A user who is not being asked for the date or the party size of
    a cottage and presses the table button while a table is free, then
    sends a valid date, a party size from 1 to 10 and a phone number, and
    has no pending table request with that date text, ends up idle with
    one new pending booking that holds exactly what was typed.  (In the
    two cottage states the button is read as the answer to the question
    asked there, see X9.) *)
Theorem table_conversation w m1 m2 m3 m4 date g phone :
  table_dialogue w m1 m2 m3 m4 date g phone ->
  run w [UMessage m1; UMessage m2; UMessage m3; UMessage m4]
  = booked w m4 phone date table g.
Proof.
  intros ((H2 & H3 & H4) & Ht1 & Hs1 & Hs2 & Hfree & Ht2 & Hd2 & Ht3 & Hg
          & Hph & Hno).
  unfold run. cbn [foldl].
  rewrite (step_book_table_start w m1 Ht1 Hs1 Hs2 Hfree).
  rewrite (step_table_date _ m2 date (current_state_put _ _ _ _ _ H2) Ht2 Hd2).
  rewrite H2, draft_put.
  rewrite (step_table_guests _ m3 g (current_state_put _ _ _ _ _ H3) Ht3 Hg).
  rewrite H3, draft_put. cbn [booking_date rating booking_id].
  rewrite (step_contact _ m4 phone date table g
             (current_state_put _ _ _ _ _ H4) Hph);
    rewrite ?H4, ?draft_put; try reflexivity; [|exact Hno].
  unfold booked, state_clear, put. simpl. rewrite H4.
  by rewrite !delete_insert_eq.
Qed.

(** X11. A user who presses the cottage button in any state, then sends a
    valid date without a confirmed cottage booking, a party size from 1 to
    20 and a phone number, and has no pending cottage request for that
    date, ends up idle with one new pending booking that holds exactly
    what was typed. *)
Theorem cottage_conversation w m1 m2 m3 m4 date g phone :
  cottage_dialogue w m1 m2 m3 m4 date g phone ->
  run w [UMessage m1; UMessage m2; UMessage m3; UMessage m4]
  = booked w m4 phone date cottage g.
Proof.
  intros ((H2 & H3 & H4) & Ht1 & Ht2 & Hd2 & Hav & Ht3 & Hg & Hph & Hno).
  unfold run. cbn [foldl].
  rewrite (step_book_cottage_start w m1 Ht1).
  rewrite (step_cottage_date _ m2 date (current_state_put _ _ _ _ _ H2) Ht2 Hd2 Hav).
  rewrite H2, draft_put.
  rewrite (step_cottage_guests _ m3 g (current_state_put _ _ _ _ _ H3) Ht3 Hg).
  rewrite H3, draft_put. cbn [booking_date rating booking_id].
  rewrite (step_contact _ m4 phone date cottage g
             (current_state_put _ _ _ _ _ H4) Hph);
    rewrite ?H4, ?draft_put; try reflexivity; [|exact Hno].
  unfold booked, state_clear, put. simpl. rewrite H4.
  by rewrite !delete_insert_eq.
Qed.


Lemma step_start_review w m :
  text m = Some Label.review -> current_state w m = None ->
  has_confirmed_booking w (from_user m) ->
  (feed_update w (UMessage m)).1
  = put (from_user m) waiting_for_review_rating (draft w (from_user m)) w.
Proof.
  intros Ht Hst (id & b & Hb & Hu & Hs). unfold feed_update.
  dispatch Ht Hst. cbn [mh_run]. unfold start_review. unfold_monad. simpl.
  rewrite (existsb_values_true _ _ id b Hb); [reflexivity|].
  rewrite (has_status_true _ _ Hs). by rewrite bool_decide_eq_true_2.
Qed.

Lemma step_review_rating w m r :
  current_state w m = Some waiting_for_review_rating ->
  (exists t, text m = Some t /\ rating_regexp t = true
             /\ rating_token t = Some r
             /\ passes (labels_before waiting_for_review_rating) m) ->
  (feed_update w (UMessage m)).1
  = put (from_user m) waiting_for_review_text
        (mkUserData (booking_date (draft w (from_user m)))
                    (guests (draft w (from_user m)))
                    (booking_type (draft w (from_user m))) (Some r)
                    (booking_id (draft w (from_user m)))) w.
Proof.
  intros Hst (t & Ht & Hre & Htok & Hp).
  destruct (feed_by_state w m waiting_for_review_rating
              H_process_review_rating Hst) as (h & Hin & Hn & He);
    [|exact Hp|].
  { unfold state_handler, matches_rating. by rewrite Ht, Hre. }
  unfold message_handlers in Hin.
  repeat (destruct Hin as [<-|Hin]); try discriminate Hn; try (by destruct Hin).
  cbn [mh_run] in He. rewrite He. unfold process_review_rating. unfold_monad.
  rewrite Ht. simpl. rewrite Htok. simpl. unfold put, draft.
  rewrite session_of_insert. simpl. by rewrite insert_insert_eq.
Qed.

Lemma step_review_text w m r :
  current_state w m = Some waiting_for_review_text ->
  (exists t, types waiting_for_review_text m t) ->
  rating (draft w (from_user m)) = Some r ->
  (feed_update w (UMessage m)).1
  = state_clear (from_user m)
      (set_reviews (<[Text.make_id (now_timestamp m)
                      := mkReview (from_user m) (full_name m) r (review_text m)
                                  (now_iso m)]> (reviews_db w)) w).
Proof.
  intros Hst (t & Ht) Hr.
  pose proof (types_not_cancel _ _ _ Ht) as Hc. destruct Ht as (Ht & _ & Hp).
  by_state Hst Hp. unfold process_review_text. rewrite Hc. unfold_monad.
  unfold draft in Hr. rewrite Hr. reflexivity.
Qed.

(** X12. An idle user with a confirmed booking who presses the review button,
    then sends a rating and a text or the skip label, ends up idle with
    one new review that holds the rating and the text; bookings and
    ledger are as before. *)
Theorem review_conversation w m1 m2 m3 r :
  review_dialogue w m1 m2 m3 r ->
  run w [UMessage m1; UMessage m2; UMessage m3] = reviewed w m3 r.
Proof.
  intros ((H2 & H3) & Ht1 & Hs1 & Hconf & Hrate & Htxt).
  unfold run. cbn [foldl].
  rewrite (step_start_review w m1 Ht1 Hs1 Hconf).
  rewrite (step_review_rating _ m2 r (current_state_put _ _ _ _ _ H2) Hrate).
  rewrite H2, draft_put.
  rewrite (step_review_text _ m3 r (current_state_put _ _ _ _ _ H3) Htxt);
    [|by rewrite H3, draft_put].
  unfold reviewed, state_clear, put. simpl. rewrite H3.
  by rewrite !delete_insert_eq.
Qed.

(** ** Statistics *)

Lemma statuses_partition (l : list Booking) :
  (List.length (List.filter (has_status pending) l)
   + List.length (List.filter (has_status confirmed) l)
   + List.length (List.filter (has_status rejected) l))%nat
  = List.length l.
Proof.
  induction l as [|b l IH]; [done|]. simpl.
  destruct (b_status b) eqn:E.
  - rewrite (has_status_true b pending E),
      (has_status_false b pending confirmed E),
      (has_status_false b pending rejected E) by done. simpl. lia.
  - rewrite (has_status_true b confirmed E),
      (has_status_false b confirmed pending E),
      (has_status_false b confirmed rejected E) by done. simpl. lia.
  - rewrite (has_status_true b rejected E),
      (has_status_false b rejected pending E),
      (has_status_false b rejected confirmed E) by done. simpl. lia.
Qed.

(** X13. The three numbers of bookings that the statistics message of an
    administrator shows add up to the number of stored bookings, and
    the message changes nothing. *)
Theorem stats_add_up w m :
  route w (UMessage m) = Some H_show_stats ->
  is_admin (from_user m) = true ->
  exists p c r sum n,
    feed_update w (UMessage m)
    = (w, [SendMessage (from_user m) (TStats p c r (tables_db w) sum n)
                       NoMarkup])
    /\ (p + c + r)%nat = size (bookings_db w)
    /\ n = size (reviews_db w).
Proof.
  intros Hr Ha. routed Hr Hf. unfold show_stats. unfold_monad. rewrite Ha.
  simpl. do 5 eexists. split; [reflexivity|]. split.
  - unfold count. rewrite statuses_partition. unfold values.
    by rewrite length_fmap, length_map_to_list.
  - unfold values. by rewrite length_fmap, length_map_to_list.
Qed.

(** ** Callback data *)

Lemma split_go_free s :
  forall cur, existsb (Ascii.eqb "_") s = false ->
    Text.split_go ["_"%char] 0 cur s = [Text.of_chars (rev cur ++ s)].
Proof.
  induction s as [|c s IH]; intros cur Hs; simpl.
  - by rewrite app_nil_r.
  - simpl in Hs. apply orb_false_elim in Hs as [Hc Hs].
    rewrite Hc. simpl. rewrite IH by done. simpl. by rewrite <- app_assoc.
Qed.

(** X14. The callback data of a button is a prefix with a handler followed by
    the id of a booking.  For an id without an underscore, the handler
    registered for the prefix is the one that receives the click, and it
    reads the id back as it was written. *)
Theorem callback_data_round_trip p id c :
  In p prefixes -> underscore_free id ->
  cb_data c = Some (p +:+ id) ->
  (ch_prefix <$> select_callback c) = Some p
  /\ exists rest, Text.split "_" (p +:+ id) = rest :: [id].
Proof.
  intros Hp Hid Hd. unfold prefixes, callback_handlers in Hp.
  unfold select_callback, callback_handlers, data_startswith. rewrite Hd.
  pose proof (split_go_free (Text.chars id)) as Hs.
  unfold underscore_free in Hid.
  simpl in Hp. destruct Hp as [<-|[<-|[<-|[<-|[]]]]]; split;
    try (unfold Text.startswith; simpl;
         repeat (destruct (ascii_dec _ _) as [?|?];
                 try discriminate; try congruence);
         by destruct id);
    unfold Text.split; simpl; change ("" +:+ id) with id;
    rewrite (Hs [] Hid); simpl; unfold Text.of_chars, Text.chars;
    rewrite string_of_list_ascii_of_string; eauto.
Qed.


(** ** Errors *)

Lemma no_log_In (l : list Action) h : Forall no_log l -> ~ In (LogError h) l.
Proof.
  intros Hl Hin. rewrite Forall_forall in Hl.
  apply list_elem_of_In in Hin. exact (Hl _ Hin).
Qed.

Lemma except_clear_error H u body w h :
  always any_state no_log body ->
  In (LogError h) (except_clear H u body w).2 ->
  h = H /\ storage (except_clear H u body w).1 !! u = None.
Proof.
  intros Hb. unfold except_clear. destruct (Hb w) as [_ Hp].
  destruct (body w) as [[[a|] w1] l1]; simpl in *; intros Hin.
  - by destruct (no_log_In _ _ Hp Hin).
  - apply in_app_or in Hin as [Hin|[[= ->]|[]]].
    + by destruct (no_log_In _ _ Hp Hin).
    + split; [done|]. apply lookup_delete_eq.
Qed.

Lemma except_log_error H body w h :
  always any_state no_log body ->
  In (LogError h) (except_log H body w).2 -> h = H.
Proof.
  intros Hb. unfold except_log. destruct (Hb w) as [_ Hp].
  destruct (body w) as [[[a|] w1] l1]; simpl in *; intros Hin.
  - by destruct (no_log_In _ _ Hp Hin).
  - apply in_app_or in Hin as [Hin|[[= ->]|[]]]; [|done].
    by destruct (no_log_In _ _ Hp Hin).
Qed.

Lemma except_answer_error H u body w h :
  always any_state no_log body ->
  In (LogError h) (except_answer H u body w).2 -> h = H.
Proof.
  intros Hb. unfold except_answer. destruct (Hb w) as [_ Hp].
  destruct (body w) as [[[a|] w1] l1]; simpl in *; intros Hin.
  - by destruct (no_log_In _ _ Hp Hin).
  - apply in_app_or in Hin as [Hin|[[= ->]|[[=]|[]]]]; [|done].
    by destruct (no_log_In _ _ Hp Hin).
Qed.

Ltac log_tac := try exact I.

Lemma error_message r :
  In r message_handlers ->
  forall m w h, In (LogError h) (mh_run r m w).2 ->
    h = mh_name r
    /\ (clears_on_error h = true -> storage (mh_run r m w).1 !! from_user m = None).
Proof.
  unfold message_handlers. intros Hin m w h Hlog.
  repeat (destruct Hin as [<-|Hin]); try (by destruct Hin);
    cbn [mh_run mh_name] in *;
    try (eapply except_clear_error in Hlog as [-> Hs];
         [by split | by solve_always log_tac]);
    try (eapply except_log_error in Hlog as ->;
         [by split | by solve_always log_tac]).
  unfold cmd_start in Hlog.
  destruct (is_admin (from_user m)); simpl in Hlog; by destruct Hlog as [|[]].
Qed.

Lemma error_callback r :
  In r callback_handlers ->
  forall c w h, In (LogError h) (ch_run r c w).2 -> h = ch_name r.
Proof.
  unfold callback_handlers. intros Hin c w h Hlog.
  repeat (destruct Hin as [<-|Hin]); try (by destruct Hin);
    cbn [ch_run ch_name] in *;
    (eapply except_answer_error in Hlog as ->;
     [done | by solve_always log_tac]).
Qed.

(** X15. With every send and every write of the data file succeeding (the
    convention of this file, under which the [except] branch of
    [cmd_start] and the [logger.error] calls that guard a single send or
    write are not reached): when the handling of an update ends in the
    [except] branch of the handler, the logged error carries the
    name of the handler that received the update; and unless that
    handler is one of those whose [except] branch does not call
    [state.clear()] ([cmd_start], [donate_handler], [show_stats],
    [list_bookings], [cancel_booking_start] and the four callback
    handlers), the sender has no session afterwards. *)
Theorem error_ends_conversation w u h :
  In (LogError h) (feed_update w u).2 ->
  route w u = Some h
  /\ (clears_on_error h = true ->
      storage (feed_update w u).1 !! sender u = None).
Proof.
  destruct u as [m|c]; unfold feed_update, route; intros Hlog.
  - destruct (select_message w m) as [r|] eqn:Hsel; [|by destruct Hlog].
    apply find_some in Hsel as [Hin _].
    destruct (error_message r Hin m w h Hlog) as [-> Hs]. by split.
  - destruct (select_callback c) as [r|] eqn:Hsel; [|by destruct Hlog].
    apply find_some in Hsel as [Hin _]. unfold admin_check_middleware in *.
    destruct (is_admin (cb_from_user c)); cbn [negb] in *.
    + rewrite (error_callback r Hin c w h Hlog). split; [done|].
      unfold callback_handlers in Hin.
      by repeat (destruct Hin as [<-|Hin]); try (by destruct Hin).
    + simpl in Hlog. by destruct Hlog as [|[]].
Qed.

(** ** Identifiers *)

Lemma In_skipn {A : Type} (x : A) n : forall l, In x (skipn n l) -> In x l.
Proof.
  induction n as [|n IH]; intros [|a l]; simpl; auto.
Qed.

(** X16. An id has at most eight characters, each of them a character of the
    text of the timestamp and none of them a dot. *)
Theorem make_id_shape ts :
  (List.length (Text.chars (Text.make_id ts)) <= 8)%nat
  /\ forall c, In c (Text.chars (Text.make_id ts)) ->
               c <> "."%char /\ In c (Text.chars ts).
Proof.
  unfold Text.make_id, Text.last_chars, Text.remove_dots, Text.chars,
    Text.of_chars.
  rewrite !list_ascii_of_string_of_list_ascii. split.
  - rewrite length_skipn. lia.
  - intros c Hc. apply In_skipn, filter_In in Hc as [Hin Hdot].
    split; [|done]. intros ->. discriminate Hdot.
Qed.


(** ** The review conversation is gated *)

#[local] Instance calm_preorder u : PreOrder (calm u).
Proof.
  split.
  - intros w. by split.
  - intros w1 w2 w3 [H1 E1] [H2 E2]. split; [|congruence].
    intros st Hst Hr. apply H1; [|done]. by apply H2.
Qed.

Lemma session_of_clear w u : session_of (state_clear u w) u = idle.
Proof. unfold session_of, state_clear. simpl. by rewrite lookup_delete_eq. Qed.

Lemma calm_gate w u w' : calm (sender u) w w' -> review_gate w u w'.
Proof.
  intros [Hs Hr]. split; [|split].
  - intros Ha. left. apply Hs; [done | by left].
  - intros Ha. right. apply Hs; [done | by right].
  - intros Hne. by destruct Hne.
Qed.

Ltac calm_tac :=
  try exact I;
  try (split; [|reflexivity];
       let Hst := fresh "Hst" in
       intros ? Hst [?|?];
       first [ exact Hst
             | rewrite session_of_insert in Hst; simpl in Hst;
               first [ exact Hst | congruence ]
             | rewrite session_of_clear in Hst; discriminate Hst ]).

Lemma calm_message h :
  In h message_handlers ->
  mh_name h <> H_start_review -> mh_name h <> H_process_review_rating ->
  mh_name h <> H_process_review_text ->
  forall m w, calm (from_user m) w (mh_run h m w).1.
Proof.
  unfold message_handlers. intros Hin H1 H2 H3 m w.
  repeat (destruct Hin as [<-|Hin]); try (by destruct Hin);
    cbn [mh_run mh_name] in *; try done;
    try (refine (proj1 (_ : _ /\ Forall (fun _ => True) _));
         by handler_always calm_tac).
  unfold cmd_start. destruct (is_admin (from_user m)); by split.
Qed.

Lemma calm_callback h :
  In h callback_handlers ->
  forall c w, calm (cb_from_user c) w (ch_run h c w).1.
Proof.
  unfold callback_handlers. intros Hin c w.
  repeat (destruct Hin as [<-|Hin]); try (by destruct Hin); cbn [ch_run];
    refine (proj1 (_ : _ /\ Forall (fun _ => True) _));
    by handler_always calm_tac.
Qed.

Lemma gate_start_review m w :
  review_gate w (UMessage m) (start_review m w).1.
Proof.
  unfold start_review. unfold_monad. simpl.
  destruct (existsb _ _) eqn:He; simpl.
  - apply existsb_exists in He as (b & Hb & Hc).
    apply andb_true_iff in Hc as [Hu Hs].
    apply bool_decide_eq_true in Hu, Hs.
    unfold values in Hb. apply in_map_iff in Hb as ([i b'] & <- & Hb).
    apply list_elem_of_In, elem_of_map_to_list in Hb.
    split; [|split].
    + intros _. right. by exists i, b'.
    + rewrite session_of_insert. discriminate.
    + intros Hne. by destruct Hne.
  - apply calm_gate. by split.
Qed.

Lemma gate_process_review_rating m w :
  current_state w m = Some waiting_for_review_rating ->
  review_gate w (UMessage m) (process_review_rating m w).1.
Proof.
  unfold current_state. intros Hst. unfold process_review_rating. unfold_monad.
  destruct (text m) as [t|]; simpl.
  - destruct (rating_token t) as [r|]; simpl.
    + split; [|split]; [by left | by left | intros Hne; by destruct Hne].
    + split; [|split]; [by left | | intros Hne; by destruct Hne].
      rewrite session_of_clear. discriminate.
  - split; [|split]; [by left | | intros Hne; by destruct Hne].
    rewrite session_of_clear. discriminate.
Qed.

Lemma gate_process_review_text m w :
  current_state w m = Some waiting_for_review_text ->
  review_gate w (UMessage m) (process_review_text m w).1.
Proof.
  unfold current_state. intros Hst. split; [|split]; simpl; [| |done].
  - intros Ha. exfalso. revert Ha.
    unfold process_review_text. unfold_monad.
    destruct (text_is m Label.cancel); simpl;
      [rewrite session_of_clear; discriminate|].
    destruct (rating _); simpl; rewrite session_of_clear; discriminate.
  - by right.
Qed.

(** X17. Whatever the update: its sender is asked for a rating afterwards
    only if they were being asked before or have a confirmed booking,
    is asked for the text of a review only if they were in the review
    conversation before, and the reviews change only if they were being
    asked for the text. *)
Theorem reviews_are_gated w u : review_gate w u (feed_update w u).1.
Proof.
  destruct u as [m|c]; unfold feed_update.
  - destruct (select_message w m) as [h|] eqn:Hsel;
      [|apply calm_gate; by split].
    apply find_some in Hsel as [Hin Hf].
    destruct (decide (mh_name h = H_start_review)) as [H1|H1];
      [|destruct (decide (mh_name h = H_process_review_rating)) as [H2|H2];
        [|destruct (decide (mh_name h = H_process_review_text)) as [H3|H3]]].
    + unfold message_handlers in Hin.
      repeat (destruct Hin as [<-|Hin]); try (by destruct Hin);
        try discriminate H1. apply gate_start_review.
    + unfold message_handlers in Hin.
      repeat (destruct Hin as [<-|Hin]); try (by destruct Hin);
        try discriminate H2. cbn [mh_filter mh_run] in *.
      apply andb_true_iff in Hf as [Hf _]. apply bool_decide_eq_true in Hf.
      by apply gate_process_review_rating.
    + unfold message_handlers in Hin.
      repeat (destruct Hin as [<-|Hin]); try (by destruct Hin);
        try discriminate H3. cbn [mh_filter mh_run] in *.
      apply bool_decide_eq_true in Hf. by apply gate_process_review_text.
    + apply calm_gate. by apply calm_message.
  - destruct (select_callback c) as [h|] eqn:Hsel;
      [|apply calm_gate; by split].
    apply find_some in Hsel as [Hin _]. unfold admin_check_middleware.
    destruct (is_admin (cb_from_user c)); cbn [negb];
      [|apply calm_gate; by split].
    apply calm_gate. by apply calm_callback.
Qed.

(** ** Handlers that only read *)

Lemma read_only_message h :
  In h message_handlers -> In (mh_name h) read_only ->
  forall m w, (mh_run h m w).1 = w.
Proof.
  unfold message_handlers, read_only. intros Hin Hro m w.
  repeat (destruct Hin as [<-|Hin]); try (by destruct Hin);
    cbn [mh_run mh_name] in *;
    try (exfalso; simpl in Hro; intuition discriminate);
    try (symmetry;
         refine (proj1 (_ : w = _ /\ Forall (fun _ => True) _));
         by handler_always same_tac).
  unfold cmd_start. by destruct (is_admin (from_user m)).
Qed.

(** X18. The start command, the donation button, the statistics, the two
    lists of bookings and the details of a booking change neither the
    stores nor any session, whoever sends them. *)
Theorem read_only_handlers w u h :
  route w u = Some h -> In h read_only -> (feed_update w u).1 = w.
Proof.
  destruct u as [m|c]; unfold route, feed_update; intros Hr Hro.
  - destruct (select_message w m) as [r|] eqn:Hsel; [|done].
    injection Hr as <-. apply find_some in Hsel as [Hin _].
    by apply read_only_message.
  - destruct (select_callback c) as [r|] eqn:Hsel; [|done].
    injection Hr as <-. apply find_some in Hsel as [Hin _].
    unfold admin_check_middleware.
    destruct (is_admin (cb_from_user c)); cbn [negb]; [|done].
    unfold callback_handlers, read_only in *.
    repeat (destruct Hin as [<-|Hin]); try (by destruct Hin);
      cbn [ch_run ch_name] in *;
      try (exfalso; simpl in Hro; intuition discriminate).
    symmetry. refine (proj1 (_ : w = _ /\ Forall (fun _ => True) _)).
    by handler_always same_tac.
Qed.

End Properties.

(** * The theorems on the concrete conversations *)

Section Instances.
Import Scenario.
#[local] Existing Instance club.

Lemma admin_1000 : is_admin 1000 = true.
Proof. vm_compute. reflexivity. Qed.

Lemma ann_is_no_admin : is_admin 7 = false.
Proof. vm_compute. reflexivity. Qed.

(** The administrator's day: the invariant holds after all nine
    updates. *)
Lemma ledger_invariant_reachable_witness :
  inv default_world
  /\ fresh_ids default_world office_day
  /\ ledger_inv (run default_world (take 9 office_day)).
Proof.
  assert (fresh_ids default_world office_day) as Hfresh.
  { vm_compute. repeat split; try discriminate; reflexivity. }
  split; [exact inv_default_world|]. split; [exact Hfresh|].
  exact (ledger_invariant_reachable default_world office_day 9
           inv_default_world Hfresh).
Defined.

(** C2 at the full house: Bob's table cannot be confirmed. *)
Lemma confirm_fails_without_capacity_witness :
  bookings_db full_house !! bob_id = Some (bob_booking pending)
  /\ available (tables_db full_house) = 0
  /\ feed_update full_house (UCallback (click 1000 "confirm_50654321"))
     = (full_house, [AnswerCallback 1000 (Some TNoFreeTablesAlert)]).
Proof.
  assert (bookings_db full_house !! bob_id = Some (bob_booking pending)) as Hb
    by (vm_compute; reflexivity).
  assert (available (tables_db full_house) = 0) as Ha
    by (vm_compute; reflexivity).
  split; [exact Hb|]. split; [exact Ha|].
  refine (proj2 (confirm_fails_without_capacity full_house
                   (click 1000 "confirm_50654321") "confirm_50654321"
                   bob_id (bob_booking pending) _ eq_refl _ _ Hb eq_refl eq_refl Ha));
    vm_compute; reflexivity.
Defined.

(** C10 at the full house: Eve cannot start a table booking. *)
Lemma table_booking_refused_when_full_witness :
  current_state full_house (say 9 "Eve" Label.book_table bob_time) = None
  /\ feed_update full_house (UMessage (say 9 "Eve" Label.book_table bob_time))
     = (full_house, [SendMessage 9 TNoFreeTables NoMarkup]).
Proof.
  assert (current_state full_house (say 9 "Eve" Label.book_table bob_time) = None)
    as Hs by (vm_compute; reflexivity).
  split; [exact Hs|].
  refine (proj2 (table_booking_refused_when_full full_house
                   (say 9 "Eve" Label.book_table bob_time) eq_refl Hs _)).
  vm_compute. discriminate.
Defined.


(** C5 with two tables taken: a count of 1 is refused, a count of 5
    leaves three tables free. *)
Lemma resize_tables_witness :
  route two_taken_awaiting_count (UMessage (say 1000 "Admin" "5" ann_time))
  = Some H_process_tables_count
  /\ total (tables_db two_taken_awaiting_count)
     - available (tables_db two_taken_awaiting_count) = 2
  /\ feed_update two_taken_awaiting_count (UMessage (say 1000 "Admin" "1" ann_time))
     = (two_taken_awaiting_count,
        [SendMessage 1000 (TTablesBelowBooked 2) NoMarkup])
  /\ tables_db (feed_update two_taken_awaiting_count
                  (UMessage (say 1000 "Admin" "5" ann_time))).1
     = mkTables 3 5.
Proof.
  assert (route two_taken_awaiting_count (UMessage (say 1000 "Admin" "1" ann_time))
          = Some H_process_tables_count) as Hr1 by (vm_compute; reflexivity).
  assert (route two_taken_awaiting_count (UMessage (say 1000 "Admin" "5" ann_time))
          = Some H_process_tables_count) as Hr5 by (vm_compute; reflexivity).
  assert (total (tables_db two_taken_awaiting_count)
          - available (tables_db two_taken_awaiting_count) = 2) as Hb
    by (vm_compute; reflexivity).
  split; [exact Hr5|]. split; [exact Hb|]. split.
  - rewrite <- Hb.
    apply (proj2 (resize_tables two_taken_awaiting_count
                    (say 1000 "Admin" "1" ann_time) "1" Hr1 eq_refl)
             1 eq_refl eq_refl);
      rewrite ?Hb; lia.
  - destruct (proj2 (resize_tables two_taken_awaiting_count
                       (say 1000 "Admin" "5" ann_time) "5" Hr5 eq_refl)
                5 eq_refl eq_refl)
      as (_ & _ & H).
    rewrite H by (rewrite ?Hb; lia). cbn [fst]. rewrite Hb. reflexivity.
Defined.

(** Ann's draft: her first request is stored as pending and sent to the
    administrator with the two buttons; the same request typed again is
    refused as a duplicate and the store is not touched. *)
Lemma save_booking_duplicate_or_stored_witness :
  _save_booking ann_phone "79991234567" ann_at_contact
  = (Ok (),
     state_clear 7
       (set_bookings (<[ann_id:=ann_booking pending]> ∅) ann_at_contact),
     [SaveData (<[ann_id:=ann_booking pending]> ∅) (mkTables 10 10) ∅;
      SendMessage 1000 (TNewBooking (ann_booking pending))
                  (Inline ["confirm_00123456"; "reject_00123456"]);
      SendMessage 7 TBookingAccepted MainMenu])
  /\ _save_booking ann_phone "79991234567" ann_again_at_contact
     = (Ok (), state_clear 7 ann_again_at_contact,
        [SendMessage 7 TDuplicatePending NoMarkup]).
Proof.
  split.
  - assert (bookings_db ann_at_contact = ∅) as He by (vm_compute; reflexivity).
    refine (eq_trans
              (proj2 (save_booking_duplicate_or_stored ann_at_contact ann_phone
                        "79991234567" table "01.03.2026" 4 _ _ _ _) _) _).
    + vm_compute; reflexivity.
    + vm_compute; reflexivity.
    + vm_compute; reflexivity.
    + vm_compute; discriminate.
    + intros i b Hb. rewrite He, lookup_empty in Hb. discriminate Hb.
    + rewrite He. vm_compute. reflexivity.
  - refine (proj1 (save_booking_duplicate_or_stored ann_again_at_contact
                     ann_phone "79991234567" table "01.03.2026" 4 _ _ _ _) _).
    + vm_compute; reflexivity.
    + vm_compute; reflexivity.
    + vm_compute; reflexivity.
    + vm_compute; discriminate.
    + exists ann_id, (ann_booking pending). split; [vm_compute; reflexivity|].
      repeat split.
Defined.

(** C4 for Ann's confirmed table: after the cancel click and the reason
    all ten tables are free again and the booking is rejected; a second
    reject or cancel click is refused. *)
Lemma reject_releases_table_witness :
  bookings_db ann_confirmed !! ann_id = Some (ann_booking confirmed)
  /\ tables_db ann_confirmed = mkTables 9 10
  /\ tables_db (run ann_confirmed
                  [UCallback (click 1000 "cancel_00123456");
                   UMessage (say 1000 "Admin" "closed for repairs" ann_time)])
     = mkTables 10 10
  /\ bookings_db (run ann_confirmed
                    [UCallback (click 1000 "cancel_00123456");
                     UMessage (say 1000 "Admin" "closed for repairs" ann_time)])
       !! ann_id = Some (ann_booking rejected)
  /\ feed_update (run default_world office_day)
                 (UCallback (click 1000 "reject_00123456"))
     = (run default_world office_day,
        [AnswerCallback 1000 (Some TAlreadyProcessed)]).
Proof.
  assert (bookings_db ann_confirmed !! ann_id = Some (ann_booking confirmed))
    as Hb by (vm_compute; reflexivity).
  assert (tables_db ann_confirmed = mkTables 9 10) as Ht
    by (vm_compute; reflexivity).
  split; [exact Hb|]. split; [exact Ht|].
  assert (route (feed_update ann_confirmed
                   (UCallback (click 1000 "cancel_00123456"))).1
                (UMessage (say 1000 "Admin" "closed for repairs" ann_time))
          = Some H_process_admin_comment) as Hr by (vm_compute; reflexivity).
  destruct (proj1 (reject_releases_table ann_confirmed
                     (click 1000 "cancel_00123456") "cancel_00123456" ann_id
                     (ann_booking confirmed) admin_1000 eq_refl eq_refl Hb)
              eq_refl eq_refl eq_refl
              (say 1000 "Admin" "closed for repairs" ann_time) eq_refl Hr)
    as [H1 H2].
  split; [|split].
  - unfold run. cbn [foldl]. rewrite H1, Ht. reflexivity.
  - unfold run. cbn [foldl]. rewrite H2. apply lookup_insert_eq.
  - assert (bookings_db (run default_world office_day) !! ann_id
            = Some (ann_booking rejected)) as Hb' by (vm_compute; reflexivity).
    exact (proj1 (proj2 (reject_releases_table (run default_world office_day)
                           (click 1000 "reject_00123456") "reject_00123456"
                           ann_id (ann_booking rejected)
                           admin_1000 eq_refl eq_refl Hb') eq_refl) eq_refl).
Defined.

(** C3 (as amended) for Ann, who is asked for her contact and cancels. *)
Lemma cancel_input_witness :
  current_state ann_at_contact (say 7 "Ann" Label.cancel ann_time)
  = Some waiting_for_contact
  /\ cancel_returns_to_idle ann_at_contact (say 7 "Ann" Label.cancel ann_time).
Proof.
  assert (current_state ann_at_contact (say 7 "Ann" Label.cancel ann_time)
          = Some waiting_for_contact) as Hs by (vm_compute; reflexivity).
  split; [exact Hs|].
  apply (proj1 (cancel_input ann_at_contact (say 7 "Ann" Label.cancel ann_time)
                  eq_refl eq_refl) waiting_for_contact Hs).
  unfold cancellable. simpl. tauto.
Defined.

(** C3 as stated fails: the administrator who has been asked for the
    number of tables stays in that state after the cancel input, and the
    administrator who has been asked for the reason of a cancellation
    releases the table by it. *)
Lemma cancel_does_not_always_return_to_idle :
  (current_state awaiting_count (say 1000 "Admin" Label.cancel ann_time)
   = Some waiting_for_tables_count
   /\ ~ cancel_returns_to_idle awaiting_count
         (say 1000 "Admin" Label.cancel ann_time))
  /\ (current_state awaiting_reason (say 1000 "Admin" Label.cancel ann_time)
      = Some waiting_for_admin_comment
      /\ ~ cancel_returns_to_idle awaiting_reason
            (say 1000 "Admin" Label.cancel ann_time)).
Proof.
  split; (split; [vm_compute; reflexivity|]).
  - intros [H _]. vm_compute in H. discriminate H.
  - intros (_ & _ & _ & H). vm_compute in H. discriminate H.
Qed.

(** C8 (as amended) for Ann, who is not an administrator: her click on
    a confirm button is answered with the access-denied alert, her
    change-table-count command is ignored. *)
Lemma non_admin_is_kept_out_witness :
  is_admin 7 = false
  /\ feed_update ann_confirmed (UCallback (click 7 "confirm_50654321"))
     = (ann_confirmed, [AnswerCallback 7 (Some TAccessDenied)])
  /\ feed_update ann_confirmed
       (UMessage (say 7 "Ann" Label.change_tables ann_time))
     = (ann_confirmed, []).
Proof.
  split; [exact ann_is_no_admin|]. split.
  - exact (non_admin_is_kept_out ann_confirmed
             (UCallback (click 7 "confirm_50654321")) ann_is_no_admin).
  - assert (route ann_confirmed
              (UMessage (say 7 "Ann" Label.change_tables ann_time))
            = Some H_change_tables_start) as Hr by (vm_compute; reflexivity).
    assert (match route ann_confirmed
                    (UMessage (say 7 "Ann" Label.change_tables ann_time)) with
            | Some h =>
                In h admin_commands ->
                feed_update ann_confirmed
                  (UMessage (say 7 "Ann" Label.change_tables ann_time))
                = (ann_confirmed, [])
            | None =>
                feed_update ann_confirmed
                  (UMessage (say 7 "Ann" Label.change_tables ann_time))
                = (ann_confirmed, [])
            end) as H
      by exact (non_admin_is_kept_out ann_confirmed
                  (UMessage (say 7 "Ann" Label.change_tables ann_time))
                  ann_is_no_admin).
    rewrite Hr in H. apply H. unfold admin_commands. simpl. tauto.
Defined.

(** C8 as stated fails: Ann's list command gets no reply at all. *)
Lemma non_admin_command_gets_no_reply :
  is_admin 7 = false
  /\ route default_world (UMessage (say 7 "Ann" Label.list_bookings ann_time))
     = Some H_list_bookings
  /\ ~ access_denied 7
        (feed_update default_world
           (UMessage (say 7 "Ann" Label.list_bookings ann_time))).2.
Proof.
  split; [exact ann_is_no_admin|]. split; [vm_compute; reflexivity|].
  intros [H|[kb H]]; vm_compute in H; exact H.
Qed.


(** C7. [process_confirm] does not look at the date of a cottage
    booking.  Ann and Bob both have a pending request for the cottage on
    1 June 2026; once Ann's is confirmed the date is no longer available,
    and the confirm click on Bob's still sets it to [confirmed]: two
    confirmed cottage bookings for one date. *)
Theorem cottage_confirmed_twice :
  let w1 := (feed_update two_cottage_requests
               (UCallback (click 1000 "confirm_00123456"))).1 in
  let w2 := (feed_update w1 (UCallback (click 1000 "confirm_50654321"))).1 in
  is_date_available cottage "01.06.2026" two_cottage_requests = true
  /\ is_date_available cottage "01.06.2026" w1 = false
  /\ bookings_db w2 !! ann_id
     = Some (mkBooking ann_id cottage "01.06.2026" 6 7 "Ann" "89991112233"
                       confirmed "2025-11-05T12:00:00")
  /\ bookings_db w2 !! bob_id
     = Some (mkBooking bob_id cottage "01.06.2026" 6 8 "Bob" "89991112233"
                       confirmed "2025-11-05T12:00:00").
Proof. vm_compute. repeat split. Qed.

(** C9. The id is the last eight digits of the timestamp, so it comes
    back every 100 seconds.  Bob's request, made 100 seconds after Ann's
    in the same microsecond, gets her id and takes the place of her
    record: the store holds one booking, Bob's. *)
Theorem booking_id_reused :
  let w1 := run default_world ann_request in
  let w2 := run w1 (cottage_request 8 "Bob" late_time) in
  Text.make_id ann_time = Text.make_id late_time
  /\ bookings_db w1 !! ann_id = Some (ann_booking pending)
  /\ bookings_db w2 !! ann_id
     = Some (mkBooking ann_id cottage "01.06.2026" 6 8 "Bob" "89991112233"
                       pending "2025-11-05T12:00:00")
  /\ size (bookings_db w2) = 1%nat.
Proof. vm_compute. repeat split. Qed.

(** The condition on new ids cannot be dropped: when Bob's request
    takes the place of Ann's confirmed table booking, the ledger still
    counts one table as taken and no confirmed table booking is left. *)
Lemma reused_id_breaks_ledger :
  let w := run ann_confirmed (cottage_request 8 "Bob" late_time) in
  inv ann_confirmed /\ ~ ledger_inv w.
Proof.
  split.
  - apply (inv_run (ann_request ++ [UCallback (click 1000 "confirm_00123456")])
             default_world inv_default_world).
    vm_compute. repeat split; try discriminate; reflexivity.
  - intros [_ H]. vm_compute in H. discriminate H.
Qed.


(** C1. The ledger invariant does not hold in every reachable state.
    After the administrator has rejected Ann's table by a click, Bob's
    request takes the id of her booking (the ids repeat, see C9) and the
    reason that the administrator then sends releases a table that was
    never taken: 11 tables available of 10, from a state in which the
    invariant holds.  And when Bob's request takes the id of Ann's
    confirmed table, one table stays taken with no confirmed table
    booking left. *)
Theorem ledger_invariant_broken :
  let w := run default_world rejected_then_replaced in
  let w1 := (feed_update w reason_after_replacement).1 in
  let w2 := run ann_confirmed (cottage_request 8 "Bob" late_time) in
  ledger_inv w
  /\ route w reason_after_replacement = Some H_process_admin_comment
  /\ tables_db w1 = mkTables 11 10 /\ ~ ledger_inv w1
  /\ ledger_inv ann_confirmed
  /\ tables_db w2 = mkTables 9 10 /\ committed w2 = 0 /\ ~ ledger_inv w2.
Proof.
  cbv zeta. split; [|split; [|split; [|split; [|split; [|split; [|split]]]]]].
  - split; [split|]; vm_compute; first [discriminate | reflexivity].
  - vm_compute. reflexivity.
  - vm_compute. reflexivity.
  - intros [[_ H] _]. vm_compute in H. by apply H.
  - split; [split|]; vm_compute; first [discriminate | reflexivity].
  - vm_compute. reflexivity.
  - vm_compute. reflexivity.
  - intros [_ H]. vm_compute in H. discriminate H.
Qed.

(** C6. The duplicate test compares the date as it was typed.  Ann, whose
    request for a table on 01.03.2026 is pending, asks again for a table
    and types the date as 1.3.2026: both texts are accepted as the same
    day, no duplicate is reported, a second pending booking of hers for
    that day is stored and sent to the administrator. *)
Theorem same_day_booked_twice :
  let w := run default_world (ann_request ++ ann_respelled) in
  bookings_db w !! ann_id = Some (ann_booking pending)
  /\ current_state w ann_phone_again = Some waiting_for_contact
  /\ booking_date (data (session_of w 7)) = Some "1.3.2026"
  /\ strptime_date "1.3.2026" = strptime_date "01.03.2026"
  /\ strptime_date "01.03.2026" = Some (AsciiPlatform.day_number 2026 3 1)
  /\ feed_update w (UMessage ann_phone_again)
     = (state_clear 7
          (set_bookings (<[bob_id:=ann_second_booking]>
                           (<[ann_id:=ann_booking pending]> ∅)) w),
        [SaveData (<[bob_id:=ann_second_booking]>
                     (<[ann_id:=ann_booking pending]> ∅))
                  (mkTables 10 10) ∅;
         SendMessage 1000 (TNewBooking ann_second_booking)
                     (Inline ["confirm_50654321"; "reject_50654321"]);
         SendMessage 7 TBookingAccepted MainMenu]).
Proof.
  cbv zeta. repeat split; vm_compute; reflexivity.
Qed.

(** ** Instances of the further properties *)

(** Bob's first message leaves Ann's draft as it is. *)
Lemma other_sessions_untouched_witness :
  storage (feed_update ann_at_contact
             (UMessage (say 8 "Bob" Label.book_table bob_time))).1 !! 7
  = storage ann_at_contact !! 7.
Proof.
  apply (other_sessions_untouched ann_at_contact
           (UMessage (say 8 "Bob" Label.book_table bob_time)) 7).
  simpl. lia.
Defined.

(** Ann's pending booking through its confirmation and cancellation. *)
Lemma bookings_only_advance_witness :
  fresh_ids ann_pending confirm_then_cancel
  /\ records_kept ann_pending (run ann_pending confirm_then_cancel).
Proof.
  assert (fresh_ids ann_pending confirm_then_cancel) as Hfresh.
  { vm_compute. repeat split; try discriminate; reflexivity. }
  split; [exact Hfresh|].
  exact (bookings_only_advance confirm_then_cancel ann_pending Hfresh).
Defined.

(** Ann types the same request again fifty seconds later: it is refused
    and the store keeps her one pending booking. *)
Lemma one_pending_request_witness :
  unique_pending default_world
  /\ unique_pending (run default_world (ann_request ++ ann_repeated))
  /\ bookings_db (run default_world (ann_request ++ ann_repeated))
     = <[ann_id:=ann_booking pending]> ∅.
Proof.
  assert (unique_pending default_world) as H0.
  { intros i j bi bj Hi. simpl in Hi. rewrite lookup_empty in Hi.
    discriminate Hi. }
  split; [exact H0|]. split.
  - exact (one_pending_request (ann_request ++ ann_repeated) default_world H0).
  - vm_compute. reflexivity.
Defined.

(** The store after the administrator's day. *)
Lemma stored_bookings_well_formed_witness :
  sessions_ok default_world /\ store_ok default_world
  /\ store_ok (run default_world office_day).
Proof.
  assert (sessions_ok default_world) as Hs.
  { intros u s Hu. simpl in Hu. rewrite lookup_empty in Hu. discriminate Hu. }
  assert (store_ok default_world) as Hb.
  { intros i b Hi. simpl in Hi. rewrite lookup_empty in Hi. discriminate Hi. }
  split; [exact Hs|]. split; [exact Hb|].
  exact (proj2 (stored_bookings_well_formed office_day default_world Hs Hb)).
Defined.

(** A new installation restarted after the administrator's day. *)
Lemma restart_recovers_witness :
  writable new_disk = true
  /\ (boot (serve_all (boot new_disk) office_day).2).1
     = restarted (serve_all (boot new_disk) office_day).
Proof.
  split; [reflexivity|].
  exact (restart_recovers new_disk office_day eq_refl).
Defined.

(** While Ann is asked for the date of her table, the statistics label
    is read as a date. *)
Lemma route_by_state_witness :
  current_state ann_at_table_date (say 7 "Ann" Label.stats ann_time)
  = Some waiting_for_table_date
  /\ route ann_at_table_date (UMessage (say 7 "Ann" Label.stats ann_time))
     = Some H_process_table_date.
Proof.
  assert (current_state ann_at_table_date (say 7 "Ann" Label.stats ann_time)
          = Some waiting_for_table_date) as Hs by (vm_compute; reflexivity).
  split; [exact Hs|].
  refine (route_by_state ann_at_table_date (say 7 "Ann" Label.stats ann_time)
            waiting_for_table_date H_process_table_date Hs eq_refl _).
  split; [vm_compute; reflexivity|].
  intros Hin. vm_compute in Hin. intuition discriminate.
Defined.


Ltac not_label :=
  let H := fresh in intros H; vm_compute in H; intuition discriminate.

Ltac typed :=
  split; [reflexivity|]; split; [not_label|];
  split; [vm_compute; reflexivity | not_label].

(** Ann's table for four on 1 March 2026. *)
Lemma table_conversation_witness :
  run default_world ann_request
  = booked default_world ann_phone "79991234567" "01.03.2026" table 4.
Proof.
  apply (table_conversation default_world
           (say 7 "Ann" Label.book_table ann_time)
           (say 7 "Ann" "01.03.2026" ann_time)
           (say 7 "Ann" "4" ann_time) ann_phone "01.03.2026" 4 "79991234567").
  split; [done|]. split; [reflexivity|].
  split; [vm_compute; discriminate|]. split; [vm_compute; discriminate|].
  split; [reflexivity|]. split; [typed|].
  split. { exists (AsciiPlatform.day_number 2026 3 1).
           split; [vm_compute; reflexivity|].
           split; vm_compute; discriminate. }
  split. { exists "4". split; [typed|]. split; vm_compute; reflexivity. }
  split; [lia|].
  split. { split; [split; [vm_compute; reflexivity | not_label]|].
           right. split; [reflexivity|]. exists "+7 999 123-45-67".
           split; [typed|]. split; [not_label|].
           split; [vm_compute; reflexivity | vm_compute; lia]. }
  intros i b Hb. simpl in Hb. rewrite lookup_empty in Hb. discriminate Hb.
Defined.

(** Ann's cottage for six on 1 June 2026. *)
Lemma cottage_conversation_witness :
  run default_world (cottage_request 7 "Ann" ann_time)
  = booked default_world (say 7 "Ann" "89991112233" ann_time) "89991112233"
           "01.06.2026" cottage 6.
Proof.
  apply (cottage_conversation default_world
           (say 7 "Ann" Label.book_cottage ann_time)
           (say 7 "Ann" "01.06.2026" ann_time)
           (say 7 "Ann" "6" ann_time) (say 7 "Ann" "89991112233" ann_time)
           "01.06.2026" 6 "89991112233").
  split; [done|]. split; [reflexivity|]. split; [typed|].
  split. { exists (AsciiPlatform.day_number 2026 6 1).
           split; [vm_compute; reflexivity|].
           split; vm_compute; discriminate. }
  split; [vm_compute; reflexivity|].
  split. { exists "6". split; [typed|]. split; vm_compute; reflexivity. }
  split; [lia|].
  split. { split; [split; [vm_compute; reflexivity | not_label]|].
           right. split; [reflexivity|]. exists "89991112233".
           split; [typed|]. split; [not_label|].
           split; [vm_compute; reflexivity | vm_compute; lia]. }
  intros i b Hb. simpl in Hb. rewrite lookup_empty in Hb. discriminate Hb.
Defined.

(** Ann, whose table is confirmed, gives five stars and a sentence. *)
Lemma review_conversation_witness :
  run ann_confirmed
    [UMessage (say 7 "Ann" Label.review late_time);
     UMessage (say 7 "Ann" "⭐️ 5" late_time);
     UMessage (say 7 "Ann" "A fine evening" late_time)]
  = reviewed ann_confirmed (say 7 "Ann" "A fine evening" late_time) 5.
Proof.
  apply (review_conversation ann_confirmed
           (say 7 "Ann" Label.review late_time)
           (say 7 "Ann" "⭐️ 5" late_time)
           (say 7 "Ann" "A fine evening" late_time) 5).
  split; [done|]. split; [reflexivity|]. split; [vm_compute; reflexivity|].
  split. { exists ann_id, (ann_booking confirmed).
           split; [vm_compute; reflexivity | done]. }
  split. { exists "⭐️ 5". split; [reflexivity|].
           split; [vm_compute; reflexivity|].
           split; [vm_compute; reflexivity|].
           split; [vm_compute; reflexivity | not_label]. }
  exists "A fine evening". typed.
Defined.

(** The statistics after Ann's table was confirmed. *)
Lemma stats_add_up_witness :
  route ann_confirmed (UMessage (say 1000 "Admin" Label.stats ann_time))
  = Some H_show_stats
  /\ exists p c r sum n,
       feed_update ann_confirmed (UMessage (say 1000 "Admin" Label.stats ann_time))
       = (ann_confirmed,
          [SendMessage 1000 (TStats p c r (tables_db ann_confirmed) sum n)
                       NoMarkup])
       /\ (p + c + r)%nat = size (bookings_db ann_confirmed)
       /\ n = size (reviews_db ann_confirmed).
Proof.
  assert (route ann_confirmed (UMessage (say 1000 "Admin" Label.stats ann_time))
          = Some H_show_stats) as Hr by (vm_compute; reflexivity).
  split; [exact Hr|].
  exact (stats_add_up ann_confirmed (say 1000 "Admin" Label.stats ann_time)
           Hr admin_1000).
Defined.

(** The confirm button under the notification of Ann's request. *)
Lemma callback_data_round_trip_witness :
  (ch_prefix <$> select_callback (click 1000 "confirm_00123456"))
  = Some "confirm_"
  /\ exists rest, Text.split "_" ("confirm_" +:+ ann_id) = rest :: [ann_id].
Proof.
  apply (callback_data_round_trip "confirm_" ann_id
           (click 1000 "confirm_00123456")).
  - simpl. by left.
  - vm_compute. reflexivity.
  - reflexivity.
Defined.

(** Ann answers the question for the date with a photo. *)
Lemma error_ends_conversation_witness :
  In (LogError H_process_cottage_date)
     (feed_update ann_at_cottage_date (UMessage (photo 7 "Ann"))).2
  /\ route ann_at_cottage_date (UMessage (photo 7 "Ann"))
     = Some H_process_cottage_date
  /\ storage (feed_update ann_at_cottage_date (UMessage (photo 7 "Ann"))).1 !! 7
     = None.
Proof.
  assert (In (LogError H_process_cottage_date)
             (feed_update ann_at_cottage_date (UMessage (photo 7 "Ann"))).2)
    as Hlog by (vm_compute; auto).
  split; [exact Hlog|].
  destruct (error_ends_conversation ann_at_cottage_date
              (UMessage (photo 7 "Ann")) H_process_cottage_date Hlog)
    as [Hr Hs].
  split; [exact Hr | exact (Hs eq_refl)].
Defined.

(** Ann presses the donation button in the middle of her booking. *)
Lemma read_only_handlers_witness :
  route ann_at_contact (UMessage (say 7 "Ann" Label.donate ann_time))
  = Some H_donate_handler
  /\ (feed_update ann_at_contact
        (UMessage (say 7 "Ann" Label.donate ann_time))).1
     = ann_at_contact.
Proof.
  assert (route ann_at_contact (UMessage (say 7 "Ann" Label.donate ann_time))
          = Some H_donate_handler) as Hr by (vm_compute; reflexivity).
  split; [exact Hr|].
  apply (read_only_handlers ann_at_contact
           (UMessage (say 7 "Ann" Label.donate ann_time)) H_donate_handler Hr).
  simpl. tauto.
Defined.

End Instances.
